(** * AuthProvider: a shallow embedding of the Express/MSAL wrapper

    The development follows [AuthProvider] (the class with the handlers
    [handleRedirect], [getToken], the guards [isAuthorized] and [hasAccess],
    and the utilities [handleOverage], [applyAccessRule] and
    [getResourceNameFromScopes]) and [Constants.ts].

    JavaScript values are an inductive type, handlers are computations in a
    state-and-exception monad over the session and a trace of the observable
    actions ([res.redirect], [next], [console.log], calls to the MSAL client,
    the token validator and the fetch manager).  The collaborators that the
    class only calls are fields of records, as they are fields of [this]. *)

From Stdlib Require Import Ascii String Floats.SpecFloat Sorting.Sorted.
From stdpp Require Import base option list gmap strings.

Local Open Scope string_scope.
Local Open Scope Z_scope.

(** ** JavaScript values *)

#[local] Unset Elimination Schemes.
Inductive JsValue : Type :=
| JUndefined
| JNull
| JBool (b : bool)
| JNumber (x : spec_float)
| JString (s : string)
| JArray (elems : list JsValue)
| JObject (props : list (string * JsValue)).
#[local] Set Elimination Schemes.

Inductive JsError : Type :=
| TypeError
| SyntaxError
| InteractionRequiredAuthError (msg : string)
| OtherError (tag : string).

(** The result of evaluating an expression or an awaited promise: a value, or
    an exception (a rejected promise). *)
Inductive Completion (A : Type) : Type :=
| Normal (a : A)
| Throw (e : JsError).
Arguments Normal {A} a.
Arguments Throw {A} e.

Module Js.

(** ToBoolean. *)
Definition truthy (v : JsValue) : bool :=
  match v with
  | JUndefined | JNull => false
  | JBool b => b
  | JNumber (S754_zero _) | JNumber S754_nan => false
  | JNumber _ => true
  | JString s => negb (String.eqb s EmptyString)
  | JArray _ | JObject _ => true
  end.

(** [a === b].  Arrays and objects are compared by reference; every array
    or object in this model is a fresh one (built by [JSON.parse] or by a
    collaborator), so two of them are never identical. *)
Definition strictEq (a b : JsValue) : bool :=
  match a, b with
  | JUndefined, JUndefined => true
  | JNull, JNull => true
  | JBool x, JBool y => Bool.eqb x y
  | JNumber x, JNumber y => SFeqb x y
  | JString x, JString y => String.eqb x y
  | _, _ => false
  end.

Fixpoint assoc {A : Type} (k : string) (l : list (string * A)) : option A :=
  match l with
  | [] => None
  | (k', v) :: t => if String.eqb k' k then Some v else assoc k t
  end.

(** [v.k] and [v[k]] for the keys this code reads ([nonce], [stage],
    [path], [value], [id], [@odata.nextLink]): none of them is defined on a
    primitive or on an array, and reading a property of [undefined] or
    [null] raises a TypeError. *)
Definition getProp (v : JsValue) (k : string) : Completion JsValue :=
  match v with
  | JUndefined | JNull => Throw TypeError
  | JObject props => Normal (default JUndefined (assoc k props))
  | _ => Normal JUndefined
  end.

(** [hay.includes(needle)] on strings. *)
Fixpoint isSubstring (needle hay : string) : bool :=
  String.prefix needle hay ||
  match hay with
  | EmptyString => false
  | String _ rest => isSubstring needle rest
  end.

(** [list.includes(x)] on an array of strings. *)
Definition includesStr (l : list string) (x : string) : bool :=
  existsb (String.eqb x) l.

(** [creds.includes(elem)] where [creds] is whatever the token claim holds:
    [Array.prototype.includes] on an array, [String.prototype.includes] on
    a string, and a TypeError on anything else (no such method). *)
Definition includes (creds : JsValue) (elem : string) : Completion bool :=
  match creds with
  | JArray xs => Normal (existsb (fun x => strictEq x (JString elem)) xs)
  | JString s => Normal (isSubstring elem s)
  | _ => Throw TypeError
  end.

(** [l.filter(p)] with a callback that may throw: the callback runs on the
    elements in order, and the first exception ends the loop. *)
Fixpoint filterC {A : Type} (p : A -> Completion bool) (l : list A)
  : Completion (list A) :=
  match l with
  | [] => Normal []
  | x :: t =>
      match p x with
      | Throw e => Throw e
      | Normal b =>
          match filterC p t with
          | Throw e => Throw e
          | Normal r => Normal (if b then x :: r else r)
          end
      end
  end.

(** [l.findIndex(p)]: the first index whose element satisfies [p], or -1. *)
Fixpoint findIndexFrom {A : Type} (p : A -> bool) (l : list A) (i : Z) : Z :=
  match l with
  | [] => -1
  | x :: t => if p x then i else findIndexFrom p t (i + 1)
  end.

Definition findIndex {A : Type} (p : A -> bool) (l : list A) : Z :=
  findIndexFrom p l 0.

(** [l[i]]: [undefined] when [i] is not an index of [l]. *)
Definition at_index {A : Type} (l : list A) (i : Z) : option A :=
  if i <? 0 then None else l !! Z.to_nat i.

(** [s.split(sep)] for a one-character separator. *)
Fixpoint splitOn (sep : ascii) (s : string) : list string :=
  match s with
  | EmptyString => [EmptyString]
  | String c rest =>
      if Ascii.eqb c sep then EmptyString :: splitOn sep rest
      else match splitOn sep rest with
           | [] => [String c EmptyString]
           | h :: t => String c h :: t
           end
  end.

(** [StringUtils.isEmpty] of msal-common on a string. *)
Definition isEmpty (s : string) : bool := String.eqb s EmptyString.

(** The properties of [Object.prototype].  A read [o[k]] of one of these
    names on an ordinary object that has no own property [k] does not give
    [undefined]: it gives the inherited value, a function (the prototype
    itself for [__proto__]), which is an object that takes new properties. *)
Definition inheritedNames : list string :=
  ["constructor"; "__defineGetter__"; "__defineSetter__"; "hasOwnProperty";
   "__lookupGetter__"; "__lookupSetter__"; "isPrototypeOf";
   "propertyIsEnumerable"; "toString"; "valueOf"; "__proto__";
   "toLocaleString"].

Definition inherited (k : string) : bool := includesStr inheritedNames k.

(** The value of the string as a decimal numeral, when all its characters
    are digits. *)
Definition digitValue (c : ascii) : option Z :=
  let n := Z.of_N (N_of_ascii c) in
  if (48 <=? n) && (n <=? 57) then Some (n - 48) else None.

Fixpoint numeral (s : string) (acc : Z) : option Z :=
  match s with
  | EmptyString => Some acc
  | String c rest =>
      match digitValue c with
      | Some d => numeral rest (10 * acc + d)
      | None => None
      end
  end.

(** An array index: a property name that is the canonical numeral (no
    sign, no leading zero) of an integer from 0 to 2^32 - 2. *)
Definition arrayIndex (k : string) : option Z :=
  match k with
  | EmptyString => None
  | String c rest =>
      if Ascii.eqb c "0" && negb (String.eqb rest EmptyString) then None
      else match numeral k 0 with
           | Some n => if n <? 4294967295 then Some n else None
           | None => None
           end
  end.

(** The key order of an object (OrdinaryOwnPropertyKeys): the array indices
    first, in ascending order, then the other names in the order in which
    they were created.  [precedes k k'] tells whether a new key [k] is
    enumerated before the key [k'] that the object has. *)
Definition precedes (k k' : string) : bool :=
  match arrayIndex k, arrayIndex k' with
  | Some i, Some j => i <? j
  | Some _, None => true
  | None, _ => false
  end.

End Js.

(** ** JSON.stringify on arrays of strings *)

Module Json.

Definition hexDigit (n : N) : ascii :=
  if (n <? 10)%N then ascii_of_N (48 + n) else ascii_of_N (87 + n).

(** QuoteJSONString, one character: the two-character escapes, [\u00XX]
    for the other control characters, the character itself otherwise. *)
Definition escapeChar (c : ascii) : string :=
  let n := N_of_ascii c in
  if (n =? 8)%N then "\b"
  else if (n =? 9)%N then "\t"
  else if (n =? 10)%N then "\n"
  else if (n =? 12)%N then "\f"
  else if (n =? 13)%N then "\r"
  else if (n =? 34)%N then String "\" (String c EmptyString)
  else if (n =? 92)%N then "\\"
  else if (n <? 32)%N then
    String "\" (String "u" (String "0" (String "0"
      (String (hexDigit (n / 16)) (String (hexDigit (n mod 16)) EmptyString)))))
  else String c EmptyString.

Fixpoint escapeBody (s : string) : string :=
  match s with
  | EmptyString => EmptyString
  | String c rest => escapeChar c ++ escapeBody rest
  end.

Definition dquote : ascii := ascii_of_N 34.

Definition quote (s : string) : string :=
  String dquote (escapeBody s ++ String dquote EmptyString).

(** [JSON.stringify(a)] for an array of strings [a]. *)
Definition stringify (a : list string) : string :=
  "[" ++ String.concat "," (quote <$> a) ++ "]".

(** The way back, one character at a time. *)
Definition hexValue (c : ascii) : option N :=
  let n := N_of_ascii c in
  if ((48 <=? n) && (n <=? 57))%N then Some (n - 48)%N
  else if ((97 <=? n) && (n <=? 102))%N then Some (n - 87)%N
  else None.

(** Reads back one escaped character from the front of a text; the closing
    quote is not one. *)
Definition unescapeChar (s : string) : option (ascii * string) :=
  match s with
  | EmptyString => None
  | String c r =>
      if Ascii.eqb c "\" then
        match r with
        | EmptyString => None
        | String d r' =>
            if Ascii.eqb d "b" then Some (ascii_of_N 8, r')
            else if Ascii.eqb d "t" then Some (ascii_of_N 9, r')
            else if Ascii.eqb d "n" then Some (ascii_of_N 10, r')
            else if Ascii.eqb d "f" then Some (ascii_of_N 12, r')
            else if Ascii.eqb d "r" then Some (ascii_of_N 13, r')
            else if Ascii.eqb d "u" then
              match r' with
              | String _ (String _ (String h (String l r''))) =>
                  match hexValue h, hexValue l with
                  | Some x, Some y => Some (ascii_of_N (16 * x + y), r'')
                  | _, _ => None
                  end
              | _ => None
              end
            else Some (d, r')
        end
      else if Ascii.eqb c dquote then None
      else Some (c, r)
  end.

End Json.

Module JsonState.

(** [JSON.stringify({ stage, path, nonce })] for the state envelope built
    by the middleware: [stage] and [path] are strings, and a property whose
    value is [undefined] is left out. *)
Definition stringify (stage path : string) (nonce : option string) : string :=
  "{" ++ Json.quote "stage" ++ ":" ++ Json.quote stage ++
  "," ++ Json.quote "path" ++ ":" ++ Json.quote path ++
  match nonce with
  | Some n => "," ++ Json.quote "nonce" ++ ":" ++ Json.quote n
  | None => EmptyString
  end ++ "}".

End JsonState.

(** ** Constants.ts *)

Module AppStages.
Definition SIGN_IN : string := "sign_in".
Definition SIGN_OUT : string := "sign_out".
Definition ACQUIRE_TOKEN : string := "acquire_token".
End AppStages.

Module AccessConstants.
Definition GROUPS : string := "groups".
Definition ROLES : string := "roles".
Definition CLAIM_NAMES : string := "_claim_name".
Definition CLAIM_SOURCES : string := "_claim_sources".
Definition PAGINATION_LINK : string := "@odata.nextLink".
Definition GRAPH_MEMBERS_ENDPOINT : string :=
  "https://graph.microsoft.com/v1.0/me/memberOf".
Definition GRAPH_MEMBER_SCOPES : string := "User.Read GroupMember.Read.All".
End AccessConstants.

Module ErrorMessages.
Definition NOT_PERMITTED : string := "Not permitted".
Definition INVALID_TOKEN : string := "Invalid token".
Definition CANNOT_DETERMINE_APP_STAGE : string :=
  "Cannot determine application stage".
Definition CANNOT_VALIDATE_TOKEN : string := "Cannot validate token".
Definition NONCE_MISMATCH : string := "Nonce does not match".
Definition INTERACTION_REQUIRED : string := "interaction_required".
Definition TOKEN_ACQUISITION_FAILED : string := "Token acquisition failed".
Definition AUTH_CODE_NOT_OBTAINED : string :=
  "Authorization code cannot be obtained".
Definition TOKEN_NOT_FOUND : string := "No token found".
Definition STATE_NOT_FOUND : string := "State not found".
Definition USER_HAS_NO_ROLE : string := "User does not have any roles".
Definition USER_NOT_IN_ROLE : string := "User does not have this role".
Definition USER_HAS_NO_GROUP : string := "User does not have any groups".
Definition USER_NOT_IN_GROUP : string := "User does not have this group".
Definition METHOD_NOT_ALLOWED : string := "Method not allowed for this route".
Definition SESSION_NOT_FOUND : string := "No session found for this request".
End ErrorMessages.

(** ** Data model *)

(** A JavaScript object used as a record of named entries, in the order in
    which [Object.keys] and [Object.values] enumerate it (the two agree). *)
Abbreviation JsObj A := (list (string * A)).

Module Resource.
(** Modelled from the spec: [Types.ts] is not among the sources; a resource
    has its scope sequence and the access token acquired for it, if any.  A
    field that is absent from the object is [None]. *)
Record t := mk { scopes : option (list string); accessToken : option string }.
End Resource.

Module AccessRule.
(** Modelled from the spec: [Types.ts] is not among the sources; an access
    rule lists the HTTP methods and carries [groups], [roles] or both. *)
Record t := mk {
  methods : list string;
  groups : option (list string);
  roles : option (list string) }.
End AccessRule.

Module AuthRoutes.
(** The routes that the handlers read from [this.appSettings.authRoutes]. *)
Record t := mk {
  redirect : string;
  error : string;
  unauthorized : string;
  postLogin : string;
  postLogout : string }.
End AuthRoutes.

Module AppSettings.
(** Modelled from the spec: [Types.ts] is not among the sources; the settings
    hold the routes, the two resource tables and, optionally, the access
    matrix (route name to rule). *)
Record t := mk {
  authRoutes : AuthRoutes.t;
  remoteResources : JsObj Resource.t;
  ownedResources : JsObj Resource.t;
  accessMatrix : option (JsObj AccessRule.t) }.
End AppSettings.

Module Account.
(** [AccountInfo] of msal-node, with the fields that [signIn] initialises. *)
Record t := mk {
  homeAccountId : string;
  environment : string;
  tenantId : string;
  username : string;
  idTokenClaims : option (gmap string JsValue) }.

Definition set_idTokenClaims (c : gmap string JsValue) (a : t) : t :=
  mk (homeAccountId a) (environment a) (tenantId a) (username a) (Some c).
End Account.

Module AuthorizationUrlRequest.
Record t := mk {
  authority : string;
  scopes : list string;
  state : string;
  redirectUri : string;
  prompt : option string;
  account : option Account.t }.
End AuthorizationUrlRequest.

Module AuthorizationCodeRequest.
Record t := mk {
  authority : string;
  scopes : list string;
  redirectUri : string;
  code : option string }.

Definition set_code (c : option string) (r : t) : t :=
  mk (authority r) (scopes r) (redirectUri r) c.
End AuthorizationCodeRequest.

Module SilentFlowRequest.
Record t := mk { account : option Account.t; scopes : list string }.
End SilentFlowRequest.

Module AuthenticationResult.
Record t := mk {
  accessToken : string;
  idToken : string;
  account : option Account.t }.
End AuthenticationResult.

Module Session.
(** The session variables of the class; a variable that was never assigned
    is [None] ([isAuthenticated] is only ever tested for truth). *)
Record t := mk {
  isAuthenticated : bool;
  account : option Account.t;
  nonce : option string;
  authCodeRequest : option AuthorizationUrlRequest.t;
  tokenRequest : option AuthorizationCodeRequest.t;
  remoteResources : option (gmap string Resource.t) }.

Definition set_isAuthenticated (b : bool) (s : t) : t :=
  mk b (account s) (nonce s) (authCodeRequest s) (tokenRequest s)
     (remoteResources s).
Definition set_account (a : option Account.t) (s : t) : t :=
  mk (isAuthenticated s) a (nonce s) (authCodeRequest s) (tokenRequest s)
     (remoteResources s).
Definition set_authCodeRequest (r : AuthorizationUrlRequest.t) (s : t) : t :=
  mk (isAuthenticated s) (account s) (nonce s) (Some r) (tokenRequest s)
     (remoteResources s).
Definition set_tokenRequest (r : AuthorizationCodeRequest.t) (s : t) : t :=
  mk (isAuthenticated s) (account s) (nonce s) (authCodeRequest s) (Some r)
     (remoteResources s).
Definition set_remoteResources (m : gmap string Resource.t) (s : t) : t :=
  mk (isAuthenticated s) (account s) (nonce s) (authCodeRequest s)
     (tokenRequest s) (Some m).
End Session.

Module Request.
(** The parts of the Express request that the handlers read.  The session is
    the mutable part and lives in the state of the monad below. *)
Record t := mk {
  method : string;
  route_path : string;
  query_state : option string;
  query_code : option string;
  headers_authorization : option string }.
End Request.

Module TokenOptions.
(** [options.resource.scopes] is all that [getToken] reads of its options. *)
Record t := mk { resource_scopes : list string }.
End TokenOptions.

Module AuthCodeParams.
(** The parameters that [signIn] and [getToken] hand to [getAuthCode]. *)
Record t := mk {
  authority : string;
  scopes : list string;
  state : string;
  redirect : string;
  prompt : option string;
  account : option Account.t }.
End AuthCodeParams.

Module GuardOptions.
(** [options.accessRule] is all that [hasAccess] reads of its options. *)
Record t := mk { accessRule : AccessRule.t }.
End GuardOptions.

(** ** Observable actions *)

Inductive Event : Type :=
| ConsoleLog (msg : string)
| ConsoleLogError (e : JsError)
| ConsoleLogResponse (r : AuthenticationResult.t)
| ResRedirect (url : string)
| ResRedirectValue (v : JsValue)
| NextCalled
| NextError (e : JsError)
| UnhandledRejection (e : JsError)
| AssignedInherited (key token : string)
| CalledAcquireTokenByCode (r : AuthorizationCodeRequest.t)
| CalledAcquireTokenSilent (r : SilentFlowRequest.t)
| CalledGetAuthCodeUrl (r : AuthorizationUrlRequest.t)
| CalledValidateIdToken (idToken : string)
| CalledValidateAccessToken (token : option string) (path : string)
| CalledCallApiEndpoint (url token : string)
| CalledHandlePagination (token : string) (nextLink : JsValue).

(** ** Collaborators *)

Module MsalClient.
Record t := mk {
  acquireTokenByCode :
    AuthorizationCodeRequest.t -> Completion AuthenticationResult.t;
  acquireTokenSilent :
    SilentFlowRequest.t -> Completion AuthenticationResult.t;
  getAuthCodeUrl : AuthorizationUrlRequest.t -> Completion string }.
End MsalClient.

Module TokenValidator.
Record t := mk {
  validateIdToken : string -> Completion bool;
  validateAccessToken : option string -> string -> Completion bool }.
End TokenValidator.

Module CryptoProvider.
Record t := mk {
  base64Encode : string -> string;
  base64Decode : string -> string }.
End CryptoProvider.

Module Runtime.
(** What the class reaches through globals and static classes: [JSON.parse],
    [FetchManager] and [UrlUtils]. *)
Record t := mk {
  JSON_parse : string -> Completion JsValue;
  callApiEndpoint : string -> string -> Completion JsValue;
  handlePagination : string -> JsValue -> Completion JsValue;
  ensureAbsoluteUrl : Request.t -> string -> string }.
End Runtime.

Module AuthProvider.
Record t := mk {
  appSettings : AppSettings.t;
  authority : string;
  cryptoProvider : CryptoProvider.t;
  tokenValidator : TokenValidator.t;
  msalClient : MsalClient.t }.
End AuthProvider.

(** ** The handler monad *)

Record World := mkWorld { session : option Session.t; trace : list Event }.

Definition M (A : Type) : Type := World -> Completion A * World.

Definition ret {A} (a : A) : M A := fun w => (Normal a, w).

Definition bind {A B} (m : M A) (k : A -> M B) : M B :=
  fun w =>
    match m w with
    | (Normal a, w') => k a w'
    | (Throw e, w') => (Throw e, w')
    end.

Definition throw {A} (e : JsError) : M A := fun w => (Throw e, w).

(** [try { body } catch (error) { handler }] *)
Definition try_catch {A} (body : M A) (handler : JsError -> M A) : M A :=
  fun w =>
    match body w with
    | (Normal a, w') => (Normal a, w')
    | (Throw e, w') => handler e w'
    end.

Definition liftC {A} (c : Completion A) : M A := fun w => (c, w).

Definition emit (e : Event) : M unit :=
  fun w => (Normal tt, mkWorld (session w) (trace w ++ [e])).

(** [req.session]: possibly [undefined]. *)
Definition reqSession : M (option Session.t) := fun w => (Normal (session w), w).

(** [req.session.x]: a TypeError when [req.session] is [undefined]. *)
Definition readSession : M Session.t :=
  fun w =>
    match session w with
    | Some s => (Normal s, w)
    | None => (Throw TypeError, w)
    end.

(** [req.session.x = v] *)
Definition writeSession (f : Session.t -> Session.t) : M unit :=
  fun w =>
    match session w with
    | Some s => (Normal tt, mkWorld (Some (f s)) (trace w))
    | None => (Throw TypeError, w)
    end.

(** [o.x] where [o] may be [undefined]. *)
Definition deref {A} (o : option A) : M A :=
  match o with
  | Some a => ret a
  | None => throw TypeError
  end.

(** A call of an [async] function that is not awaited: when it raises, the
    rejection reaches nobody. *)
Definition detached (m : M unit) : M unit :=
  try_catch m (fun e => emit (UnhandledRejection e)).

Declare Scope js_scope.
Delimit Scope js_scope with js.
Notation "x <- m ;; k" := (bind m (fun x => k))
  (at level 100, m at next level, right associativity) : js_scope.
Notation "m ;; k" := (bind m (fun _ => k))
  (at level 100, right associativity) : js_scope.
Local Open Scope js_scope.

Definition console_log (msg : string) : M unit := emit (ConsoleLog msg).
Definition console_log_error (e : JsError) : M unit := emit (ConsoleLogError e).
Definition res_redirect (url : string) : M unit := emit (ResRedirect url).
Definition next : M unit := emit NextCalled.
Definition next_error (e : JsError) : M unit := emit (NextError e).

(** The world a handler starts in, and what it leaves. *)
Definition start (s : option Session.t) : World := mkWorld s [].
Definition run {A} (m : M A) (s : option Session.t) : Completion A * World :=
  m (start s).

(** ** The class *)

Section AuthProviderMethods.

Variable this : AuthProvider.t.
Variable rt : Runtime.t.

Let appSettings := AuthProvider.appSettings this.
Let authRoutes := AppSettings.authRoutes appSettings.
Let unauthorized := AuthRoutes.unauthorized authRoutes.

(** *** Awaited calls, recorded in the trace *)

Definition acquireTokenByCode (r : AuthorizationCodeRequest.t)
  : M AuthenticationResult.t :=
  emit (CalledAcquireTokenByCode r) ;;
  liftC (MsalClient.acquireTokenByCode (AuthProvider.msalClient this) r).

Definition acquireTokenSilent (r : SilentFlowRequest.t)
  : M AuthenticationResult.t :=
  emit (CalledAcquireTokenSilent r) ;;
  liftC (MsalClient.acquireTokenSilent (AuthProvider.msalClient this) r).

Definition getAuthCodeUrl (r : AuthorizationUrlRequest.t) : M string :=
  emit (CalledGetAuthCodeUrl r) ;;
  liftC (MsalClient.getAuthCodeUrl (AuthProvider.msalClient this) r).

Definition validateIdToken (idToken : string) : M bool :=
  emit (CalledValidateIdToken idToken) ;;
  liftC (TokenValidator.validateIdToken
           (AuthProvider.tokenValidator this) idToken).

Definition validateAccessToken (token : option string) (path : string)
  : M bool :=
  emit (CalledValidateAccessToken token path) ;;
  liftC (TokenValidator.validateAccessToken
           (AuthProvider.tokenValidator this) token path).

Definition callApiEndpoint (url token : string) : M JsValue :=
  emit (CalledCallApiEndpoint url token) ;;
  liftC (Runtime.callApiEndpoint rt url token).

Definition handlePagination (token : string) (nextLink : JsValue)
  : M JsValue :=
  emit (CalledHandlePagination token nextLink) ;;
  liftC (Runtime.handlePagination rt token nextLink).

(** *** applyAccessRule *)

Definition applyAccessRule (method : string) (rule : AccessRule.t)
    (creds : JsValue) (isGroups : bool) : M bool :=
  if Js.includesStr (AccessRule.methods rule) method then
    if isGroups then
      groups <- deref (AccessRule.groups rule) ;;
      intersection <- liftC (Js.filterC (Js.includes creds) groups) ;;
      if Z.of_nat (length intersection) <? 1 then
        console_log ErrorMessages.USER_NOT_IN_GROUP ;; ret false
      else ret true
    else
      roles <- deref (AccessRule.roles rule) ;;
      intersection <- liftC (Js.filterC (Js.includes creds) roles) ;;
      if Z.of_nat (length intersection) <? 1 then
        console_log ErrorMessages.USER_NOT_IN_ROLE ;; ret false
      else ret true
  else
    console_log ErrorMessages.METHOD_NOT_ALLOWED ;; ret false.

(** *** getResourceNameFromScopes *)

(** A property that the object does not have is created at its place in
    the key order: an array index among the array indices, in ascending
    order, any other name last. *)
Fixpoint define {A : Type} (target : JsObj A) (k : string) (v : A) : JsObj A :=
  match target with
  | [] => [(k, v)]
  | (k', v') :: t =>
      if Js.precedes k k' then (k, v) :: (k', v') :: t
      else (k', v') :: define t k v
  end.

(** The value of a property that the object has is replaced where it is. *)
Fixpoint replace {A : Type} (target : JsObj A) (k : string) (v : A) : JsObj A :=
  match target with
  | [] => []
  | (k', v') :: t =>
      if String.eqb k' k then (k, v) :: t else (k', v') :: replace t k v
  end.

(** [target[k] = v] on a new object that is being filled: an existing key
    keeps its place, a new one takes its place in the key order. *)
Definition assign {A : Type} (target : JsObj A) (k : string) (v : A) : JsObj A :=
  match Js.assoc k target with
  | Some _ => replace target k v
  | None => define target k v
  end.

(** [{ ...a, ...b }] *)
Definition spread {A : Type} (a b : JsObj A) : JsObj A :=
  fold_left (fun acc kv => assign acc kv.1 kv.2) b
    (fold_left (fun acc kv => assign acc kv.1 kv.2) a []).

Definition allResources : JsObj Resource.t :=
  spread (AppSettings.remoteResources appSettings)
         (AppSettings.ownedResources appSettings).

(** [JSON.stringify(resource.scopes) === JSON.stringify(scopes)]; a
    resource without scopes stringifies to [undefined]. *)
Definition sameScopes (scopes : list string) (resource : Resource.t) : bool :=
  match Resource.scopes resource with
  | Some s => String.eqb (Json.stringify s) (Json.stringify scopes)
  | None => false
  end.

Definition getResourceNameFromScopes (scopes : list string) : option string :=
  let index := Js.findIndex (sameScopes scopes) (allResources.*2) in
  let resourceName := Js.at_index (allResources.*1) index in
  resourceName.

(** The property key that [[resourceName]] denotes. *)
Definition propKey (resourceName : option string) : string :=
  default "undefined" resourceName.

(** *** getAuthCode *)

Definition getAuthCode (req : Request.t) (params : AuthCodeParams.t) : M unit :=
  s <- readSession ;;
  _ <- deref (Session.authCodeRequest s) ;;
  writeSession (Session.set_authCodeRequest
    (AuthorizationUrlRequest.mk
       (AuthCodeParams.authority params) (AuthCodeParams.scopes params)
       (AuthCodeParams.state params) (AuthCodeParams.redirect params)
       (AuthCodeParams.prompt params) (AuthCodeParams.account params))) ;;
  tokenRequest <- deref (Session.tokenRequest s) ;;
  writeSession (Session.set_tokenRequest
    (AuthorizationCodeRequest.mk
       (AuthCodeParams.authority params) (AuthCodeParams.scopes params)
       (AuthCodeParams.redirect params)
       (AuthorizationCodeRequest.code tokenRequest))) ;;
  try_catch
    (s <- readSession ;;
     authCodeRequest <- deref (Session.authCodeRequest s) ;;
     response <- getAuthCodeUrl authCodeRequest ;;
     res_redirect response)
    (fun error =>
       console_log ErrorMessages.AUTH_CODE_NOT_OBTAINED ;;
       console_log_error error).

(** *** handleOverage *)

(** [req.session.account.idTokenClaims] *)
Definition readClaims : M (gmap string JsValue) :=
  s <- readSession ;;
  account <- deref (Session.account s) ;;
  deref (Account.idTokenClaims account).

(** [req.session.account.idTokenClaims = claims] *)
Definition writeClaims (claims : gmap string JsValue) : M unit :=
  s <- readSession ;;
  account <- deref (Session.account s) ;;
  writeSession (Session.set_account
                  (Some (Account.set_idTokenClaims claims account))).

(** [claims[k]] *)
Definition claim (claims : gmap string JsValue) (k : string) : JsValue :=
  default JUndefined (claims !! k).

(** [value.map((v) => v.id)] *)
Fixpoint mapIds (l : list JsValue) : Completion (list JsValue) :=
  match l with
  | [] => Normal []
  | v :: t =>
      match Js.getProp v "id" with
      | Throw e => Throw e
      | Normal i =>
          match mapIds t with
          | Throw e => Throw e
          | Normal r => Normal (i :: r)
          end
      end
  end.

Definition memberIds (value : JsValue) : Completion JsValue :=
  match value with
  | JArray l =>
      match mapIds l with
      | Throw e => Throw e
      | Normal ids => Normal (JArray ids)
      end
  | _ => Throw TypeError
  end.

(** After the claims are rewritten with the fetched groups: the rule is
    applied to them, and a refusal ends in a redirect. *)
Definition checkGroups (req : Request.t) (rule : AccessRule.t) : M unit :=
  claims <- readClaims ;;
  ok <- applyAccessRule (Request.method req) rule (claim claims "groups") true ;;
  if negb ok then res_redirect unauthorized else ret tt.

Definition handleOverage (req : Request.t) (rule : AccessRule.t) : M unit :=
  claims <- readClaims ;;
  let newIdTokenClaims :=
    delete "_claim_sources" (delete "_claim_names" claims) in
  s <- readSession ;;
  let silentRequest :=
    SilentFlowRequest.mk (Session.account s)
      ["User.Read"; "GroupMember.Read.All"] in
  try_catch
    (tokenResponse <- acquireTokenSilent silentRequest ;;
     try_catch
       (graphResponse <-
          callApiEndpoint "https://graph.microsoft.com/v1.0/me/memberOf"
            (AuthenticationResult.accessToken tokenResponse) ;;
        nextLink <- liftC (Js.getProp graphResponse "@odata.nextLink") ;;
        if Js.truthy nextLink then
          try_catch
            (userGroups <-
               handlePagination
                 (AuthenticationResult.accessToken tokenResponse) nextLink ;;
             writeClaims (<["groups" := userGroups]> newIdTokenClaims) ;;
             checkGroups req rule)
            (fun error => console_log_error error)
        else
          value <- liftC (Js.getProp graphResponse "value") ;;
          ids <- liftC (memberIds value) ;;
          writeClaims (<["groups" := ids]> newIdTokenClaims) ;;
          checkGroups req rule)
       (fun error => console_log_error error))
    (fun error => console_log_error error).

(** *** handleRedirect *)

(** [req.session.tokenRequest.code = req.query.code] *)
Definition attachCode (req : Request.t) : M unit :=
  s <- readSession ;;
  tokenRequest <- deref (Session.tokenRequest s) ;;
  writeSession (Session.set_tokenRequest
    (AuthorizationCodeRequest.set_code (Request.query_code req) tokenRequest)).

(** [req.session.tokenRequest] *)
Definition readTokenRequest : M AuthorizationCodeRequest.t :=
  s <- readSession ;;
  deref (Session.tokenRequest s).

(** [req.session.remoteResources[resourceName].accessToken = token].  The
    read [remoteResources[resourceName]] goes through the prototype chain:
    when the object has no own entry of that name and the name is one that
    every object inherits, the token is assigned to the inherited object,
    which is no part of the session, and nothing is raised; for any other
    missing name the read gives [undefined] and the assignment raises a
    TypeError. *)
Definition storeAccessToken (resourceName : option string) (token : string)
  : M unit :=
  s <- readSession ;;
  remoteResources <- deref (Session.remoteResources s) ;;
  match remoteResources !! propKey resourceName with
  | Some resource =>
      writeSession (Session.set_remoteResources
        (<[propKey resourceName :=
             Resource.mk (Resource.scopes resource) (Some token)]>
           remoteResources))
  | None =>
      if Js.inherited (propKey resourceName)
      then emit (AssignedInherited (propKey resourceName) token)
      else throw TypeError
  end.

(** [res.redirect(state.path)] *)
Definition redirectToPath (state : JsValue) : M unit :=
  path <- liftC (Js.getProp state "path") ;;
  match path with
  | JString url => res_redirect url
  | v => emit (ResRedirectValue v)
  end.

Definition completeSignIn (req : Request.t) : M unit :=
  attachCode req ;;
  try_catch
    (tokenRequest <- readTokenRequest ;;
     tokenResponse <- acquireTokenByCode tokenRequest ;;
     emit (ConsoleLogResponse tokenResponse) ;;
     try_catch
       (isIdTokenValid <-
          validateIdToken (AuthenticationResult.idToken tokenResponse) ;;
        if isIdTokenValid then
          writeSession
            (Session.set_account (AuthenticationResult.account tokenResponse)) ;;
          writeSession (Session.set_isAuthenticated true) ;;
          res_redirect (AuthRoutes.postLogin authRoutes)
        else
          console_log ErrorMessages.INVALID_TOKEN ;;
          res_redirect unauthorized)
       (fun error =>
          console_log ErrorMessages.CANNOT_VALIDATE_TOKEN ;;
          console_log_error error ;;
          next_error error))
    (fun error =>
       console_log ErrorMessages.TOKEN_ACQUISITION_FAILED ;;
       console_log_error error ;;
       next_error error).

Definition completeAcquireToken (req : Request.t) (state : JsValue) : M unit :=
  tokenRequest <- readTokenRequest ;;
  let resourceName :=
    getResourceNameFromScopes (AuthorizationCodeRequest.scopes tokenRequest) in
  attachCode req ;;
  try_catch
    (tokenRequest <- readTokenRequest ;;
     tokenResponse <- acquireTokenByCode tokenRequest ;;
     emit (ConsoleLogResponse tokenResponse) ;;
     storeAccessToken resourceName
       (AuthenticationResult.accessToken tokenResponse) ;;
     redirectToPath state)
    (fun error =>
       console_log ErrorMessages.TOKEN_ACQUISITION_FAILED ;;
       console_log_error error ;;
       next_error error).

(** [req.session.nonce] as a value: a string, or [undefined]. *)
Definition nonceValue (s : Session.t) : JsValue :=
  match Session.nonce s with
  | Some n => JString n
  | None => JUndefined
  end.

(** [req.query.state] is truthy: present and not the empty string. *)
Definition presentState (req : Request.t) : option string :=
  match Request.query_state req with
  | Some st => if String.eqb st EmptyString then None else Some st
  | None => None
  end.

Definition handleRedirect (req : Request.t) : M unit :=
  match presentState req with
  | Some queryState =>
      state <- liftC (Runtime.JSON_parse rt
                        (CryptoProvider.base64Decode
                           (AuthProvider.cryptoProvider this) queryState)) ;;
      stateNonce <- liftC (Js.getProp state "nonce") ;;
      s <- readSession ;;
      if Js.strictEq stateNonce (nonceValue s) then
        stage <- liftC (Js.getProp state "stage") ;;
        if Js.strictEq stage (JString AppStages.SIGN_IN) then
          completeSignIn req
        else if Js.strictEq stage (JString AppStages.ACQUIRE_TOKEN) then
          completeAcquireToken req state
        else
          console_log ErrorMessages.CANNOT_DETERMINE_APP_STAGE ;;
          res_redirect (AuthRoutes.error authRoutes)
      else
        console_log ErrorMessages.NONCE_MISMATCH ;;
        res_redirect unauthorized
  | None =>
      console_log ErrorMessages.STATE_NOT_FOUND ;;
      res_redirect unauthorized
  end.

(** *** getToken *)

(** [{ ...this.appSettings.remoteResources[resourceName], accessToken: null }].
    What the read gives for a name that is not configured (nothing, or a
    function inherited from [Object.prototype]) has no enumerable property
    of its own: the spread copies nothing from it. *)
Definition freshResource (resourceName : option string) : Resource.t :=
  match Js.assoc (propKey resourceName)
          (AppSettings.remoteResources appSettings) with
  | Some configured => Resource.mk (Resource.scopes configured) None
  | None => Resource.mk None None
  end.

(** The first half of the middleware: [req.session.remoteResources] is
    created when it is missing, then assigned a new object with the one
    entry of the resource. *)
Definition resetRemoteResources (resourceName : option string) : M unit :=
  s <- readSession ;;
  match Session.remoteResources s with
  | Some _ => ret tt
  | None => writeSession (Session.set_remoteResources ∅)
  end ;;
  writeSession (Session.set_remoteResources
                  {[ propKey resourceName := freshResource resourceName ]}).

(** The second half: the [try] with the silent acquisition, and the
    [catch] that starts the interactive one. *)
Definition acquireForResource (req : Request.t) (scopes : list string)
    (resourceName : option string) : M unit :=
  try_catch
    (s <- readSession ;;
     let silentRequest := SilentFlowRequest.mk (Session.account s) scopes in
     tokenResponse <- acquireTokenSilent silentRequest ;;
     emit (ConsoleLogResponse tokenResponse) ;;
     (if Js.isEmpty (AuthenticationResult.accessToken tokenResponse) then
        console_log ErrorMessages.TOKEN_NOT_FOUND ;;
        throw (InteractionRequiredAuthError ErrorMessages.INTERACTION_REQUIRED)
      else ret tt) ;;
     storeAccessToken resourceName
       (AuthenticationResult.accessToken tokenResponse) ;;
     next)
    (fun error =>
       match error with
       | InteractionRequiredAuthError _ =>
           s <- readSession ;;
           let state :=
             CryptoProvider.base64Encode (AuthProvider.cryptoProvider this)
               (JsonState.stringify AppStages.ACQUIRE_TOKEN
                  (Request.route_path req) (Session.nonce s)) in
           let params :=
             AuthCodeParams.mk (AuthProvider.authority this) scopes state
               (Runtime.ensureAbsoluteUrl rt req (AuthRoutes.redirect authRoutes))
               None (Session.account s) in
           detached (getAuthCode req params)
       | _ => next_error error
       end).

Definition getToken (options : TokenOptions.t) (req : Request.t) : M unit :=
  let scopes := TokenOptions.resource_scopes options in
  let resourceName := getResourceNameFromScopes scopes in
  resetRemoteResources resourceName ;;
  acquireForResource req scopes resourceName.

(** *** Guards *)

Definition isAuthorized (req : Request.t) : M unit :=
  authorization <- deref (Request.headers_authorization req) ;;
  let accessToken := Js.at_index (Js.splitOn " " authorization) 1 in
  if Js.truthy (JString authorization) then
    valid <- validateAccessToken accessToken (Request.route_path req) ;;
    if negb valid then
      console_log ErrorMessages.INVALID_TOKEN ;;
      res_redirect unauthorized
    else next
  else
    console_log ErrorMessages.TOKEN_NOT_FOUND ;;
    res_redirect unauthorized.

Definition hasAccess (options : GuardOptions.t) (req : Request.t) : M unit :=
  let rule := GuardOptions.accessRule options in
  sess <- reqSession ;;
  if bool_decide (is_Some sess) &&
     bool_decide (is_Some (AppSettings.accessMatrix appSettings)) then
    let checkFor :=
      match AccessRule.groups rule with
      | Some _ => AccessConstants.GROUPS
      | None => AccessConstants.ROLES
      end in
    if String.eqb checkFor AccessConstants.GROUPS then
      claims <- readClaims ;;
      if Js.strictEq (claim claims AccessConstants.GROUPS) JUndefined then
        if Js.truthy (claim claims AccessConstants.CLAIM_NAMES) ||
           Js.truthy (claim claims AccessConstants.CLAIM_SOURCES) then
          handleOverage req rule
        else
          console_log ErrorMessages.USER_HAS_NO_GROUP ;;
          res_redirect unauthorized
      else
        let groups := claim claims AccessConstants.GROUPS in
        ok <- applyAccessRule (Request.method req) rule groups true ;;
        if negb ok then res_redirect unauthorized else next
    else if String.eqb checkFor AccessConstants.ROLES then
      claims <- readClaims ;;
      if Js.strictEq (claim claims AccessConstants.ROLES) JUndefined then
        console_log ErrorMessages.USER_HAS_NO_ROLE ;;
        res_redirect unauthorized
      else
        let roles := claim claims AccessConstants.ROLES in
        applies <- applyAccessRule (Request.method req) rule roles false ;;
        if applies then res_redirect unauthorized else next
    else ret tt
  else
    res_redirect unauthorized.

End AuthProviderMethods.

Arguments applyAccessRule method rule creds isGroups : simpl never.

(** [this.appSettings.authRoutes] *)
Definition routesOf (this : AuthProvider.t) : AuthRoutes.t :=
  AppSettings.authRoutes (AuthProvider.appSettings this).

(** ** The other handlers of the class *)

(** [OIDC_DEFAULT_SCOPES] and [PromptValue.SELECT_ACCOUNT] of msal-common. *)
Definition OIDC_DEFAULT_SCOPES : list string :=
  ["openid"; "profile"; "offline_access"].
Definition SELECT_ACCOUNT : string := "select_account".

(** [req.session.nonce = guid] *)
Definition setNonce (guid : string) (s : Session.t) : Session.t :=
  Session.mk (Session.isAuthenticated s) (Session.account s) (Some guid)
    (Session.authCodeRequest s) (Session.tokenRequest s)
    (Session.remoteResources s).

(** [req.session.destroy(callback)] of express-session: the session is taken
    off the request, then the callback runs. *)
Definition destroySession : M unit :=
  fun w =>
    match session w with
    | Some _ => (Normal tt, mkWorld None (trace w))
    | None => (Throw TypeError, w)
    end.

Module OnBehalfOfRequest.
(** [OnBehalfOfRequest] of msal-node, as [getTokenOnBehalf] fills it. *)
Record t := mk { oboAssertion : option string; scopes : list string }.
End OnBehalfOfRequest.

Section AuthProviderHandlers.

Variable this : AuthProvider.t.
Variable rt : Runtime.t.

Let authRoutes := routesOf this.
Let unauthorized := AuthRoutes.unauthorized authRoutes.

(** *** signIn *)

(** The three objects that [signIn] creates when the session lacks them.
    The [state] of the new authorization request starts as an empty object;
    [getAuthCode] assigns it, with every other field, before anything reads
    it, and it is the empty text here. *)
Definition emptyAuthCodeRequest : AuthorizationUrlRequest.t :=
  AuthorizationUrlRequest.mk EmptyString [] EmptyString EmptyString None None.
Definition emptyTokenRequest : AuthorizationCodeRequest.t :=
  AuthorizationCodeRequest.mk EmptyString [] EmptyString (Some EmptyString).
Definition emptyAccount : Account.t :=
  Account.mk EmptyString EmptyString EmptyString EmptyString (Some ∅).

(** The state that [signIn] sends: the encoded envelope. *)
Definition signInEnvelope (req : Request.t) (nonce : option string) : string :=
  CryptoProvider.base64Encode (AuthProvider.cryptoProvider this)
    (JsonState.stringify AppStages.SIGN_IN (Request.route_path req) nonce).

(** [guid] is what [this.cryptoProvider.createNewGuid()] returns to this
    call. *)
Definition signIn (guid : string) (req : Request.t) : M unit :=
  s <- readSession ;;
  match Session.authCodeRequest s with
  | Some _ => ret tt
  | None => writeSession (Session.set_authCodeRequest emptyAuthCodeRequest)
  end ;;
  s <- readSession ;;
  match Session.tokenRequest s with
  | Some _ => ret tt
  | None => writeSession (Session.set_tokenRequest emptyTokenRequest)
  end ;;
  s <- readSession ;;
  match Session.account s with
  | Some _ => ret tt
  | None => writeSession (Session.set_account (Some emptyAccount))
  end ;;
  writeSession (setNonce guid) ;;
  s <- readSession ;;
  let state := signInEnvelope req (Session.nonce s) in
  let params :=
    AuthCodeParams.mk (AuthProvider.authority this) OIDC_DEFAULT_SCOPES state
      (Runtime.ensureAbsoluteUrl rt req (AuthRoutes.redirect authRoutes))
      (Some SELECT_ACCOUNT) None in
  detached (getAuthCode this req params).

(** *** signOut *)

Definition logoutURI (req : Request.t) : string :=
  AuthProvider.authority this ++
  "/oauth2/v2.0/logout?post_logout_redirect_uri=" ++
  Runtime.ensureAbsoluteUrl rt req (AuthRoutes.postLogout authRoutes).

Definition signOut (req : Request.t) : M unit :=
  writeSession (Session.set_isAuthenticated false) ;;
  destroySession ;;
  res_redirect (logoutURI req).

(** *** isAuthenticated *)

Definition isAuthenticated (req : Request.t) : M unit :=
  sess <- reqSession ;;
  match sess with
  | Some s =>
      if negb (Session.isAuthenticated s) then
        console_log ErrorMessages.NOT_PERMITTED ;;
        res_redirect unauthorized
      else next
  | None =>
      console_log ErrorMessages.SESSION_NOT_FOUND ;;
      res_redirect unauthorized
  end.

(** *** getTokenOnBehalf *)

(** [acquireTokenOnBehalfOf] is the method of the MSAL client that only this
    middleware calls.  The middleware leaves its result in [req.locals]: the
    value returned here is that object when it was assigned. *)
Definition getTokenOnBehalf
    (acquireTokenOnBehalfOf :
       OnBehalfOfRequest.t -> Completion AuthenticationResult.t)
    (options : TokenOptions.t) (req : Request.t)
  : M (option (gmap string string)) :=
  let authHeader := Request.headers_authorization req in
  let scopes := TokenOptions.resource_scopes options in
  let resourceName := getResourceNameFromScopes this scopes in
  authorization <- deref authHeader ;;
  let oboRequest :=
    OnBehalfOfRequest.mk (Js.at_index (Js.splitOn " " authorization) 1) scopes in
  try_catch
    (tokenResponse <- liftC (acquireTokenOnBehalfOf oboRequest) ;;
     let locals : gmap string string :=
       {[ propKey resourceName :=
            AuthenticationResult.accessToken tokenResponse ]} in
     next ;;
     ret (Some locals))
    (fun error =>
       console_log_error error ;;
       next_error error ;;
       ret None).

End AuthProviderHandlers.

(** * A concrete installation

    One application, its session and a few requests, on which the model is
    run.  [base64Decode] and [JSON.parse] are given at the texts that the
    requests below carry, with the values Node computes there; the other
    collaborators answer what the example at hand asks of them. *)

Module Sample.

Definition routes : AuthRoutes.t :=
  AuthRoutes.mk "/redirect" "/error" "/unauthorized" "/home" "/".

Definition graphAPI : Resource.t := Resource.mk (Some ["User.Read"]) None.
Definition mailAPI : Resource.t := Resource.mk (Some ["Mail.Read"]) None.
Definition ownAPI : Resource.t :=
  Resource.mk (Some ["api://app/access_as_user"]) None.

Definition adminRule : AccessRule.t :=
  AccessRule.mk ["GET"; "POST"] None (Some ["admin"]).
Definition staffRule : AccessRule.t :=
  AccessRule.mk ["GET"] (Some ["g-staff"]) None.

Definition settings : AppSettings.t :=
  AppSettings.mk routes
    [("graphAPI", graphAPI); ("mailAPI", mailAPI)]
    [("ownAPI", ownAPI)]
    (Some [("/admin", adminRule); ("/staff", staffRule)]).

(** The [state] parameters: a sign-in envelope with nonce [n-1], the same
    with nonce [n-2], an acquire-token envelope, and the encoding of the
    one-character text that opens an object and never closes it. *)
Definition signInState : string :=
  "eyJzdGFnZSI6InNpZ25faW4iLCJwYXRoIjoiL3NpZ25pbiIsIm5vbmNlIjoibi0xIn0=".
Definition forgedState : string :=
  "eyJzdGFnZSI6InNpZ25faW4iLCJwYXRoIjoiL3NpZ25pbiIsIm5vbmNlIjoibi0yIn0=".
Definition acquireState : string :=
  "eyJzdGFnZSI6ImFjcXVpcmVfdG9rZW4iLCJwYXRoIjoiL21haWwiLCJub25jZSI6Im4tMSJ9".
Definition brokenState : string := "ew==".

Definition envelope (stage path nonce : string) : JsValue :=
  JObject [("stage", JString stage); ("path", JString path);
           ("nonce", JString nonce)].

Definition base64Decode (s : string) : string :=
  if String.eqb s signInState then
    JsonState.stringify "sign_in" "/signin" (Some "n-1")
  else if String.eqb s forgedState then
    JsonState.stringify "sign_in" "/signin" (Some "n-2")
  else if String.eqb s acquireState then
    JsonState.stringify "acquire_token" "/mail" (Some "n-1")
  else if String.eqb s brokenState then "{"
  else EmptyString.

Definition base64Encode (s : string) : string :=
  if String.eqb s (JsonState.stringify "sign_in" "/signin" (Some "n-1")) then
    signInState
  else if String.eqb s
            (JsonState.stringify "acquire_token" "/mail" (Some "n-1")) then
    acquireState
  else EmptyString.

Definition JSON_parse (s : string) : Completion JsValue :=
  if String.eqb s (JsonState.stringify "sign_in" "/signin" (Some "n-1")) then
    Normal (envelope "sign_in" "/signin" "n-1")
  else if String.eqb s
            (JsonState.stringify "sign_in" "/signin" (Some "n-2")) then
    Normal (envelope "sign_in" "/signin" "n-2")
  else if String.eqb s
            (JsonState.stringify "acquire_token" "/mail" (Some "n-1")) then
    Normal (envelope "acquire_token" "/mail" "n-1")
  else Throw SyntaxError.

Definition account (claims : gmap string JsValue) : Account.t :=
  Account.mk "oid.tid" "login.microsoftonline.com" "tid" "ada@example.org"
    (Some claims).

Definition tokens : AuthenticationResult.t :=
  AuthenticationResult.mk "access-1" "id-1"
    (Some (account {[ "roles" := JArray [JString "admin"] ]})).

Definition client (exchange silent : Completion AuthenticationResult.t)
  : MsalClient.t :=
  MsalClient.mk (fun _ => exchange) (fun _ => silent)
    (fun _ => Normal "https://login.microsoftonline.com/tid/authorize").

Definition validator (idTokenValid accessTokenValid : Completion bool)
  : TokenValidator.t :=
  TokenValidator.mk (fun _ => idTokenValid) (fun _ _ => accessTokenValid).

Definition crypto : CryptoProvider.t :=
  CryptoProvider.mk base64Encode base64Decode.

Definition provider (exchange silent : Completion AuthenticationResult.t)
    (idTokenValid accessTokenValid : Completion bool) : AuthProvider.t :=
  AuthProvider.mk settings "https://login.microsoftonline.com/tid" crypto
    (validator idTokenValid accessTokenValid) (client exchange silent).

Definition runtime (graph pages : Completion JsValue) : Runtime.t :=
  Runtime.mk JSON_parse (fun _ _ => graph) (fun _ _ => pages)
    (fun _ route => "https://app.example.org" ++ route).

(** A provider and a runtime whose collaborators all fail: for the
    examples that must not reach them. *)
Definition down : Completion AuthenticationResult.t :=
  Throw (OtherError "network").
Definition quietProvider : AuthProvider.t :=
  provider down down (Throw (OtherError "validator"))
    (Throw (OtherError "validator")).
Definition quietRuntime : Runtime.t :=
  runtime (Throw (OtherError "network")) (Throw (OtherError "network")).

(** The session after [signIn] with nonce [n-1]. *)
Definition pendingSession : Session.t :=
  Session.mk false
    (Some (Account.mk EmptyString EmptyString EmptyString EmptyString (Some ∅)))
    (Some "n-1")
    (Some (AuthorizationUrlRequest.mk "https://login.microsoftonline.com/tid"
             ["openid"; "profile"; "offline_access"] signInState
             "https://app.example.org/redirect" (Some "select_account") None))
    (Some (AuthorizationCodeRequest.mk "https://login.microsoftonline.com/tid"
             ["openid"; "profile"; "offline_access"]
             "https://app.example.org/redirect" (Some EmptyString)))
    None.

(** A signed-in session with the given ID token claims. *)
Definition signedIn (claims : gmap string JsValue) : Session.t :=
  Session.mk true (Some (account claims)) (Some "n-1")
    (Session.authCodeRequest pendingSession)
    (Session.tokenRequest pendingSession)
    None.

(** A signed-in session that already holds a token for the graph API. *)
Definition withGraphToken : Session.t :=
  Session.set_remoteResources
    {[ "graphAPI" := Resource.mk (Some ["User.Read"]) (Some "graph-token") ]}
    (signedIn ∅).

Definition redirectRequest (state : option string) : Request.t :=
  Request.mk "GET" "/redirect" state (Some "code-1") None.

Definition pageRequest (method path : string) (authorization : option string)
  : Request.t :=
  Request.mk method path None None authorization.

(** ID token claims of a user with too many groups: the overage indicators
    stand in for the [groups] claim. *)
Definition overageClaims : gmap string JsValue :=
  {[ "name" := JString "Ada";
     "_claim_names" := JObject [("groups", JString "src1")];
     "_claim_sources" :=
       JObject [("src1", JObject [("endpoint", JString "https://graph")])] ]}.

(** Answers of the directory: a last page, and a page with a link to more. *)
Definition lastPage : JsValue :=
  JObject [("value", JArray [JObject [("id", JString "g-staff")];
                             JObject [("id", JString "g-2")]])].
Definition nextLink : JsValue :=
  JString "https://graph.microsoft.com/v1.0/me/memberOf?$skiptoken=X".
Definition linkedPage : JsValue :=
  JObject [("@odata.nextLink", nextLink);
           ("value", JArray [JObject [("id", JString "g-staff")]])].

Definition graphRequest (claims : gmap string JsValue) : SilentFlowRequest.t :=
  SilentFlowRequest.mk (Some (account claims))
    ["User.Read"; "GroupMember.Read.All"].

End Sample.

(** * More requests and sessions

    Two more [state] parameters (an envelope with a stage that the handler
    does not know, and an envelope without a nonce), and sessions at other
    moments of their life. *)

Module Scenario.

Definition strayState : string :=
  "eyJzdGFnZSI6InNpZ25fb3V0IiwicGF0aCI6Ii9zaWdub3V0Iiwibm9uY2UiOiJuLTEifQ==".
Definition bareState : string :=
  "eyJzdGFnZSI6InNpZ25faW4iLCJwYXRoIjoiL3NpZ25pbiJ9".

Definition base64Decode (s : string) : string :=
  if String.eqb s strayState then
    JsonState.stringify "sign_out" "/signout" (Some "n-1")
  else if String.eqb s bareState then
    JsonState.stringify "sign_in" "/signin" None
  else Sample.base64Decode s.

Definition JSON_parse (s : string) : Completion JsValue :=
  if String.eqb s (JsonState.stringify "sign_out" "/signout" (Some "n-1")) then
    Normal (Sample.envelope "sign_out" "/signout" "n-1")
  else if String.eqb s (JsonState.stringify "sign_in" "/signin" None) then
    Normal (JObject [("stage", JString "sign_in"); ("path", JString "/signin")])
  else Sample.JSON_parse s.

Definition provider (exchange silent : Completion AuthenticationResult.t)
    (idTokenValid accessTokenValid : Completion bool) : AuthProvider.t :=
  AuthProvider.mk Sample.settings "https://login.microsoftonline.com/tid"
    (CryptoProvider.mk Sample.base64Encode base64Decode)
    (Sample.validator idTokenValid accessTokenValid)
    (Sample.client exchange silent).

Definition runtime (graph pages : Completion JsValue) : Runtime.t :=
  Runtime.mk JSON_parse (fun _ _ => graph) (fun _ _ => pages)
    (fun _ route => "https://app.example.org" ++ route).

Definition quietProvider : AuthProvider.t :=
  provider Sample.down Sample.down (Throw (OtherError "validator"))
    (Throw (OtherError "validator")).
Definition quietRuntime : Runtime.t :=
  runtime (Throw (OtherError "network")) (Throw (OtherError "network")).

(** The session of a visitor who never signed in: nothing is assigned. *)
Definition freshSession : Session.t :=
  Session.mk false None None None None None.

(** A signed-in session in which [getToken] has started the interactive
    acquisition of the mail token. *)
Definition mailSession : Session.t :=
  Session.mk true (Some (Sample.account ∅)) (Some "n-1")
    (Some (AuthorizationUrlRequest.mk "https://login.microsoftonline.com/tid"
             ["Mail.Read"] Sample.acquireState
             "https://app.example.org/redirect" None
             (Some (Sample.account ∅))))
    (Some (AuthorizationCodeRequest.mk "https://login.microsoftonline.com/tid"
             ["Mail.Read"] "https://app.example.org/redirect"
             (Some EmptyString)))
    (Some {[ "mailAPI" := Resource.mk (Some ["Mail.Read"]) None ]}).

End Scenario.

(** * Vocabulary of the properties *)

(** The intersection computed by the filter: the members of [set] (in the
    rule's order, with repetitions) that are among the credentials. *)
Definition intersection (set creds : list string) : list string :=
  List.filter (Js.includesStr creds) set.

(** No two entries of the merged table have the same scope sequence. *)
Definition distinctScopes (all : JsObj Resource.t) : Prop :=
  forall i j n1 r1 n2 r2 S,
    all !! i = Some (n1, r1) -> all !! j = Some (n2, r2) ->
    Resource.scopes r1 = Some S -> Resource.scopes r2 = Some S ->
    i = j.

(** [target] after the entries of [src] are assigned to it, in order. *)
Definition assignAll {A : Type} (target src : JsObj A) : JsObj A :=
  fold_left (fun acc kv => assign acc kv.1 kv.2) src target.

(** [JSON.parse(this.cryptoProvider.base64Decode(state))] *)
Definition decodeState (this : AuthProvider.t) (rt : Runtime.t)
    (queryState : string) : Completion JsValue :=
  Runtime.JSON_parse rt
    (CryptoProvider.base64Decode (AuthProvider.cryptoProvider this) queryState).

(** The session once the code of the query is attached to the pending
    token request. *)
Definition withCode (req : Request.t) (tokenRequest : AuthorizationCodeRequest.t)
    (sess : Session.t) : Session.t :=
  Session.set_tokenRequest
    (AuthorizationCodeRequest.set_code (Request.query_code req) tokenRequest)
    sess.

(** [this.msalClient.acquireTokenByCode(req.session.tokenRequest)], once the
    code is attached. *)
Definition exchange (this : AuthProvider.t) (req : Request.t)
    (tokenRequest : AuthorizationCodeRequest.t)
  : Completion AuthenticationResult.t :=
  MsalClient.acquireTokenByCode (AuthProvider.msalClient this)
    (AuthorizationCodeRequest.set_code (Request.query_code req) tokenRequest).

(** A redirect request that passes the nonce check at stage [sign_in], in a
    session that has a pending token request. *)
Definition signInRedirect (this : AuthProvider.t) (rt : Runtime.t)
    (req : Request.t) (sess : Session.t)
    (tokenRequest : AuthorizationCodeRequest.t) : Prop :=
  exists queryState state stateNonce stage,
    presentState req = Some queryState /\
    decodeState this rt queryState = Normal state /\
    Js.getProp state "nonce" = Normal stateNonce /\
    Js.strictEq stateNonce (nonceValue sess) = true /\
    Js.getProp state "stage" = Normal stage /\
    Js.strictEq stage (JString AppStages.SIGN_IN) = true /\
    Session.tokenRequest sess = Some tokenRequest.

(** The handler fails closed on a request: it returns, and it has sent the
    redirect to the unauthorized route. *)
Definition failsClosed (this : AuthProvider.t) (rt : Runtime.t)
    (req : Request.t) (s : option Session.t) : Prop :=
  exists w,
    run (handleRedirect this rt req) s = (Normal tt, w) /\
    ResRedirect (AuthRoutes.unauthorized (routesOf this)) ∈ trace w.

(** [req.headers.authorization.split(" ")[1]] *)
Definition bearerToken (authorization : string) : option string :=
  Js.at_index (Js.splitOn " " authorization) 1.

(** A request that reaches the claims of the session: there is a session
    with an account that has ID token claims, and the application has an
    access matrix. *)
Definition guarded (this : AuthProvider.t) (sess : Session.t)
    (claims : gmap string JsValue) : Prop :=
  is_Some (AppSettings.accessMatrix (AuthProvider.appSettings this)) /\
  exists account,
    Session.account sess = Some account /\
    Account.idTokenClaims account = Some claims.

(** The request for the directory token. *)
Definition graphTokenRequest (sess : Session.t) : SilentFlowRequest.t :=
  SilentFlowRequest.mk (Session.account sess)
    ["User.Read"; "GroupMember.Read.All"].

Definition memberOf : string := "https://graph.microsoft.com/v1.0/me/memberOf".

(** The session of the world holds a [remoteResources] object with exactly
    one entry, under [key]. *)
Definition holdsOnly (key : string) (w : World) : Prop :=
  exists sess resource,
    session w = Some sess /\
    Session.remoteResources sess = Some {[ key := resource ]}.

(** ** What a handler leaves unchanged *)

(** A relation between the world before and the world after, that holds when
    nothing happens and composes. *)
Record Frame : Type := mkFrame {
  related : World -> World -> Prop;
  related_refl : forall w, related w w;
  related_trans : forall a b c, related a b -> related b c -> related a c }.

(** [m] keeps the frame: whatever it returns or raises, and from whatever
    world it starts. *)
Definition keeps (F : Frame) {A : Type} (m : M A) : Prop :=
  forall w c w', m w = (c, w') -> related F w w'.

(** The number of events of a kind in a trace. *)
Definition count (p : Event -> bool) (tr : list Event) : nat :=
  length (List.filter p tr).

(** No event of the kind [p] is added. *)
Program Definition countFrame (p : Event -> bool) : Frame :=
  mkFrame (fun w w' => count p (trace w') = count p (trace w)) _ _.
Next Obligation. reflexivity. Qed.
Next Obligation. intros p a b c Hab Hbc. cbn in *. congruence. Qed.

(** The session keeps the value that [f] reads of it; the session itself is
    neither created nor destroyed. *)
Program Definition sessionFrame {B : Type} (f : Session.t -> B) : Frame :=
  mkFrame (fun w w' => f <$> session w' = f <$> session w) _ _.
Next Obligation. reflexivity. Qed.
Next Obligation. intros B f a b c Hab Hbc. cbn in *. congruence. Qed.

(** The answers to a request: a redirect, [next()] or [next(error)]. *)
Definition isResponse (e : Event) : bool :=
  match e with
  | ResRedirect _ | ResRedirectValue _ | NextCalled | NextError _ => true
  | _ => false
  end.

Definition responses (tr : list Event) : nat := count isResponse tr.

Definition isNext (e : Event) : bool :=
  match e with
  | NextCalled => true
  | _ => false
  end.

(** [m] answers at most once when it returns, and not at all when it
    raises. *)
Definition responds {A : Type} (m : M A) : Prop :=
  forall w c w',
    m w = (c, w') ->
    match c with
    | Normal _ => (responses (trace w') <= responses (trace w) + 1)%nat
    | Throw _ => responses (trace w') = responses (trace w)
    end.

(** How many answers a completion allows. *)
Definition allowance {A : Type} (c : Completion A) : nat :=
  match c with
  | Normal _ => 1%nat
  | Throw _ => 0%nat
  end.

(** What the guards and the middleware have no business with: the nonce
    and the authentication flag of the session. *)
Definition credentials (s : Session.t) : option string * bool :=
  (Session.nonce s, Session.isAuthenticated s).

(** The trace only grows, and the authentication flag of the session stays
    as it is unless [validateIdToken] was called on a token and returned
    [true]. *)
Definition authenticates (this : AuthProvider.t) (w w' : World) : Prop :=
  (exists l, trace w' = (trace w ++ l)%list) /\
  (Session.isAuthenticated <$> session w'
   = Session.isAuthenticated <$> session w \/
   exists idToken,
     CalledValidateIdToken idToken ∈ trace w' /\
     TokenValidator.validateIdToken (AuthProvider.tokenValidator this) idToken
     = Normal true).

Program Definition authFrame (this : AuthProvider.t) : Frame :=
  mkFrame (authenticates this) _ _.
Next Obligation.
  intros this w. split; [exists []; by rewrite app_nil_r | by left].
Qed.
Next Obligation.
  intros this a b c [[l1 Hl1] Hab] [[l2 Hl2] Hbc]. split.
  - exists (l1 ++ l2)%list. by rewrite Hl2, Hl1, app_assoc.
  - destruct Hbc as [Hbc | Hbc]; [| by right].
    destruct Hab as [Hab | (tok & Hin & Hvalid)]; [left; congruence |].
    right. exists tok. split; [| done].
    rewrite Hl2. apply elem_of_app. by left.
Qed.

(** A redirect request that passes the nonce check at stage
    [acquire_token], in a session that has a pending token request; [state]
    is the decoded envelope. *)
Definition acquireRedirect (this : AuthProvider.t) (rt : Runtime.t)
    (req : Request.t) (sess : Session.t)
    (tokenRequest : AuthorizationCodeRequest.t) (state : JsValue) : Prop :=
  exists queryState stateNonce,
    presentState req = Some queryState /\
    decodeState this rt queryState = Normal state /\
    Js.getProp state "nonce" = Normal stateNonce /\
    Js.strictEq stateNonce (nonceValue sess) = true /\
    Js.getProp state "stage" = Normal (JString AppStages.ACQUIRE_TOKEN) /\
    Session.tokenRequest sess = Some tokenRequest.

(** A redirect request that passes the nonce check with a stage that is
    neither [sign_in] nor [acquire_token]. *)
Definition strayRedirect (this : AuthProvider.t) (rt : Runtime.t)
    (req : Request.t) (sess : Session.t) : Prop :=
  exists queryState state stateNonce stage,
    presentState req = Some queryState /\
    decodeState this rt queryState = Normal state /\
    Js.getProp state "nonce" = Normal stateNonce /\
    Js.strictEq stateNonce (nonceValue sess) = true /\
    Js.getProp state "stage" = Normal stage /\
    Js.strictEq stage (JString AppStages.SIGN_IN) = false /\
    Js.strictEq stage (JString AppStages.ACQUIRE_TOKEN) = false.

(** The key under which the redirect handler stores the token acquired for
    the scopes of a token request. *)
Definition resourceKey (this : AuthProvider.t)
    (tokenRequest : AuthorizationCodeRequest.t) : string :=
  propKey (getResourceNameFromScopes this
             (AuthorizationCodeRequest.scopes tokenRequest)).

(** [remoteResources[key]] in a session: [None] when the object or the
    entry is missing. *)
Definition storedResource (sess : Session.t) (key : string)
  : option Resource.t :=
  match Session.remoteResources sess with
  | Some remote => remote !! key
  | None => None
  end.

(** [remoteResources[key].accessToken = token] on a session that has the
    entry. *)
Definition withToken (key token : string) (sess : Session.t) : Session.t :=
  match Session.remoteResources sess with
  | Some remote =>
      match remote !! key with
      | Some resource =>
          Session.set_remoteResources
            (<[key := Resource.mk (Resource.scopes resource) (Some token)]>
               remote)
            sess
      | None => sess
      end
  | None => sess
  end.

(** ** The token middleware and the sign-in, step by step *)

(** What [JSON.parse] makes of the text of a state envelope. *)
Definition envelopeValue (stage path : string) (nonce : option string)
  : JsValue :=
  JObject (("stage", JString stage) :: ("path", JString path) ::
           match nonce with
           | Some n => [("nonce", JString n)]
           | None => []
           end).

(** The text of an envelope survives the encoding, the decoding and the
    parsing of the collaborators, and its encoding is not the empty text. *)
Definition carries (this : AuthProvider.t) (rt : Runtime.t)
    (stage path : string) (nonce : option string) : Prop :=
  let text := JsonState.stringify stage path nonce in
  let crypto := AuthProvider.cryptoProvider this in
  CryptoProvider.base64Encode crypto text <> EmptyString /\
  CryptoProvider.base64Decode crypto (CryptoProvider.base64Encode crypto text)
  = text /\
  Runtime.JSON_parse rt text = Normal (envelopeValue stage path nonce).

(** The authorization request that [getAuthCode] leaves in the session. *)
Definition urlRequestOf (params : AuthCodeParams.t) : AuthorizationUrlRequest.t :=
  AuthorizationUrlRequest.mk
    (AuthCodeParams.authority params) (AuthCodeParams.scopes params)
    (AuthCodeParams.state params) (AuthCodeParams.redirect params)
    (AuthCodeParams.prompt params) (AuthCodeParams.account params).

(** The token request that [getAuthCode] leaves in the session: the code of
    the one it found is kept. *)
Definition codeRequestOf (params : AuthCodeParams.t)
    (found : AuthorizationCodeRequest.t) : AuthorizationCodeRequest.t :=
  AuthorizationCodeRequest.mk
    (AuthCodeParams.authority params) (AuthCodeParams.scopes params)
    (AuthCodeParams.redirect params) (AuthorizationCodeRequest.code found).

(** The session after the assignments of [getAuthCode]. *)
Definition withAuthCode (params : AuthCodeParams.t)
    (found : AuthorizationCodeRequest.t) (sess : Session.t) : Session.t :=
  Session.set_tokenRequest (codeRequestOf params found)
    (Session.set_authCodeRequest (urlRequestOf params) sess).

(** [getToken]: the key of the resource, the session once [remoteResources]
    is replaced, the silent request, and the parameters of the interactive
    acquisition. *)
Definition tokenKey (this : AuthProvider.t) (options : TokenOptions.t)
  : string :=
  propKey (getResourceNameFromScopes this (TokenOptions.resource_scopes options)).

Definition resetSession (this : AuthProvider.t) (options : TokenOptions.t)
    (sess : Session.t) : Session.t :=
  Session.set_remoteResources
    {[ tokenKey this options :=
         freshResource this
           (getResourceNameFromScopes this
              (TokenOptions.resource_scopes options)) ]}
    sess.

Definition silentRequestOf (options : TokenOptions.t) (sess : Session.t)
  : SilentFlowRequest.t :=
  SilentFlowRequest.mk (Session.account sess)
    (TokenOptions.resource_scopes options).

Definition interactiveParams (this : AuthProvider.t) (rt : Runtime.t)
    (options : TokenOptions.t) (req : Request.t) (sess : Session.t)
  : AuthCodeParams.t :=
  AuthCodeParams.mk (AuthProvider.authority this)
    (TokenOptions.resource_scopes options)
    (CryptoProvider.base64Encode (AuthProvider.cryptoProvider this)
       (JsonState.stringify AppStages.ACQUIRE_TOKEN (Request.route_path req)
          (Session.nonce sess)))
    (Runtime.ensureAbsoluteUrl rt req (AuthRoutes.redirect (routesOf this)))
    None (Session.account sess).

(** What the [catch] of [getToken] does on an interaction-required error,
    from the trace [tr] of what happened before. *)
Definition interactive (this : AuthProvider.t) (rt : Runtime.t)
    (options : TokenOptions.t) (req : Request.t) (sess : Session.t)
    (tr : list Event) : Completion unit * World :=
  detached (getAuthCode this req (interactiveParams this rt options req sess))
    (mkWorld (Some (resetSession this options sess)) tr).

(** An error that is not an [InteractionRequiredAuthError]. *)
Definition otherError (e : JsError) : Prop :=
  match e with
  | InteractionRequiredAuthError _ => False
  | _ => True
  end.

(** [signIn]: the parameters it hands to [getAuthCode], and the session it
    leaves. *)
Definition signInParams (this : AuthProvider.t) (rt : Runtime.t)
    (guid : string) (req : Request.t) : AuthCodeParams.t :=
  AuthCodeParams.mk (AuthProvider.authority this) OIDC_DEFAULT_SCOPES
    (signInEnvelope this req (Some guid))
    (Runtime.ensureAbsoluteUrl rt req (AuthRoutes.redirect (routesOf this)))
    (Some SELECT_ACCOUNT) None.

Definition afterSignIn (this : AuthProvider.t) (rt : Runtime.t)
    (guid : string) (req : Request.t) (sess : Session.t) : Session.t :=
  Session.mk (Session.isAuthenticated sess)
    (Some (default emptyAccount (Session.account sess)))
    (Some guid)
    (Some (urlRequestOf (signInParams this rt guid req)))
    (Some (codeRequestOf (signInParams this rt guid req)
             (default emptyTokenRequest (Session.tokenRequest sess))))
    (Session.remoteResources sess).

(** The claims after the overage is resolved with [groups]: the two
    overage indicators are left out and [groups] is added. *)
Definition resolvedClaims (groups : JsValue) (claims : gmap string JsValue)
  : gmap string JsValue :=
  <["groups" := groups]> (delete "_claim_sources" (delete "_claim_names" claims)).

(** The session with those claims in its account. *)
Definition resolvedSession (groups : JsValue) (account : Account.t)
    (claims : gmap string JsValue) (sess : Session.t) : Session.t :=
  Session.set_account
    (Some (Account.set_idTokenClaims (resolvedClaims groups claims) account))
    sess.

(** The directory answers with the groups of the user: with the pages that
    follow the link of the first page, or with the ids of the members on
    the first page when it has no link. *)
Definition fetched (rt : Runtime.t) (token : string) (graphResponse : JsValue)
    (groups : JsValue) : Prop :=
  exists link,
    Js.getProp graphResponse "@odata.nextLink" = Normal link /\
    if Js.truthy link
    then Runtime.handlePagination rt token link = Normal groups
    else exists value,
           Js.getProp graphResponse "value" = Normal value /\
           memberIds value = Normal groups.

(** * Properties *)

(** Unfolds the monad and the actions down to the world they produce. *)
Ltac js_compute :=
  cbv [run start bind ret throw try_catch liftC emit reqSession readSession
       writeSession deref detached console_log console_log_error res_redirect
       next next_error session trace app].

(** ** The access-rule evaluator *)

Section Evaluator.

Lemma includesStr_In (l : list string) (x : string) :
  Js.includesStr l x = true <-> In x l.
Proof.
  unfold Js.includesStr. rewrite existsb_exists. split.
  - intros (y & Hy & Heq). apply String.eqb_eq in Heq. by subst.
  - intros Hx. exists x. split; [done | apply String.eqb_refl].
Qed.

(** On an array of strings [creds.includes(elem)] is list membership. *)
Lemma includes_strings (creds : list string) (elem : string) :
  Js.includes (JArray (JString <$> creds)) elem
  = Normal (Js.includesStr creds elem).
Proof.
  unfold Js.includes, Js.includesStr. f_equal.
  induction creds as [|c creds IH]; [done |].
  cbn [fmap list_fmap existsb Js.strictEq]. rewrite IH.
  by rewrite String.eqb_sym.
Qed.

Lemma filterC_total {A} (p : A -> Completion bool) (f : A -> bool) (l : list A) :
  (forall x, p x = Normal (f x)) ->
  Js.filterC p l = Normal (List.filter f l).
Proof.
  intros Hp. induction l as [|x l IH]; [done |].
  cbn [Js.filterC List.filter]. rewrite Hp, IH. by destruct (f x).
Qed.

Lemma intersection_nonempty (set creds : list string) :
  (Z.of_nat (length (intersection set creds)) <? 1) = false
  <-> exists c, In c set /\ In c creds.
Proof.
  unfold intersection. rewrite Z.ltb_ge. split.
  - intros Hlen.
    destruct (List.filter (Js.includesStr creds) set) as [|c r] eqn:Hf;
      [cbn in Hlen; lia |].
    assert (Hin : In c (List.filter (Js.includesStr creds) set))
      by (rewrite Hf; left; done).
    apply filter_In in Hin as [Hset Hc]. exists c. split; [done |].
    by apply includesStr_In.
  - intros (c & Hset & Hc).
    assert (Hin : In c (List.filter (Js.includesStr creds) set)).
    { apply filter_In. split; [done |]. by apply includesStr_In. }
    destruct (List.filter (Js.includesStr creds) set); [destruct Hin |].
    cbn [length]. lia.
Qed.

(** What [applyAccessRule] computes when the list that the flag selects is
    present in the rule: it returns, and the result is [true] exactly when
    the method is listed and the intersection is not empty. *)
Lemma applyAccessRule_returns method rule (creds set : list string)
    (isGroups : bool) w :
  (if isGroups then AccessRule.groups rule else AccessRule.roles rule)
  = Some set ->
  (applyAccessRule method rule (JArray (JString <$> creds)) isGroups w).1
  = Normal (Js.includesStr (AccessRule.methods rule) method &&
            negb (Z.of_nat (length (intersection set creds)) <? 1)).
Proof.
  intros Hset. unfold applyAccessRule.
  destruct (Js.includesStr (AccessRule.methods rule) method); [|done].
  destruct isGroups; rewrite Hset;
    unfold bind, deref, ret, liftC;
    rewrite (filterC_total _ (Js.includesStr creds))
      by (intros; apply includes_strings);
    fold (intersection set creds);
    by destruct (Z.of_nat (length (intersection set creds)) <? 1).
Qed.

(** Without that list the filter is applied to [undefined]: a TypeError,
    unless the method is refused first. *)
Lemma applyAccessRule_no_list method rule creds (isGroups : bool) w :
  (if isGroups then AccessRule.groups rule else AccessRule.roles rule)
  = None ->
  (applyAccessRule method rule creds isGroups w).1 <> Normal true.
Proof.
  intros Hset. unfold applyAccessRule.
  destruct (Js.includesStr (AccessRule.methods rule) method); [|done].
  by destruct isGroups; rewrite Hset.
Qed.

End Evaluator.

(** C4: for every rule, method, list of credentials and value of the
    [isGroups] flag, [applyAccessRule] returns [true] (allow) if and only if
    the method is one of [rule.methods] and some element of [rule.groups]
    (flag set) or of [rule.roles] (flag not set) is among the credentials;
    one common element is enough. *)
Theorem applyAccessRule_allow_iff
    (method : string) (rule : AccessRule.t) (creds : list string)
    (isGroups : bool) (w : World) :
  (applyAccessRule method rule (JArray (JString <$> creds)) isGroups w).1
  = Normal true
  <-> In method (AccessRule.methods rule) /\
      exists set,
        (if isGroups then AccessRule.groups rule else AccessRule.roles rule)
        = Some set /\
        exists c, In c set /\ In c creds.
Proof.
  destruct (if isGroups then AccessRule.groups rule else AccessRule.roles rule)
    as [set|] eqn:Hset.
  - rewrite (applyAccessRule_returns _ _ _ set) by done.
    rewrite <- includesStr_In. split.
    + intros [= Hb]. apply andb_true_iff in Hb as [Hm Hi].
      split; [done |]. exists set. split; [done |].
      apply intersection_nonempty. by apply negb_true_iff.
    + intros (Hm & set' & [= <-] & Hc).
      apply intersection_nonempty in Hc. by rewrite Hm, Hc.
  - split.
    + intros H. by apply applyAccessRule_no_list in H.
    + by intros (_ & set & [=] & _).
Qed.

(** ** JSON.stringify separates arrays of strings *)

Module JsonFacts.
Import Json.

Lemma append_String (c : ascii) (s r : string) :
  String c s ++ r = String c (s ++ r).
Proof. reflexivity. Qed.

Lemma append_assoc (a b c : string) : (a ++ b) ++ c = a ++ (b ++ c).
Proof.
  induction a as [|x a IH]; [reflexivity |].
  by rewrite !append_String, IH.
Qed.

Lemma unescape_escape (c : ascii) (r : string) :
  unescapeChar (escapeChar c ++ r) = Some (c, r).
Proof. destruct c as [[] [] [] [] [] [] [] []]; reflexivity. Qed.

Lemma unescape_dquote (r : string) : unescapeChar (String dquote r) = None.
Proof. reflexivity. Qed.

(** An escaped body followed by the closing quote determines the body and
    what follows the quote. *)
Lemma escapeBody_inj (s1 s2 r1 r2 : string) :
  escapeBody s1 ++ String dquote r1 = escapeBody s2 ++ String dquote r2 ->
  s1 = s2 /\ r1 = r2.
Proof.
  revert s2. induction s1 as [|c1 s1 IH]; intros [|c2 s2] Heq.
  - by injection Heq.
  - apply (f_equal unescapeChar) in Heq.
    cbn [escapeBody] in Heq.
    rewrite append_assoc, unescape_escape in Heq. done.
  - apply (f_equal unescapeChar) in Heq.
    cbn [escapeBody] in Heq.
    rewrite append_assoc, unescape_escape in Heq. done.
  - cbn [escapeBody] in Heq. rewrite !append_assoc in Heq.
    apply (f_equal unescapeChar) in Heq.
    rewrite !unescape_escape in Heq.
    injection Heq as -> Hrest.
    destruct (IH _ Hrest) as [-> ->]. done.
Qed.

Lemma quote_inj (s1 s2 r1 r2 : string) :
  quote s1 ++ r1 = quote s2 ++ r2 -> s1 = s2 /\ r1 = r2.
Proof.
  unfold quote. rewrite !append_String, !append_assoc, !append_String.
  intros [= Heq]. by apply escapeBody_inj in Heq.
Qed.

Lemma quote_head (s r : string) :
  quote s ++ r = String dquote (escapeBody s ++ String dquote r).
Proof. unfold quote. by rewrite append_String, append_assoc. Qed.

Lemma concat_cons2 (sep x y : string) (l : list string) :
  String.concat sep (x :: y :: l) = x ++ sep ++ String.concat sep (y :: l).
Proof. reflexivity. Qed.

Lemma items_inj (l1 l2 : list string) :
  String.concat "," (quote <$> l1) ++ "]"
  = String.concat "," (quote <$> l2) ++ "]" ->
  l1 = l2.
Proof.
  revert l2. induction l1 as [|x [|x' l1] IH]; intros [|y [|y' l2]];
    cbn [fmap list_fmap]; rewrite ?concat_cons2, ?append_assoc;
    cbn [String.concat]; intros Heq;
    try (by rewrite ?quote_head in Heq);
    try (apply quote_inj in Heq as [-> Hrest]; try done).
  - injection Hrest as Hrest.
    rewrite <- (IH (y' :: l2)); [done |].
    by cbn [fmap list_fmap].
Qed.

(** [JSON.stringify] is injective on arrays of strings: comparing the
    texts is comparing the arrays. *)
Lemma stringify_inj (a b : list string) :
  stringify a = stringify b -> a = b.
Proof.
  unfold stringify. rewrite !append_String.
  intros [= Heq]. by apply items_inj.
Qed.

Lemma stringify_eqb (a b : list string) :
  String.eqb (stringify a) (stringify b) = bool_decide (a = b).
Proof.
  case_bool_decide as H.
  - subst. apply String.eqb_refl.
  - apply String.eqb_neq. intros Heq. by apply stringify_inj in Heq.
Qed.

End JsonFacts.

(** ** Resource name resolution *)

Section Resolution.

Lemma findIndexFrom_spec {A} (p : A -> bool) (l : list A) (i : Z) :
  Js.findIndexFrom p l i =
  match List.find p l with
  | Some _ => i + Js.findIndexFrom p l 0
  | None => -1
  end.
Proof.
  revert i. induction l as [|x l IH]; intros i; [done |].
  cbn [Js.findIndexFrom List.find]. destruct (p x); [lia |].
  rewrite (IH (i + 1)), (IH (0 + 1)). destruct (List.find p l); lia.
Qed.

Lemma findIndexFrom_nonneg {A} (p : A -> bool) (l : list A) :
  is_Some (List.find p l) -> 0 <= Js.findIndexFrom p l 0.
Proof.
  induction l as [|x l IH]; cbn [Js.findIndexFrom List.find].
  - by intros [? [=]].
  - destruct (p x); [lia |]. intros Hs.
    rewrite findIndexFrom_spec. destruct (List.find p l); [|by destruct Hs].
    specialize (IH Hs). lia.
Qed.

(** Looking the found index up among the keys gives the key of the first
    entry whose value satisfies the predicate, and nothing when there is no
    such entry (the index is -1). *)
Lemma key_at_findIndex {A} (p : A -> bool) (all : JsObj A) :
  Js.at_index (all.*1) (Js.findIndex p (all.*2))
  = fst <$> List.find (fun kv => p kv.2) all.
Proof.
  unfold Js.findIndex. induction all as [|[k v] all IH]; [done |].
  cbn [fmap list_fmap List.find Js.findIndexFrom fst snd].
  destruct (p v); [done |].
  rewrite findIndexFrom_spec.
  assert (Hfind : is_Some (List.find p (all.*2))
                  <-> is_Some (List.find (fun kv => p kv.2) all)).
  { clear. induction all as [|[k v] all IH];
      cbn [fmap list_fmap List.find fst snd]; [done |].
    destruct (p v); [|done]. split; eauto. }
  destruct (List.find p (all.*2)) as [v'|] eqn:Hf.
  - assert (Hnn : 0 <= Js.findIndexFrom p (all.*2) 0).
    { apply findIndexFrom_nonneg. rewrite Hf. eauto. }
    rewrite <- IH. unfold Js.at_index.
    destruct (Z.ltb_spec (0 + 1 + Js.findIndexFrom p (all.*2) 0) 0); [lia |].
    destruct (Z.ltb_spec (Js.findIndexFrom p (all.*2) 0) 0); [lia |].
    replace (Z.to_nat (0 + 1 + Js.findIndexFrom p (all.*2) 0))
      with (S (Z.to_nat (Js.findIndexFrom p (all.*2) 0))) by lia.
    done.
  - destruct (List.find (fun kv => p kv.2) all) eqn:Hf'.
    + assert (Hs : is_Some (@None A)) by (apply Hfind; eauto).
      by destruct Hs.
    + done.
Qed.

Lemma sameScopes_true (S : list string) (r : Resource.t) :
  sameScopes S r = true <-> Resource.scopes r = Some S.
Proof.
  unfold sameScopes. destruct (Resource.scopes r) as [S'|]; [|done].
  rewrite JsonFacts.stringify_eqb. rewrite bool_decide_eq_true.
  split; [by intros -> | by intros [=]].
Qed.

(** The two facts hold for every table, in whatever order its entries are
    enumerated: only membership and the distinctness of the scopes count. *)
Lemma resolve_configured (all : JsObj Resource.t) (n : string)
    (r : Resource.t) (S : list string) :
  distinctScopes all ->
  (n, r) ∈ all ->
  Resource.scopes r = Some S ->
  Js.at_index (all.*1) (Js.findIndex (sameScopes S) (all.*2)) = Some n.
Proof.
  intros Hdist Hin HS. rewrite key_at_findIndex.
  destruct (List.find (fun kv => sameScopes S kv.2) all)
    as [[n' r']|] eqn:Hf.
  - apply find_some in Hf as [Hin' Hsame]. cbn [snd] in Hsame.
    apply sameScopes_true in Hsame.
    apply list_elem_of_In, list_elem_of_lookup in Hin' as [j Hj].
    apply list_elem_of_lookup in Hin as [i Hi].
    assert (i = j) by (eapply Hdist; eauto). subst j.
    rewrite Hi in Hj. by injection Hj as <- <-.
  - apply list_elem_of_In in Hin.
    apply (find_none _ _ Hf) in Hin. cbn [snd] in Hin.
    apply sameScopes_true in HS. congruence.
Qed.

Lemma resolve_unknown (all : JsObj Resource.t) (S : list string) :
  (forall n r, (n, r) ∈ all -> Resource.scopes r <> Some S) ->
  Js.at_index (all.*1) (Js.findIndex (sameScopes S) (all.*2)) = None.
Proof.
  intros Hnone. rewrite key_at_findIndex.
  destruct (List.find (fun kv => sameScopes S kv.2) all)
    as [[n' r']|] eqn:Hf; [|done].
  apply find_some in Hf as [Hin' Hsame]. cbn [snd] in Hsame.
  apply sameScopes_true in Hsame. apply list_elem_of_In in Hin'.
  by apply Hnone in Hin'.
Qed.

End Resolution.

(** C8: when no two resources of the merged table (remote and owned) have
    the same scope sequence, resolving the scope sequence of a configured
    resource returns that resource's name, and resolving a scope list that is
    the scope sequence of no configured resource returns [undefined]. *)
Theorem getResourceNameFromScopes_inverse (this : AuthProvider.t) :
  distinctScopes (allResources this) ->
  (forall n r S,
      (n, r) ∈ allResources this -> Resource.scopes r = Some S ->
      getResourceNameFromScopes this S = Some n) /\
  (forall S,
      (forall n r, (n, r) ∈ allResources this -> Resource.scopes r <> Some S) ->
      getResourceNameFromScopes this S = None).
Proof.
  intros Hdist. unfold getResourceNameFromScopes. split.
  - intros n r S. by apply resolve_configured.
  - intros S. apply resolve_unknown.
Qed.

Lemma sample_distinctScopes :
  distinctScopes (allResources Sample.quietProvider).
Proof.
  intros i j n1 r1 n2 r2 S Hi Hj H1 H2.
  destruct i as [|[|[|i]]]; destruct j as [|[|[|j]]];
    vm_compute in Hi, Hj; try discriminate; try reflexivity;
    injection Hi as <- <-; injection Hj as <- <-;
    vm_compute in H1, H2; congruence.
Defined.

Lemma getResourceNameFromScopes_inverse_witness :
  allResources Sample.quietProvider
  = [("graphAPI", Sample.graphAPI); ("mailAPI", Sample.mailAPI);
     ("ownAPI", Sample.ownAPI)] /\
  getResourceNameFromScopes Sample.quietProvider ["Mail.Read"] = Some "mailAPI" /\
  getResourceNameFromScopes Sample.quietProvider ["Mail.Read"; "User.Read"] = None.
Proof.
  split; [reflexivity |]. split.
  - apply (proj1 (getResourceNameFromScopes_inverse Sample.quietProvider
                    sample_distinctScopes) "mailAPI" Sample.mailAPI).
    + apply list_elem_of_In. right. left. reflexivity.
    + reflexivity.
  - apply (proj2 (getResourceNameFromScopes_inverse Sample.quietProvider
                    sample_distinctScopes)).
    intros n r Hin Hs. apply list_elem_of_In in Hin.
    destruct Hin as [[= <- <-] | [[= <- <-] | [[= <- <-] | []]]];
      discriminate Hs.
Defined.

(** ** The merged table of resources *)

Section Merge.

Context {A : Type}.
Implicit Types (t a b : JsObj A) (k : string) (v : A).

Lemma assoc_None t k : Js.assoc k t = None <-> k ∉ t.*1.
Proof.
  induction t as [|[k' v'] t IH]; cbn [Js.assoc fmap list_fmap fst].
  - split; [intros _ ?%elem_of_nil; done | done].
  - rewrite not_elem_of_cons.
    destruct (String.eqb_spec k' k) as [-> | Hne].
    + split; [done | by intros [? _]].
    + rewrite IH. split; [by intros ? | by intros [_ ?]].
Qed.

Lemma elem_of_define t k v k' v' :
  (k', v') ∈ define t k v <-> (k', v') = (k, v) \/ (k', v') ∈ t.
Proof.
  induction t as [|[k0 v0] t IH]; cbn [define].
  - rewrite list_elem_of_singleton, elem_of_nil. tauto.
  - destruct (Js.precedes k k0).
    + by rewrite elem_of_cons.
    + rewrite !elem_of_cons, IH. tauto.
Qed.

Lemma elem_of_replace_inv t k v k' v' :
  (k', v') ∈ replace t k v -> (k', v') = (k, v) \/ (k', v') ∈ t.
Proof.
  induction t as [|[k0 v0] t IH]; cbn [replace]; [by right |].
  destruct (String.eqb_spec k0 k) as [-> | Hne].
  - intros [-> | Hin]%elem_of_cons; [by left | right; by right].
  - intros [-> | Hin]%elem_of_cons; [right; by left |].
    destruct (IH Hin) as [-> | Hin']; [by left | right; by right].
Qed.

Lemma elem_of_replace_same t k v :
  k ∈ t.*1 -> (k, v) ∈ replace t k v.
Proof.
  induction t as [|[k0 v0] t IH]; cbn [replace fmap list_fmap fst].
  - by intros ?%elem_of_nil.
  - destruct (String.eqb_spec k0 k) as [-> | Hne]; [intros _; by left |].
    intros [-> | Hin]%elem_of_cons; [done |]. right. by apply IH.
Qed.

Lemma elem_of_replace_other t k v k' v' :
  k' <> k -> (k', v') ∈ t -> (k', v') ∈ replace t k v.
Proof.
  intros Hne. induction t as [|[k0 v0] t IH]; cbn [replace]; [done |].
  intros [[= <- <-] | Hin]%elem_of_cons.
  - destruct (String.eqb_spec k' k); [done | by left].
  - destruct (String.eqb_spec k0 k); right; [done | by apply IH].
Qed.

Lemma keys_replace t k v : (replace t k v).*1 = t.*1.
Proof.
  induction t as [|[k0 v0] t IH]; cbn [replace]; [done |].
  destruct (String.eqb_spec k0 k) as [-> | Hne]; cbn [fmap list_fmap fst];
    [done | by rewrite <- IH].
Qed.

Lemma assign_cases t k v :
  ((k ∈ t.*1) /\ assign t k v = replace t k v) \/
  ((k ∉ t.*1) /\ assign t k v = define t k v).
Proof.
  unfold assign. destruct (Js.assoc k t) as [x |] eqn:Hassoc.
  - left. split; [| done].
    destruct (decide (k ∈ t.*1)) as [Hin | Hnot]; [done |].
    apply assoc_None in Hnot. congruence.
  - right. split; [by apply assoc_None | done].
Qed.

Lemma elem_of_assign_same t k v : (k, v) ∈ assign t k v.
Proof.
  destruct (assign_cases t k v) as [[Hin ->] | [Hnot ->]].
  - by apply elem_of_replace_same.
  - apply elem_of_define. by left.
Qed.

Lemma elem_of_assign_other t k v k' v' :
  k' <> k -> (k', v') ∈ t -> (k', v') ∈ assign t k v.
Proof.
  intros Hne Hin. destruct (assign_cases t k v) as [[_ ->] | [_ ->]].
  - by apply elem_of_replace_other.
  - apply elem_of_define. by right.
Qed.

Lemma elem_of_assignAll_kept a b k v :
  (k, v) ∈ a -> k ∉ b.*1 -> (k, v) ∈ assignAll a b.
Proof.
  unfold assignAll. revert a.
  induction b as [|[k' v'] b IH]; intros a Hin Hk; [done |].
  cbn [fold_left fst snd]. cbn [fmap list_fmap fst] in Hk.
  apply not_elem_of_cons in Hk as [Hne Hk].
  apply IH; [|done]. by apply elem_of_assign_other.
Qed.

Lemma elem_of_assignAll_new a b k v :
  NoDup (b.*1) -> (k, v) ∈ b -> (k, v) ∈ assignAll a b.
Proof.
  unfold assignAll. revert a.
  induction b as [|[k' v'] b IH]; intros a Hnd Hin;
    [by apply elem_of_nil in Hin |].
  cbn [fmap list_fmap fst] in Hnd. apply NoDup_cons in Hnd as [Hk' Hnd].
  cbn [fold_left fst snd].
  apply elem_of_cons in Hin as [[= -> ->] | Hin].
  - apply (elem_of_assignAll_kept _ b); [apply elem_of_assign_same | done].
  - by apply IH.
Qed.

Lemma spread_assignAll a b : spread a b = assignAll (assignAll [] a) b.
Proof. reflexivity. Qed.

End Merge.

(** The merged table has every owned resource, and every remote resource
    whose name is not also the name of an owned one (names are the keys of
    the two objects, so they do not repeat within a table). *)
Lemma allResources_owned (this : AuthProvider.t) (n : string) (r : Resource.t) :
  NoDup ((AppSettings.ownedResources (AuthProvider.appSettings this)).*1) ->
  (n, r) ∈ AppSettings.ownedResources (AuthProvider.appSettings this) ->
  (n, r) ∈ allResources this.
Proof.
  intros Hnd Hin. unfold allResources. rewrite spread_assignAll.
  by apply elem_of_assignAll_new.
Qed.

Lemma allResources_remote (this : AuthProvider.t) (n : string) (r : Resource.t) :
  NoDup ((AppSettings.remoteResources (AuthProvider.appSettings this)).*1) ->
  (n, r) ∈ AppSettings.remoteResources (AuthProvider.appSettings this) ->
  n ∉ (AppSettings.ownedResources (AuthProvider.appSettings this)).*1 ->
  (n, r) ∈ allResources this.
Proof.
  intros Hnd Hin Hn. unfold allResources. rewrite spread_assignAll.
  apply elem_of_assignAll_kept; [|done]. by apply elem_of_assignAll_new.
Qed.

(** ** The redirect handler *)

Section Redirect.

Variable this : AuthProvider.t.
Variable rt : Runtime.t.

Lemma handleRedirect_no_state req s :
  presentState req = None ->
  run (handleRedirect this rt req) s
  = (Normal tt,
     mkWorld s [ConsoleLog ErrorMessages.STATE_NOT_FOUND;
                ResRedirect (AuthRoutes.unauthorized (routesOf this))]).
Proof. intros Hq. unfold handleRedirect. rewrite Hq. reflexivity. Qed.

Lemma handleRedirect_undecodable req s queryState e :
  presentState req = Some queryState ->
  decodeState this rt queryState = Throw e ->
  run (handleRedirect this rt req) s = (Throw e, mkWorld s []).
Proof.
  unfold decodeState. intros Hq Hparse. unfold handleRedirect.
  rewrite Hq. js_compute. rewrite Hparse. reflexivity.
Qed.

Lemma handleRedirect_mismatch req sess queryState state stateNonce :
  presentState req = Some queryState ->
  decodeState this rt queryState = Normal state ->
  Js.getProp state "nonce" = Normal stateNonce ->
  Js.strictEq stateNonce (nonceValue sess) = false ->
  run (handleRedirect this rt req) (Some sess)
  = (Normal tt,
     mkWorld (Some sess)
       [ConsoleLog ErrorMessages.NONCE_MISMATCH;
        ResRedirect (AuthRoutes.unauthorized (routesOf this))]).
Proof.
  unfold decodeState. intros Hq Hparse Hnonce Hneq. unfold handleRedirect.
  rewrite Hq. js_compute. rewrite Hparse, Hnonce, Hneq. reflexivity.
Qed.

Lemma handleRedirect_sign_in req sess tokenRequest :
  signInRedirect this rt req sess tokenRequest ->
  run (handleRedirect this rt req) (Some sess)
  = run (completeSignIn this req) (Some sess).
Proof.
  unfold signInRedirect, decodeState.
  intros (q & state & n & stage & Hq & Hparse & Hn & Heq & Hst & Hsi & _).
  unfold handleRedirect. rewrite Hq. js_compute.
  rewrite Hparse, Hn, Heq, Hst, Hsi. reflexivity.
Qed.

Lemma completeSignIn_exchange_fails req sess tokenRequest e :
  Session.tokenRequest sess = Some tokenRequest ->
  exchange this req tokenRequest = Throw e ->
  run (completeSignIn this req) (Some sess)
  = (Normal tt,
     mkWorld (Some (withCode req tokenRequest sess))
       [CalledAcquireTokenByCode
          (AuthorizationCodeRequest.set_code (Request.query_code req)
             tokenRequest);
        ConsoleLog ErrorMessages.TOKEN_ACQUISITION_FAILED;
        ConsoleLogError e;
        NextError e]).
Proof.
  unfold exchange. intros Htr Hex.
  unfold completeSignIn, attachCode, readTokenRequest, acquireTokenByCode.
  js_compute. rewrite Htr. cbn [Session.tokenRequest Session.set_tokenRequest].
  rewrite Hex. reflexivity.
Qed.

Lemma completeSignIn_exchange_succeeds req sess tokenRequest tokenResponse :
  Session.tokenRequest sess = Some tokenRequest ->
  exchange this req tokenRequest = Normal tokenResponse ->
  run (completeSignIn this req) (Some sess)
  = let called :=
      [CalledAcquireTokenByCode
         (AuthorizationCodeRequest.set_code (Request.query_code req)
            tokenRequest);
       ConsoleLogResponse tokenResponse;
       CalledValidateIdToken (AuthenticationResult.idToken tokenResponse)] in
    match TokenValidator.validateIdToken (AuthProvider.tokenValidator this)
            (AuthenticationResult.idToken tokenResponse) with
    | Normal true =>
        (Normal tt,
         mkWorld
           (Some (Session.set_isAuthenticated true
                    (Session.set_account
                       (AuthenticationResult.account tokenResponse)
                       (withCode req tokenRequest sess))))
           (called ++ [ResRedirect (AuthRoutes.postLogin (routesOf this))]))
    | Normal false =>
        (Normal tt,
         mkWorld (Some (withCode req tokenRequest sess))
           (called ++
            [ConsoleLog ErrorMessages.INVALID_TOKEN;
             ResRedirect (AuthRoutes.unauthorized (routesOf this))]))
    | Throw e =>
        (Normal tt,
         mkWorld (Some (withCode req tokenRequest sess))
           (called ++
            [ConsoleLog ErrorMessages.CANNOT_VALIDATE_TOKEN;
             ConsoleLogError e;
             NextError e]))
    end.
Proof.
  unfold exchange. intros Htr Hex.
  unfold completeSignIn, attachCode, readTokenRequest, acquireTokenByCode,
    validateIdToken.
  js_compute. rewrite Htr. cbn [Session.tokenRequest Session.set_tokenRequest].
  rewrite Hex.
  destruct (TokenValidator.validateIdToken _ _) as [[|]|e]; reflexivity.
Qed.

End Redirect.

Lemma presentState_None (req : Request.t) :
  Request.query_state req = None \/ Request.query_state req = Some EmptyString ->
  presentState req = None.
Proof. unfold presentState. by intros [-> | ->]. Qed.

Lemma presentState_Some (req : Request.t) (q : string) :
  Request.query_state req = Some q -> q <> EmptyString ->
  presentState req = Some q.
Proof.
  unfold presentState. intros -> Hq.
  by apply String.eqb_neq in Hq as ->.
Qed.

(** C2: when the [state] parameter decodes to an envelope whose nonce is not
    the nonce of the session, the redirect handler logs the mismatch,
    redirects to the unauthorized route, leaves the session as it was, and
    [acquireTokenByCode] is not called. *)
Theorem handleRedirect_nonce_mismatch
    (this : AuthProvider.t) (rt : Runtime.t) (req : Request.t)
    (sess : Session.t) (queryState : string) (state stateNonce : JsValue) :
  Request.query_state req = Some queryState ->
  queryState <> EmptyString ->
  decodeState this rt queryState = Normal state ->
  Js.getProp state "nonce" = Normal stateNonce ->
  Js.strictEq stateNonce (nonceValue sess) = false ->
  exists w,
    run (handleRedirect this rt req) (Some sess) = (Normal tt, w) /\
    trace w = [ConsoleLog ErrorMessages.NONCE_MISMATCH;
               ResRedirect (AuthRoutes.unauthorized (routesOf this))] /\
    session w = Some sess /\
    forall r, CalledAcquireTokenByCode r ∉ trace w.
Proof.
  intros Hq Hne Hparse Hnonce Hneq. eexists. split.
  - eapply handleRedirect_mismatch; eauto using presentState_Some.
  - cbn [trace session]. repeat split.
    intros r Hin. repeat (apply elem_of_cons in Hin as [[=] | Hin]).
    by apply elem_of_nil in Hin.
Qed.

Lemma handleRedirect_nonce_mismatch_witness :
  let req := Sample.redirectRequest (Some Sample.forgedState) in
  Js.strictEq (JString "n-2") (nonceValue Sample.pendingSession) = false /\
  exists w,
    run (handleRedirect Sample.quietProvider Sample.quietRuntime req)
        (Some Sample.pendingSession) = (Normal tt, w) /\
    trace w = [ConsoleLog "Nonce does not match"; ResRedirect "/unauthorized"] /\
    session w = Some Sample.pendingSession /\
    forall r, CalledAcquireTokenByCode r ∉ trace w.
Proof.
  split; [reflexivity |].
  apply (handleRedirect_nonce_mismatch Sample.quietProvider Sample.quietRuntime
           (Sample.redirectRequest (Some Sample.forgedState))
           Sample.pendingSession Sample.forgedState
           (Sample.envelope "sign_in" "/signin" "n-2") (JString "n-2")).
  - reflexivity.
  - discriminate.
  - reflexivity.
  - reflexivity.
  - reflexivity.
Defined.

(** A [state] parameter that is missing, or is the empty string: the
    redirect handler logs it and redirects to the unauthorized route,
    whatever the session, and raises nothing. *)
Theorem handleRedirect_state_missing
    (this : AuthProvider.t) (rt : Runtime.t) (req : Request.t)
    (s : option Session.t) :
  Request.query_state req = None \/
  Request.query_state req = Some EmptyString ->
  run (handleRedirect this rt req) s
  = (Normal tt,
     mkWorld s [ConsoleLog ErrorMessages.STATE_NOT_FOUND;
                ResRedirect (AuthRoutes.unauthorized (routesOf this))]) /\
  failsClosed this rt req s.
Proof.
  intros Hq.
  assert (Hrun := handleRedirect_no_state this rt req s (presentState_None _ Hq)).
  split; [done |]. eexists. split; [done |].
  cbn [trace]. right. left.
Qed.

Lemma handleRedirect_state_missing_witness :
  let req := Sample.redirectRequest None in
  Request.query_state req = None /\
  run (handleRedirect Sample.quietProvider Sample.quietRuntime req)
      (Some Sample.pendingSession)
  = (Normal tt,
     mkWorld (Some Sample.pendingSession)
       [ConsoleLog "State not found"; ResRedirect "/unauthorized"]) /\
  failsClosed Sample.quietProvider Sample.quietRuntime req
    (Some Sample.pendingSession).
Proof.
  split; [reflexivity |].
  apply (handleRedirect_state_missing Sample.quietProvider Sample.quietRuntime
           (Sample.redirectRequest None) (Some Sample.pendingSession)).
  left. reflexivity.
Defined.

(** A [state] parameter that is there and cannot be decoded: the exception
    of the decoder leaves the handler (its promise is rejected), and nothing
    was sent. *)
Lemma handleRedirect_state_undecodable
    (this : AuthProvider.t) (rt : Runtime.t) (req : Request.t)
    (s : option Session.t) (q : string) (e : JsError) :
  Request.query_state req = Some q -> q <> EmptyString ->
  decodeState this rt q = Throw e ->
  run (handleRedirect this rt req) s = (Throw e, mkWorld s []).
Proof.
  intros Hq Hne Hparse.
  eapply handleRedirect_undecodable; eauto using presentState_Some.
Qed.

(** C3, on the code: a [state] parameter that cannot be decoded escapes
    the handler.  The request carries [state=ew==], the encoding of a lone
    opening brace: [JSON.parse] raises a SyntaxError on it, the call is in
    no [try] block, and the request ends in that exception with no redirect
    sent.  The other requests with a bad [state] are answered as the claim
    says: without the parameter, and with an envelope whose nonce is not
    the one of the session, the same handler logs and redirects to the
    unauthorized route. *)
Theorem handleRedirect_undecodable_escapes :
  let req := Sample.redirectRequest (Some Sample.brokenState) in
  let s := Some Sample.pendingSession in
  Request.query_state req = Some "ew==" /\
  decodeState Sample.quietProvider Sample.quietRuntime "ew==" = Throw SyntaxError /\
  run (handleRedirect Sample.quietProvider Sample.quietRuntime req) s
  = (Throw SyntaxError, mkWorld s []) /\
  ~ failsClosed Sample.quietProvider Sample.quietRuntime req s /\
  run (handleRedirect Sample.quietProvider Sample.quietRuntime
         (Sample.redirectRequest None)) s
  = (Normal tt,
     mkWorld s [ConsoleLog "State not found"; ResRedirect "/unauthorized"]) /\
  run (handleRedirect Sample.quietProvider Sample.quietRuntime
         (Sample.redirectRequest (Some Sample.forgedState))) s
  = (Normal tt,
     mkWorld s [ConsoleLog "Nonce does not match";
                ResRedirect "/unauthorized"]).
Proof.
  cbv zeta. split; [reflexivity |]. split; [reflexivity |].
  split; [reflexivity |]. split; [| split; reflexivity].
  intros (w & Hrun & _). vm_compute in Hrun. discriminate.
Qed.

(** C7: on a redirect request whose envelope has stage [sign_in] and the
    nonce of the session, the code of the query is attached to the pending
    token request and the exchange is called with it; when the exchange
    succeeds and the ID token validates, the account of the session becomes
    the returned account, [isAuthenticated] becomes [true] and the response
    redirects to the post-login route; when the ID token does not validate,
    the response redirects to the unauthorized route; when the exchange
    fails, the error is passed to [next] and nothing is redirected. *)
Theorem handleRedirect_sign_in_completes
    (this : AuthProvider.t) (rt : Runtime.t) (req : Request.t)
    (sess : Session.t) (tokenRequest : AuthorizationCodeRequest.t) :
  signInRedirect this rt req sess tokenRequest ->
  (forall tokenResponse,
      exchange this req tokenRequest = Normal tokenResponse ->
      TokenValidator.validateIdToken (AuthProvider.tokenValidator this)
        (AuthenticationResult.idToken tokenResponse) = Normal true ->
      run (handleRedirect this rt req) (Some sess)
      = (Normal tt,
         mkWorld
           (Some (Session.set_isAuthenticated true
                    (Session.set_account
                       (AuthenticationResult.account tokenResponse)
                       (withCode req tokenRequest sess))))
           [CalledAcquireTokenByCode
              (AuthorizationCodeRequest.set_code (Request.query_code req)
                 tokenRequest);
            ConsoleLogResponse tokenResponse;
            CalledValidateIdToken (AuthenticationResult.idToken tokenResponse);
            ResRedirect (AuthRoutes.postLogin (routesOf this))])) /\
  (forall tokenResponse,
      exchange this req tokenRequest = Normal tokenResponse ->
      TokenValidator.validateIdToken (AuthProvider.tokenValidator this)
        (AuthenticationResult.idToken tokenResponse) = Normal false ->
      run (handleRedirect this rt req) (Some sess)
      = (Normal tt,
         mkWorld (Some (withCode req tokenRequest sess))
           [CalledAcquireTokenByCode
              (AuthorizationCodeRequest.set_code (Request.query_code req)
                 tokenRequest);
            ConsoleLogResponse tokenResponse;
            CalledValidateIdToken (AuthenticationResult.idToken tokenResponse);
            ConsoleLog ErrorMessages.INVALID_TOKEN;
            ResRedirect (AuthRoutes.unauthorized (routesOf this))])) /\
  (forall e,
      exchange this req tokenRequest = Throw e ->
      run (handleRedirect this rt req) (Some sess)
      = (Normal tt,
         mkWorld (Some (withCode req tokenRequest sess))
           [CalledAcquireTokenByCode
              (AuthorizationCodeRequest.set_code (Request.query_code req)
                 tokenRequest);
            ConsoleLog ErrorMessages.TOKEN_ACQUISITION_FAILED;
            ConsoleLogError e;
            NextError e])).
Proof.
  intros Hsign.
  assert (Htr : Session.tokenRequest sess = Some tokenRequest)
    by (destruct Hsign as (? & ? & ? & ? & ? & ? & ? & ? & ? & ? & ?); done).
  rewrite (handleRedirect_sign_in _ _ _ _ _ Hsign).
  repeat split.
  - intros tokenResponse Hex Hvalid.
    rewrite (completeSignIn_exchange_succeeds _ _ _ _ _ Htr Hex), Hvalid.
    reflexivity.
  - intros tokenResponse Hex Hvalid.
    rewrite (completeSignIn_exchange_succeeds _ _ _ _ _ Htr Hex), Hvalid.
    reflexivity.
  - intros e Hex. by apply completeSignIn_exchange_fails.
Qed.

Lemma sample_signInRedirect (this : AuthProvider.t) :
  AuthProvider.cryptoProvider this = Sample.crypto ->
  signInRedirect this Sample.quietRuntime
    (Sample.redirectRequest (Some Sample.signInState)) Sample.pendingSession
    (AuthorizationCodeRequest.mk "https://login.microsoftonline.com/tid"
       ["openid"; "profile"; "offline_access"]
       "https://app.example.org/redirect" (Some EmptyString)).
Proof.
  intros Hc.
  exists Sample.signInState, (Sample.envelope "sign_in" "/signin" "n-1"),
    (JString "n-1"), (JString "sign_in").
  unfold decodeState. rewrite Hc. repeat split.
Defined.

Lemma handleRedirect_sign_in_completes_witness :
  let req := Sample.redirectRequest (Some Sample.signInState) in
  let attached :=
    AuthorizationCodeRequest.mk "https://login.microsoftonline.com/tid"
      ["openid"; "profile"; "offline_access"]
      "https://app.example.org/redirect" (Some "code-1") in
  let valid := Sample.provider (Normal Sample.tokens) Sample.down
                 (Normal true) (Normal true) in
  let invalid := Sample.provider (Normal Sample.tokens) Sample.down
                   (Normal false) (Normal true) in
  let failing := Sample.provider (Throw (OtherError "invalid_grant"))
                   Sample.down (Normal true) (Normal true) in
  run (handleRedirect valid Sample.quietRuntime req) (Some Sample.pendingSession)
  = (Normal tt,
     mkWorld
       (Some (Session.mk true (AuthenticationResult.account Sample.tokens)
                (Some "n-1") (Session.authCodeRequest Sample.pendingSession)
                (Some attached) None))
       [CalledAcquireTokenByCode attached; ConsoleLogResponse Sample.tokens;
        CalledValidateIdToken "id-1"; ResRedirect "/home"]) /\
  run (handleRedirect invalid Sample.quietRuntime req)
      (Some Sample.pendingSession)
  = (Normal tt,
     mkWorld
       (Some (Session.mk false (Session.account Sample.pendingSession)
                (Some "n-1") (Session.authCodeRequest Sample.pendingSession)
                (Some attached) None))
       [CalledAcquireTokenByCode attached; ConsoleLogResponse Sample.tokens;
        CalledValidateIdToken "id-1"; ConsoleLog "Invalid token";
        ResRedirect "/unauthorized"]) /\
  run (handleRedirect failing Sample.quietRuntime req)
      (Some Sample.pendingSession)
  = (Normal tt,
     mkWorld
       (Some (Session.mk false (Session.account Sample.pendingSession)
                (Some "n-1") (Session.authCodeRequest Sample.pendingSession)
                (Some attached) None))
       [CalledAcquireTokenByCode attached;
        ConsoleLog "Token acquisition failed";
        ConsoleLogError (OtherError "invalid_grant");
        NextError (OtherError "invalid_grant")]).
Proof.
  cbv zeta. split; [|split].
  - apply (proj1 (handleRedirect_sign_in_completes _ _ _ _ _
                    (sample_signInRedirect
                       (Sample.provider (Normal Sample.tokens) Sample.down
                          (Normal true) (Normal true)) eq_refl))
             Sample.tokens); reflexivity.
  - apply (proj1 (proj2 (handleRedirect_sign_in_completes _ _ _ _ _
                    (sample_signInRedirect
                       (Sample.provider (Normal Sample.tokens) Sample.down
                          (Normal false) (Normal true)) eq_refl)))
             Sample.tokens); reflexivity.
  - apply (proj2 (proj2 (handleRedirect_sign_in_completes _ _ _ _ _
                    (sample_signInRedirect
                       (Sample.provider (Throw (OtherError "invalid_grant"))
                          Sample.down (Normal true) (Normal true)) eq_refl)))
             (OtherError "invalid_grant")); reflexivity.
Defined.

(** ** The bearer-token guard *)

Section BearerGuard.

Variable this : AuthProvider.t.

(** The token is split off the header before the header is tested: without
    the header the guard raises a TypeError and sends nothing. *)
Lemma isAuthorized_no_header req s :
  Request.headers_authorization req = None ->
  run (isAuthorized this req) s = (Throw TypeError, mkWorld s []).
Proof. intros Hh. unfold isAuthorized. rewrite Hh. reflexivity. Qed.

Lemma isAuthorized_empty_header req s :
  Request.headers_authorization req = Some EmptyString ->
  run (isAuthorized this req) s
  = (Normal tt,
     mkWorld s [ConsoleLog ErrorMessages.TOKEN_NOT_FOUND;
                ResRedirect (AuthRoutes.unauthorized (routesOf this))]).
Proof. intros Hh. unfold isAuthorized. rewrite Hh. reflexivity. Qed.

(** With a header, the guard follows the validator: [next] when the token
    validates, a redirect to the unauthorized route when it does not. *)
Lemma isAuthorized_header req s authorization valid :
  Request.headers_authorization req = Some authorization ->
  authorization <> EmptyString ->
  TokenValidator.validateAccessToken (AuthProvider.tokenValidator this)
    (bearerToken authorization) (Request.route_path req) = Normal valid ->
  run (isAuthorized this req) s
  = (Normal tt,
     mkWorld s
       (CalledValidateAccessToken (bearerToken authorization)
          (Request.route_path req)
        :: if valid then [NextCalled]
           else [ConsoleLog ErrorMessages.INVALID_TOKEN;
                 ResRedirect (AuthRoutes.unauthorized (routesOf this))])).
Proof.
  unfold bearerToken. intros Hh Hne Hvalid.
  unfold isAuthorized, validateAccessToken. rewrite Hh.
  js_compute. cbn [Js.truthy]. apply String.eqb_neq in Hne as ->.
  cbn [negb]. rewrite Hvalid. by destruct valid.
Qed.

End BearerGuard.

(** C9, on the code: a request without an authorization header makes
    [isAuthorized] raise a TypeError (the header is split before it is
    tested): nothing is redirected and the exception leaves the guard.  With
    a header the guard does as the claim says. *)
Theorem isAuthorized_missing_header_throws :
  let req := Sample.pageRequest "GET" "/api/profile" None in
  let s := Some (Sample.signedIn ∅) in
  run (isAuthorized Sample.quietProvider req) s = (Throw TypeError, mkWorld s []) /\
  run (isAuthorized
         (Sample.provider Sample.down Sample.down (Normal true) (Normal true))
         (Sample.pageRequest "GET" "/api/profile" (Some "Bearer access-1"))) s
  = (Normal tt,
     mkWorld s [CalledValidateAccessToken (Some "access-1") "/api/profile";
                NextCalled]) /\
  run (isAuthorized
         (Sample.provider Sample.down Sample.down (Normal true) (Normal false))
         (Sample.pageRequest "GET" "/api/profile" (Some "Bearer access-1"))) s
  = (Normal tt,
     mkWorld s [CalledValidateAccessToken (Some "access-1") "/api/profile";
                ConsoleLog "Invalid token"; ResRedirect "/unauthorized"]).
Proof. repeat split. Qed.

(** ** The access guard *)

Section AccessGuard.

Variable this : AuthProvider.t.
Variable rt : Runtime.t.

Lemma bool_decide_is_Some {A} (a : A) : bool_decide (is_Some (Some a)) = true.
Proof. apply bool_decide_eq_true_2. eauto. Qed.

(** Passes the test [req.session && this.appSettings.accessMatrix]. *)
Ltac enter_guard Hm :=
  unfold run, start, reqSession; unfold bind at 1;
  cbv beta iota zeta delta [session];
  rewrite Hm, !bool_decide_is_Some; cbn [andb].

(** The roles branch: the rule is applied to the roles claim, and the
    request is redirected when the rule holds, passed on when it does not. *)
Lemma hasAccess_roles options req sess claims applies w :
  guarded this sess claims ->
  AccessRule.groups (GuardOptions.accessRule options) = None ->
  Js.strictEq (claim claims "roles") JUndefined = false ->
  applyAccessRule (Request.method req) (GuardOptions.accessRule options)
    (claim claims "roles") false (mkWorld (Some sess) []) = (Normal applies, w) ->
  run (hasAccess this rt options req) (Some sess)
  = (Normal tt,
     mkWorld (session w)
       (trace w ++ [if applies
                    then ResRedirect (AuthRoutes.unauthorized (routesOf this))
                    else NextCalled])).
Proof.
  intros [[m Hm] (account & Hacc & Hcl)] Hgroups Hroles Happly.
  unfold hasAccess. rewrite Hgroups. enter_guard Hm.
  change (String.eqb AccessConstants.ROLES AccessConstants.GROUPS) with false.
  change (String.eqb AccessConstants.ROLES AccessConstants.ROLES) with true.
  cbv iota. unfold readClaims. js_compute. rewrite Hacc, Hcl.
  change AccessConstants.ROLES with "roles".
  rewrite Hroles, Happly. by destruct applies.
Qed.

(** The groups branch without a [groups] claim: the overage is resolved when
    the claim under [AccessConstants.CLAIM_NAMES] or the one under
    [AccessConstants.CLAIM_SOURCES] is truthy, and the request is redirected
    to the unauthorized route otherwise. *)
Lemma hasAccess_groups_absent options req sess claims set :
  guarded this sess claims ->
  AccessRule.groups (GuardOptions.accessRule options) = Some set ->
  Js.strictEq (claim claims "groups") JUndefined = true ->
  run (hasAccess this rt options req) (Some sess)
  = if Js.truthy (claim claims AccessConstants.CLAIM_NAMES) ||
       Js.truthy (claim claims AccessConstants.CLAIM_SOURCES)
    then run (handleOverage this rt req (GuardOptions.accessRule options))
           (Some sess)
    else (Normal tt,
          mkWorld (Some sess)
            [ConsoleLog ErrorMessages.USER_HAS_NO_GROUP;
             ResRedirect (AuthRoutes.unauthorized (routesOf this))]).
Proof.
  intros [[m Hm] (account & Hacc & Hcl)] Hgroups Habsent.
  unfold hasAccess. rewrite Hgroups. enter_guard Hm.
  change (String.eqb AccessConstants.GROUPS AccessConstants.GROUPS) with true.
  cbv iota. unfold readClaims. js_compute. rewrite Hacc, Hcl.
  change AccessConstants.GROUPS with "groups". rewrite Habsent.
  by destruct (Js.truthy (claim claims AccessConstants.CLAIM_NAMES) ||
               Js.truthy (claim claims AccessConstants.CLAIM_SOURCES)).
Qed.

End AccessGuard.

(** C1, on the code: in the roles branch the test of the rule is inverted.
    For a GET guarded by a rule for the role [admin], a user whose roles
    claim has [admin] (the evaluator returns [true]) is redirected to the
    unauthorized route, and a user whose roles claim has only [guest] (the
    evaluator returns [false]) is passed on with [next]. *)
Theorem hasAccess_roles_inverted :
  let req := Sample.pageRequest "GET" "/admin" None in
  let options := GuardOptions.mk Sample.adminRule in
  let admin := Some (Sample.signedIn {[ "roles" := JArray [JString "admin"] ]}) in
  let guest := Some (Sample.signedIn {[ "roles" := JArray [JString "guest"] ]}) in
  (applyAccessRule "GET" Sample.adminRule (JArray [JString "admin"]) false
     (start admin)).1 = Normal true /\
  run (hasAccess Sample.quietProvider Sample.quietRuntime options req) admin
  = (Normal tt, mkWorld admin [ResRedirect "/unauthorized"]) /\
  (applyAccessRule "GET" Sample.adminRule (JArray [JString "guest"]) false
     (start guest)).1 = Normal false /\
  run (hasAccess Sample.quietProvider Sample.quietRuntime options req) guest
  = (Normal tt,
     mkWorld guest [ConsoleLog "User does not have this role"; NextCalled]).
Proof. cbv zeta. repeat split; vm_compute; reflexivity. Qed.

(** C6, on the code: the key that the guard reads for the first overage
    indicator is [AccessConstants.CLAIM_NAMES], which is spelled
    [_claim_name].  With ID token claims that have [_claim_names] and neither
    [groups] nor [_claim_sources], the guard does not resolve the overage: it
    logs that the user has no groups and redirects to the unauthorized
    route.  With [_claim_sources] in the claims the overage is resolved. *)
Theorem hasAccess_claim_names_not_seen :
  let req := Sample.pageRequest "GET" "/staff" None in
  let options := GuardOptions.mk Sample.staffRule in
  let names : gmap string JsValue :=
    {[ "_claim_names" := JObject [("groups", JString "src1")] ]} in
  let sources : gmap string JsValue :=
    {[ "_claim_sources" := JObject [("src1", JObject [])] ]} in
  AccessConstants.CLAIM_NAMES = "_claim_name" /\
  names !! "_claim_names" = Some (JObject [("groups", JString "src1")]) /\
  names !! "groups" = None /\
  run (hasAccess Sample.quietProvider Sample.quietRuntime options req)
      (Some (Sample.signedIn names))
  = (Normal tt,
     mkWorld (Some (Sample.signedIn names))
       [ConsoleLog "User does not have any groups";
        ResRedirect "/unauthorized"]) /\
  run (hasAccess Sample.quietProvider Sample.quietRuntime options req)
      (Some (Sample.signedIn sources))
  = run (handleOverage Sample.quietProvider Sample.quietRuntime req
           Sample.staffRule)
        (Some (Sample.signedIn sources)).
Proof. cbv zeta. repeat split; vm_compute; reflexivity. Qed.

(** ** Overage resolution *)

Section Overage.

Variable this : AuthProvider.t.
Variable rt : Runtime.t.
Variable req : Request.t.
Variable rule : AccessRule.t.
Variable sess : Session.t.
Variable account : Account.t.
Variable claims : gmap string JsValue.

Hypothesis Haccount : Session.account sess = Some account.
Hypothesis Hclaims : Account.idTokenClaims account = Some claims.

Ltac enter_overage :=
  unfold handleOverage, readClaims, acquireTokenSilent, callApiEndpoint,
    handlePagination;
  js_compute; rewrite ?Haccount, ?Hclaims.

(** The silent acquisition fails: the error is logged, and that is all. *)
Lemma handleOverage_silent_fails e :
  MsalClient.acquireTokenSilent (AuthProvider.msalClient this)
    (graphTokenRequest sess) = Throw e ->
  run (handleOverage this rt req rule) (Some sess)
  = (Normal tt,
     mkWorld (Some sess)
       [CalledAcquireTokenSilent (graphTokenRequest sess); ConsoleLogError e]).
Proof.
  unfold graphTokenRequest. intros Hsilent. enter_overage.
  rewrite Hsilent. by rewrite ?Haccount.
Qed.

(** The first fetch fails: the same. *)
Lemma handleOverage_fetch_fails tokenResponse e :
  MsalClient.acquireTokenSilent (AuthProvider.msalClient this)
    (graphTokenRequest sess) = Normal tokenResponse ->
  Runtime.callApiEndpoint rt memberOf
    (AuthenticationResult.accessToken tokenResponse) = Throw e ->
  run (handleOverage this rt req rule) (Some sess)
  = (Normal tt,
     mkWorld (Some sess)
       [CalledAcquireTokenSilent (graphTokenRequest sess);
        CalledCallApiEndpoint memberOf
          (AuthenticationResult.accessToken tokenResponse);
        ConsoleLogError e]).
Proof.
  unfold graphTokenRequest, memberOf. intros Hsilent Hfetch. enter_overage.
  rewrite Hsilent, Hfetch. by rewrite ?Haccount.
Qed.

(** The fetch of the next pages fails: the same. *)
Lemma handleOverage_pagination_fails tokenResponse graphResponse link e :
  MsalClient.acquireTokenSilent (AuthProvider.msalClient this)
    (graphTokenRequest sess) = Normal tokenResponse ->
  Runtime.callApiEndpoint rt memberOf
    (AuthenticationResult.accessToken tokenResponse) = Normal graphResponse ->
  Js.getProp graphResponse "@odata.nextLink" = Normal link ->
  Js.truthy link = true ->
  Runtime.handlePagination rt
    (AuthenticationResult.accessToken tokenResponse) link = Throw e ->
  run (handleOverage this rt req rule) (Some sess)
  = (Normal tt,
     mkWorld (Some sess)
       [CalledAcquireTokenSilent (graphTokenRequest sess);
        CalledCallApiEndpoint memberOf
          (AuthenticationResult.accessToken tokenResponse);
        CalledHandlePagination
          (AuthenticationResult.accessToken tokenResponse) link;
        ConsoleLogError e]).
Proof.
  unfold graphTokenRequest, memberOf.
  intros Hsilent Hfetch Hlink Htruthy Hpages. enter_overage.
  rewrite Hsilent, Hfetch, Hlink, Htruthy, Hpages. by rewrite ?Haccount.
Qed.

End Overage.

(** C5, on the code: when a stage of the overage resolution fails (the
    silent acquisition, the first fetch, or the fetch of the next pages) the
    error is logged and the handler returns: neither a redirect nor [next]
    follows, nothing is tried again and no interactive acquisition starts. *)
Theorem handleOverage_failure_only_logged :
  let req := Sample.pageRequest "GET" "/staff" None in
  let s := Some (Sample.signedIn Sample.overageClaims) in
  let silentFails := Sample.quietProvider in
  let silentWorks :=
    Sample.provider Sample.down (Normal Sample.tokens)
      (Normal true) (Normal true) in
  let network := OtherError "network" in
  run (handleOverage silentFails Sample.quietRuntime req Sample.staffRule) s
  = (Normal tt,
     mkWorld s
       [CalledAcquireTokenSilent (Sample.graphRequest Sample.overageClaims);
        ConsoleLogError network]) /\
  run (handleOverage silentWorks Sample.quietRuntime req Sample.staffRule) s
  = (Normal tt,
     mkWorld s
       [CalledAcquireTokenSilent (Sample.graphRequest Sample.overageClaims);
        CalledCallApiEndpoint "https://graph.microsoft.com/v1.0/me/memberOf"
          "access-1";
        ConsoleLogError network]) /\
  run (handleOverage silentWorks
         (Sample.runtime (Normal Sample.linkedPage) (Throw network))
         req Sample.staffRule) s
  = (Normal tt,
     mkWorld s
       [CalledAcquireTokenSilent (Sample.graphRequest Sample.overageClaims);
        CalledCallApiEndpoint "https://graph.microsoft.com/v1.0/me/memberOf"
          "access-1";
        CalledHandlePagination "access-1" Sample.nextLink;
        ConsoleLogError network]).
Proof. cbv zeta. repeat split; vm_compute; reflexivity. Qed.

(** ** The token middleware *)

Section TokenMiddleware.

Variable this : AuthProvider.t.
Variable rt : Runtime.t.

Lemma resetRemoteResources_run name sess :
  run (resetRemoteResources this name) (Some sess)
  = (Normal tt,
     mkWorld
       (Some (Session.set_remoteResources
                {[ propKey name := freshResource this name ]} sess))
       []).
Proof.
  unfold resetRemoteResources. js_compute.
  destruct (Session.remoteResources sess); reflexivity.
Qed.

Ltac session_fields :=
  cbn [Session.isAuthenticated Session.account Session.nonce
       Session.authCodeRequest Session.tokenRequest Session.remoteResources
       Session.set_remoteResources Session.set_authCodeRequest
       Session.set_tokenRequest].

Ltac js_steps := repeat (progress (js_compute; session_fields)).

Ltac holds_only :=
  js_steps; eexists _, _; split; [reflexivity |];
  eexists _, _; split; [reflexivity | session_fields; reflexivity].

(** The acquisition writes the entry of the resource and nothing else of
    [remoteResources], whatever the collaborators answer. *)
Lemma acquireForResource_holdsOnly req scopes name w :
  holdsOnly (propKey name) w ->
  exists c w',
    acquireForResource this rt req scopes name w = (c, w') /\
    holdsOnly (propKey name) w'.
Proof.
  intros (sess & resource & Hs & Hr). destruct w as [s tr].
  cbn [session] in Hs. subst s.
  destruct sess as [authenticated account nonce urlRequest codeRequest remote].
  cbn [Session.remoteResources] in Hr. subst remote.
  unfold acquireForResource, acquireTokenSilent, storeAccessToken, getAuthCode,
    getAuthCodeUrl.
  js_steps.
  destruct (MsalClient.acquireTokenSilent _ _) as [tokenResponse | e].
  - destruct (Js.isEmpty (AuthenticationResult.accessToken tokenResponse)).
    + destruct urlRequest, codeRequest; js_steps;
        try destruct (MsalClient.getAuthCodeUrl _ _); holds_only.
    + js_steps. rewrite lookup_singleton_eq. js_steps.
      rewrite insert_singleton_eq. holds_only.
  - destruct e; try holds_only.
    destruct urlRequest, codeRequest; js_steps;
      try destruct (MsalClient.getAuthCodeUrl _ _); holds_only.
Qed.

End TokenMiddleware.

(** C10: when [getToken] runs for a resource that resolves to the name [R],
    the acquisition starts from a session whose [remoteResources] is a new
    object with the single entry [R], its access token [null]; when the
    middleware is done, [remoteResources] still has the entry [R] and no
    other: whatever was stored under another name, access token included, is
    gone. *)
Theorem getToken_replaces_remoteResources
    (this : AuthProvider.t) (rt : Runtime.t) (options : TokenOptions.t)
    (req : Request.t) (sess : Session.t) (R : string) :
  getResourceNameFromScopes this (TokenOptions.resource_scopes options)
  = Some R ->
  Resource.accessToken (freshResource this (Some R)) = None /\
  run (getToken this rt options req) (Some sess)
  = acquireForResource this rt req (TokenOptions.resource_scopes options)
      (Some R)
      (mkWorld
         (Some (Session.set_remoteResources
                  {[ R := freshResource this (Some R) ]} sess))
         []) /\
  exists c w sess' remote,
    run (getToken this rt options req) (Some sess) = (c, w) /\
    session w = Some sess' /\
    Session.remoteResources sess' = Some remote /\
    is_Some (remote !! R) /\
    forall other, other <> R -> remote !! other = None.
Proof.
  intros HR.
  assert (Hrun :
    run (getToken this rt options req) (Some sess)
    = acquireForResource this rt req (TokenOptions.resource_scopes options)
        (Some R)
        (mkWorld
           (Some (Session.set_remoteResources
                    {[ R := freshResource this (Some R) ]} sess))
           [])).
  { unfold getToken. rewrite HR. unfold run, bind.
    fold (run (resetRemoteResources this (Some R)) (Some sess)).
    by rewrite resetRemoteResources_run. }
  split; [by unfold freshResource; destruct (Js.assoc _ _) |].
  split; [done |]. rewrite Hrun.
  destruct (acquireForResource_holdsOnly this rt req
              (TokenOptions.resource_scopes options) (Some R)
              (mkWorld
                 (Some (Session.set_remoteResources
                          {[ R := freshResource this (Some R) ]} sess))
                 []))
    as (c & w & Hacq & sess' & resource & Hs & Hremote).
  { eexists _, _. split; reflexivity. }
  exists c, w, sess', {[ R := resource ]}. cbn [propKey default] in *.
  repeat split; try done.
  - rewrite lookup_singleton_eq. eauto.
  - intros other Hother. by apply lookup_singleton_ne.
Qed.

Lemma getToken_replaces_remoteResources_witness :
  let this := Sample.provider Sample.down (Normal Sample.tokens)
                (Normal true) (Normal true) in
  let options := TokenOptions.mk ["Mail.Read"] in
  let req := Sample.pageRequest "GET" "/mail" None in
  getResourceNameFromScopes this ["Mail.Read"] = Some "mailAPI" /\
  Session.remoteResources Sample.withGraphToken
  = Some {[ "graphAPI" :=
              Resource.mk (Some ["User.Read"]) (Some "graph-token") ]} /\
  exists c w sess' remote,
    run (getToken this Sample.quietRuntime options req)
        (Some Sample.withGraphToken) = (c, w) /\
    session w = Some sess' /\
    Session.remoteResources sess' = Some remote /\
    is_Some (remote !! "mailAPI") /\
    forall other, other <> "mailAPI" -> remote !! other = None.
Proof.
  cbv zeta. split; [reflexivity |]. split; [reflexivity |].
  apply (getToken_replaces_remoteResources
           (Sample.provider Sample.down (Normal Sample.tokens)
              (Normal true) (Normal true))
           Sample.quietRuntime (TokenOptions.mk ["Mail.Read"])
           (Sample.pageRequest "GET" "/mail" None)
           Sample.withGraphToken "mailAPI").
  reflexivity.
Defined.

(** * Further properties *)

(** ** Frames through the monad *)

Section Frames.

Variable F : Frame.

Lemma keeps_ret {A} (a : A) : keeps F (ret a).
Proof. intros w c w' [= <- <-]. apply related_refl. Qed.

Lemma keeps_throw {A} (e : JsError) : keeps F (@throw A e).
Proof. intros w c w' [= <- <-]. apply related_refl. Qed.

Lemma keeps_liftC {A} (x : Completion A) : keeps F (liftC x).
Proof. intros w c w' [= <- <-]. apply related_refl. Qed.

Lemma keeps_deref {A} (o : option A) : keeps F (deref o).
Proof. destruct o; [apply keeps_ret | apply keeps_throw]. Qed.

Lemma keeps_reqSession : keeps F reqSession.
Proof. intros w c w' [= <- <-]. apply related_refl. Qed.

Lemma keeps_readSession : keeps F readSession.
Proof.
  intros w c w'. unfold readSession.
  destruct (session w); intros [= <- <-]; apply related_refl.
Qed.

Lemma keeps_bind {A B} (m : M A) (k : A -> M B) :
  keeps F m -> (forall a, keeps F (k a)) -> keeps F (bind m k).
Proof.
  intros Hm Hk w c w'. unfold bind.
  destruct (m w) as [[a | e] w1] eqn:Hmw.
  - intros Hkw. eapply related_trans; [eapply Hm | eapply Hk]; eauto.
  - intros [= <- <-]. eapply Hm; eauto.
Qed.

Lemma keeps_try_catch {A} (body : M A) (handler : JsError -> M A) :
  keeps F body -> (forall e, keeps F (handler e)) ->
  keeps F (try_catch body handler).
Proof.
  intros Hm Hk w c w'. unfold try_catch.
  destruct (body w) as [[a | e] w1] eqn:Hmw.
  - intros [= <- <-]. eapply Hm; eauto.
  - intros Hkw. eapply related_trans; [eapply Hm | eapply Hk]; eauto.
Qed.

Lemma keeps_emit (e : Event) :
  (forall w, related F w (mkWorld (session w) (trace w ++ [e]))) ->
  keeps F (emit e).
Proof. intros He w c w' [= <- <-]. apply He. Qed.

Lemma keeps_writeSession (f : Session.t -> Session.t) :
  (forall s tr, related F (mkWorld (Some s) tr) (mkWorld (Some (f s)) tr)) ->
  keeps F (writeSession f).
Proof.
  intros Hf [s tr] c w'. unfold writeSession. cbn [session trace].
  destruct s; intros [= <- <-]; [apply Hf | apply related_refl].
Qed.

End Frames.

Lemma count_snoc (p : Event -> bool) (tr : list Event) (e : Event) :
  count p (tr ++ [e]) = (count p tr + if p e then 1 else 0)%nat.
Proof.
  unfold count. rewrite List.filter_app, length_app. cbn [List.filter].
  by destruct (p e).
Qed.

(** An event of another kind, and any assignment to the session, keep the
    count. *)
Lemma count_emit (p : Event -> bool) (e : Event) :
  p e = false -> keeps (countFrame p) (emit e).
Proof.
  intros He. apply keeps_emit. intros w. cbn [related countFrame trace].
  rewrite count_snoc, He. lia.
Qed.

Lemma count_writeSession (p : Event -> bool) (f : Session.t -> Session.t) :
  keeps (countFrame p) (writeSession f).
Proof. apply keeps_writeSession. reflexivity. Qed.

Lemma session_emit {B} (f : Session.t -> B) (e : Event) :
  keeps (sessionFrame f) (emit e).
Proof. apply keeps_emit. reflexivity. Qed.

Lemma session_writeSession {B} (f : Session.t -> B) (g : Session.t -> Session.t) :
  (forall s, f (g s) = f s) -> keeps (sessionFrame f) (writeSession g).
Proof.
  intros Hg. apply keeps_writeSession. intros s tr.
  cbn [related sessionFrame session fmap option_fmap option_map]. by rewrite Hg.
Qed.

Create HintDb js_defs discriminated.
#[local] Hint Unfold console_log console_log_error res_redirect next next_error
  detached acquireTokenByCode acquireTokenSilent getAuthCodeUrl validateIdToken
  validateAccessToken callApiEndpoint handlePagination readClaims writeClaims
  attachCode readTokenRequest storeAccessToken : js_defs.

(** Walks through a handler: [emit_tac] shows that an event keeps the frame,
    [write_tac] that an assignment to the session does. *)
Ltac keeps_walk emit_tac write_tac :=
  repeat first
    [ apply keeps_ret | apply keeps_throw | apply keeps_liftC
    | apply keeps_deref | apply keeps_reqSession | apply keeps_readSession
    | solve [emit_tac]
    | solve [write_tac]
    | match goal with H : _ |- _ => apply H end
    | match goal with
      | |- keeps _ (bind _ _) => apply keeps_bind; [| intros ?]
      | |- keeps _ (try_catch _ _) => apply keeps_try_catch; [| intros ?]
      end
    | progress cbv zeta
    | match goal with
      | |- keeps _ (if ?b then _ else _) => destruct b
      | |- keeps _ (match ?x with _ => _ end) => destruct x
      end
    | progress autounfold with js_defs ].

Ltac count_walk :=
  keeps_walk ltac:(apply count_emit; reflexivity)
             ltac:(apply count_writeSession).

Section Counts.

Variable p : Event -> bool.
Variable this : AuthProvider.t.
Variable rt : Runtime.t.

Hypothesis no_log : forall msg, p (ConsoleLog msg) = false.

(** [applyAccessRule] only writes to the console. *)
Lemma count_applyAccessRule method rule creds isGroups :
  keeps (countFrame p) (applyAccessRule method rule creds isGroups).
Proof.
  unfold applyAccessRule.
  keeps_walk ltac:(apply count_emit; apply no_log)
             ltac:(apply count_writeSession).
Qed.

End Counts.

(** ** At most one answer *)

Section Responses.

Lemma responds_of_silent {A} (m : M A) :
  keeps (countFrame isResponse) m -> responds m.
Proof.
  intros Hm w c w' Hrun. apply Hm in Hrun. cbn [related countFrame] in Hrun.
  unfold responses. destruct c; lia.
Qed.

Lemma responds_emit (e : Event) : responds (emit e).
Proof.
  intros w c w' [= <- <-]. cbn [trace]. unfold responses.
  rewrite count_snoc. destruct (isResponse e); lia.
Qed.

Lemma responds_bind {A B} (m : M A) (k : A -> M B) :
  keeps (countFrame isResponse) m -> (forall a, responds (k a)) ->
  responds (bind m k).
Proof.
  intros Hm Hk w c w'. unfold bind.
  destruct (m w) as [[a | e] w1] eqn:Hmw.
  - intros Hkw. apply Hm in Hmw. apply Hk in Hkw.
    cbn [related countFrame] in Hmw. unfold responses in *.
    destruct c; lia.
  - intros [= <- <-]. apply Hm in Hmw. apply Hmw.
Qed.

Lemma responds_try_catch {A} (body : M A) (handler : JsError -> M A) :
  responds body -> (forall e, responds (handler e)) ->
  responds (try_catch body handler).
Proof.
  intros Hm Hk w c w'. unfold try_catch.
  destruct (body w) as [[a | e] w1] eqn:Hmw.
  - intros [= <- <-]. by apply Hm in Hmw.
  - intros Hkw. apply Hm in Hmw. apply Hk in Hkw.
    destruct c; lia.
Qed.

Lemma responds_then_ret {A B} (m : M A) (b : B) :
  responds m -> responds (bind m (fun _ => ret b)).
Proof.
  intros Hm w c w'. unfold bind, ret.
  destruct (m w) as [[a | e] w1] eqn:Hmw; intros [= <- <-];
    by apply Hm in Hmw.
Qed.

Lemma responds_run {A} (m : M A) (s : option Session.t) :
  responds m ->
  (responses (trace (run m s).2) <= allowance (run m s).1)%nat.
Proof.
  intros Hm. unfold run. destruct (m (start s)) as [c w] eqn:Hrun.
  apply Hm in Hrun. cbn [fst snd].
  change (responses (trace (start s))) with 0%nat in Hrun.
  destruct c; cbn [allowance]; lia.
Qed.

End Responses.

#[local] Hint Unfold checkGroups redirectToPath completeSignIn
  completeAcquireToken resetRemoteResources : js_defs.

Ltac silent_walk :=
  keeps_walk
    ltac:(first [ apply count_emit; reflexivity
                | apply count_applyAccessRule; reflexivity ])
    ltac:(apply count_writeSession).

Ltac responds_walk :=
  repeat first
    [ match goal with
      | |- responds (emit _) => apply responds_emit
      | |- responds (try_catch _ _) => apply responds_try_catch; [| intros ?]
      | |- responds (bind _ _) =>
          apply responds_bind; [solve [silent_walk] | intros ?]
      end
    | match goal with H : _ |- _ => apply H end
    | progress cbv zeta
    | match goal with
      | |- responds (if ?b then _ else _) => destruct b
      | |- responds (match ?x with _ => _ end) => destruct x
      end
    | apply responds_of_silent; solve [silent_walk]
    | progress autounfold with js_defs ].

Section AnswersOnce.

Variable this : AuthProvider.t.
Variable rt : Runtime.t.

Lemma responds_getAuthCode req params : responds (getAuthCode this req params).
Proof. unfold getAuthCode. responds_walk. Qed.

Lemma responds_handleOverage req rule : responds (handleOverage this rt req rule).
Proof. unfold handleOverage. responds_walk. Qed.

Lemma responds_handleRedirect req : responds (handleRedirect this rt req).
Proof. unfold handleRedirect. responds_walk. Qed.

Lemma responds_getToken options req : responds (getToken this rt options req).
Proof.
  pose proof (responds_getAuthCode req).
  unfold getToken, acquireForResource. responds_walk.
Qed.

Lemma responds_getTokenOnBehalf obo options req :
  responds (getTokenOnBehalf this obo options req).
Proof.
  unfold getTokenOnBehalf.
  apply responds_bind; [silent_walk |]. intros authorization.
  apply responds_try_catch.
  - apply responds_bind; [silent_walk |]. intros tokenResponse.
    apply responds_then_ret, responds_emit.
  - intros error. apply responds_bind; [silent_walk |]. intros _.
    apply responds_then_ret, responds_emit.
Qed.

Lemma responds_signIn guid req : responds (signIn this rt guid req).
Proof.
  pose proof (responds_getAuthCode req).
  unfold signIn. responds_walk.
Qed.

Lemma count_destroySession p : keeps (countFrame p) destroySession.
Proof.
  intros [s tr] c w'. unfold destroySession. cbn [session trace].
  destruct s; intros [= <- <-]; reflexivity.
Qed.

Lemma responds_signOut req : responds (signOut this rt req).
Proof.
  unfold signOut.
  apply responds_bind; [silent_walk |]. intros _.
  apply responds_bind; [apply count_destroySession |]. intros _.
  apply responds_emit.
Qed.

Lemma responds_isAuthenticated req : responds (isAuthenticated this req).
Proof. unfold isAuthenticated. responds_walk. Qed.

Lemma responds_isAuthorized req : responds (isAuthorized this req).
Proof. unfold isAuthorized. responds_walk. Qed.

Lemma responds_hasAccess options req : responds (hasAccess this rt options req).
Proof.
  pose proof (responds_handleOverage req (GuardOptions.accessRule options)).
  unfold hasAccess. responds_walk.
Qed.

End AnswersOnce.

(** X1: [signIn], [signOut] and [handleRedirect] answer a request at most
    once (a redirect, [next()] or [next(error)]), and not at all when they
    raise an exception. *)
Theorem handlers_answer_at_most_once
    (this : AuthProvider.t) (rt : Runtime.t) (guid : string)
    (req : Request.t) (s : option Session.t) :
  (responses (trace (run (signIn this rt guid req) s).2)
   <= allowance (run (signIn this rt guid req) s).1)%nat /\
  (responses (trace (run (signOut this rt req) s).2)
   <= allowance (run (signOut this rt req) s).1)%nat /\
  (responses (trace (run (handleRedirect this rt req) s).2)
   <= allowance (run (handleRedirect this rt req) s).1)%nat.
Proof.
  split; [| split]; apply responds_run.
  - apply responds_signIn.
  - apply responds_signOut.
  - apply responds_handleRedirect.
Qed.

(** X2: the middleware [getToken] and [getTokenOnBehalf] answer a request
    at most once, and not at all when they raise an exception. *)
Theorem middleware_answers_at_most_once
    (this : AuthProvider.t) (rt : Runtime.t)
    (obo : OnBehalfOfRequest.t -> Completion AuthenticationResult.t)
    (options : TokenOptions.t) (req : Request.t) (s : option Session.t) :
  (responses (trace (run (getToken this rt options req) s).2)
   <= allowance (run (getToken this rt options req) s).1)%nat /\
  (responses (trace (run (getTokenOnBehalf this obo options req) s).2)
   <= allowance (run (getTokenOnBehalf this obo options req) s).1)%nat.
Proof.
  split; apply responds_run.
  - apply responds_getToken.
  - apply responds_getTokenOnBehalf.
Qed.

(** X3: the guards [isAuthenticated], [isAuthorized] and [hasAccess] (the
    overage resolution included) answer a request at most once, and not at
    all when they raise an exception. *)
Theorem guards_answer_at_most_once
    (this : AuthProvider.t) (rt : Runtime.t) (options : GuardOptions.t)
    (req : Request.t) (s : option Session.t) :
  (responses (trace (run (isAuthenticated this req) s).2)
   <= allowance (run (isAuthenticated this req) s).1)%nat /\
  (responses (trace (run (isAuthorized this req) s).2)
   <= allowance (run (isAuthorized this req) s).1)%nat /\
  (responses (trace (run (hasAccess this rt options req) s).2)
   <= allowance (run (hasAccess this rt options req) s).1)%nat.
Proof.
  split; [| split]; apply responds_run.
  - apply responds_isAuthenticated.
  - apply responds_isAuthorized.
  - apply responds_hasAccess.
Qed.

(** ** What the overage resolution never does *)

Lemma keeps_run (F : Frame) {A} (m : M A) (s : option Session.t) :
  keeps F m -> related F (start s) (run m s).2.
Proof.
  intros Hm. unfold run. destruct (m (start s)) as [c w] eqn:Hrun.
  eapply Hm. exact Hrun.
Qed.

Lemma next_free_handleOverage this rt req rule :
  keeps (countFrame isNext) (handleOverage this rt req rule).
Proof.
  unfold handleOverage.
  keeps_walk
    ltac:(first [ apply count_emit; reflexivity
                | apply count_applyAccessRule; reflexivity ])
    ltac:(apply count_writeSession).
Qed.

(** X4: [handleOverage] never calls [next()]: whatever the directory
    answers and whatever the rule says, the request is not passed on. *)
Theorem handleOverage_never_calls_next
    (this : AuthProvider.t) (rt : Runtime.t) (req : Request.t)
    (rule : AccessRule.t) (s : option Session.t) :
  count isNext (trace (run (handleOverage this rt req rule) s).2) = 0%nat.
Proof.
  apply (keeps_run (countFrame isNext)), next_free_handleOverage.
Qed.

(** ** The nonce and the authentication flag *)

Lemma keeps_applyAccessRule (F : Frame) method rule creds isGroups :
  (forall msg, keeps F (emit (ConsoleLog msg))) ->
  keeps F (applyAccessRule method rule creds isGroups).
Proof.
  intros Hlog. unfold applyAccessRule.
  keeps_walk ltac:(apply Hlog) ltac:(fail).
Qed.

Ltac session_walk :=
  keeps_walk
    ltac:(first [ apply session_emit
                | apply keeps_applyAccessRule; intros; apply session_emit ])
    ltac:(apply session_writeSession; reflexivity).

Section Credentials.

Variable this : AuthProvider.t.
Variable rt : Runtime.t.

Lemma credentials_getAuthCode req params :
  keeps (sessionFrame credentials) (getAuthCode this req params).
Proof. unfold getAuthCode. session_walk. Qed.

Lemma credentials_getToken options req :
  keeps (sessionFrame credentials) (getToken this rt options req).
Proof.
  pose proof (credentials_getAuthCode req).
  unfold getToken, acquireForResource. session_walk.
Qed.

Lemma credentials_handleOverage req rule :
  keeps (sessionFrame credentials) (handleOverage this rt req rule).
Proof. unfold handleOverage. session_walk. Qed.

Lemma credentials_hasAccess options req :
  keeps (sessionFrame credentials) (hasAccess this rt options req).
Proof.
  pose proof (credentials_handleOverage req (GuardOptions.accessRule options)).
  unfold hasAccess. session_walk.
Qed.

Lemma credentials_isAuthorized req :
  keeps (sessionFrame credentials) (isAuthorized this req).
Proof. unfold isAuthorized. session_walk. Qed.

Lemma credentials_isAuthenticated req :
  keeps (sessionFrame credentials) (isAuthenticated this req).
Proof. unfold isAuthenticated. session_walk. Qed.

Lemma nonce_handleRedirect req :
  keeps (sessionFrame Session.nonce) (handleRedirect this rt req).
Proof. unfold handleRedirect. session_walk. Qed.

(** The one place where the flag is raised: after the validator said yes. *)
Lemma authenticates_validated (tokenResponse : AuthenticationResult.t) :
  keeps (authFrame this)
    (bind (validateIdToken this (AuthenticationResult.idToken tokenResponse))
       (fun isIdTokenValid : bool =>
          if isIdTokenValid then
            bind (writeSession
                    (Session.set_account
                       (AuthenticationResult.account tokenResponse)))
              (fun _ =>
                 bind (writeSession (Session.set_isAuthenticated true))
                   (fun _ =>
                      res_redirect (AuthRoutes.postLogin (routesOf this))))
          else
            bind (console_log ErrorMessages.INVALID_TOKEN)
              (fun _ =>
                 res_redirect (AuthRoutes.unauthorized (routesOf this))))).
Proof.
  intros [s tr] c w'. unfold validateIdToken.
  cbv [bind liftC emit writeSession console_log res_redirect session trace].
  destruct (TokenValidator.validateIdToken _ _) as [[|] | e] eqn:Hvalid;
    [destruct s | |]; intros [= <- <-]; cbn [related authFrame];
    (split; [cbn [trace]; eexists; rewrite <- ?app_assoc; reflexivity |]);
    cbn [session trace]; try (by left).
  right. eexists. split; [| exact Hvalid].
  apply elem_of_app. left. apply elem_of_app. right. by left.
Qed.

Lemma authenticates_emit (e : Event) : keeps (authFrame this) (emit e).
Proof.
  apply keeps_emit. intros w. split; [by eexists | by left].
Qed.

Lemma authenticates_writeSession (g : Session.t -> Session.t) :
  (forall s, Session.isAuthenticated (g s) = Session.isAuthenticated s) ->
  keeps (authFrame this) (writeSession g).
Proof.
  intros Hg. apply keeps_writeSession. intros s tr.
  split; [exists []; by rewrite app_nil_r |].
  left. cbn [session fmap option_fmap option_map]. by rewrite Hg.
Qed.

Lemma authenticates_handleRedirect req :
  keeps (authFrame this) (handleRedirect this rt req).
Proof.
  unfold handleRedirect.
  keeps_walk
    ltac:(first [ apply authenticates_emit | apply authenticates_validated ])
    ltac:(apply authenticates_writeSession; reflexivity).
Qed.

End Credentials.

(** ** The other branches of the redirect handler *)

Section RedirectBranches.

Variable this : AuthProvider.t.
Variable rt : Runtime.t.

Lemma handleRedirect_stray req sess :
  strayRedirect this rt req sess ->
  run (handleRedirect this rt req) (Some sess)
  = (Normal tt,
     mkWorld (Some sess)
       [ConsoleLog ErrorMessages.CANNOT_DETERMINE_APP_STAGE;
        ResRedirect (AuthRoutes.error (routesOf this))]).
Proof.
  unfold strayRedirect, decodeState.
  intros (q & state & n & stage & Hq & Hparse & Hn & Heq & Hst & Hsi & Hacq).
  unfold handleRedirect. rewrite Hq. js_compute.
  rewrite Hparse, Hn, Heq, Hst, Hsi, Hacq. reflexivity.
Qed.

Lemma handleRedirect_acquire req sess tokenRequest state :
  acquireRedirect this rt req sess tokenRequest state ->
  run (handleRedirect this rt req) (Some sess)
  = run (completeAcquireToken this req state) (Some sess).
Proof.
  unfold acquireRedirect, decodeState.
  intros (q & n & Hq & Hparse & Hn & Heq & Hst & _).
  unfold handleRedirect. rewrite Hq. js_compute.
  rewrite Hparse, Hn, Heq, Hst. reflexivity.
Qed.

Ltac enter_acquire Htr :=
  unfold completeAcquireToken, attachCode, readTokenRequest, storeAccessToken,
    acquireTokenByCode, redirectToPath;
  repeat progress
    (js_compute; rewrite ?Htr;
     cbn [Session.tokenRequest Session.set_tokenRequest
          Session.remoteResources]).

Lemma completeAcquireToken_exchange_fails req sess tokenRequest state e :
  Session.tokenRequest sess = Some tokenRequest ->
  exchange this req tokenRequest = Throw e ->
  run (completeAcquireToken this req state) (Some sess)
  = (Normal tt,
     mkWorld (Some (withCode req tokenRequest sess))
       [CalledAcquireTokenByCode
          (AuthorizationCodeRequest.set_code (Request.query_code req)
             tokenRequest);
        ConsoleLog ErrorMessages.TOKEN_ACQUISITION_FAILED;
        ConsoleLogError e;
        NextError e]).
Proof.
  unfold exchange. intros Htr Hex. enter_acquire Htr.
  rewrite Hex. reflexivity.
Qed.

Lemma completeAcquireToken_stores req sess tokenRequest state tokenResponse
    resource path :
  Session.tokenRequest sess = Some tokenRequest ->
  exchange this req tokenRequest = Normal tokenResponse ->
  storedResource sess (resourceKey this tokenRequest) = Some resource ->
  Js.getProp state "path" = Normal (JString path) ->
  run (completeAcquireToken this req state) (Some sess)
  = (Normal tt,
     mkWorld
       (Some (withCode req tokenRequest
                (withToken (resourceKey this tokenRequest)
                   (AuthenticationResult.accessToken tokenResponse) sess)))
       [CalledAcquireTokenByCode
          (AuthorizationCodeRequest.set_code (Request.query_code req)
             tokenRequest);
        ConsoleLogResponse tokenResponse;
        ResRedirect path]).
Proof.
  unfold exchange, storedResource, withToken, resourceKey.
  intros Htr Hex Hstored Hpath. enter_acquire Htr. rewrite Hex.
  destruct (Session.remoteResources sess) as [remote |] eqn:Hremote;
    [| done].
  rewrite Hstored, Hpath.
  unfold withCode. destruct sess. cbn in *. by subst.
Qed.

Lemma completeAcquireToken_no_entry req sess tokenRequest state tokenResponse :
  Session.tokenRequest sess = Some tokenRequest ->
  exchange this req tokenRequest = Normal tokenResponse ->
  storedResource sess (resourceKey this tokenRequest) = None ->
  Session.remoteResources sess = None \/
  Js.inherited (resourceKey this tokenRequest) = false ->
  run (completeAcquireToken this req state) (Some sess)
  = (Normal tt,
     mkWorld (Some (withCode req tokenRequest sess))
       [CalledAcquireTokenByCode
          (AuthorizationCodeRequest.set_code (Request.query_code req)
             tokenRequest);
        ConsoleLogResponse tokenResponse;
        ConsoleLog ErrorMessages.TOKEN_ACQUISITION_FAILED;
        ConsoleLogError TypeError;
        NextError TypeError]).
Proof.
  unfold exchange, storedResource, resourceKey.
  intros Htr Hex Hstored Hplain. enter_acquire Htr. rewrite Hex.
  destruct (Session.remoteResources sess) as [remote |] eqn:Hremote.
  - destruct Hplain as [[=] | Hplain]. rewrite Hstored, Hplain. reflexivity.
  - reflexivity.
Qed.

(** No entry of its own, under a name that every object inherits: the
    token goes to the inherited object, nothing is raised, and the request
    is redirected as after a stored token. *)
Lemma completeAcquireToken_inherited req sess tokenRequest state tokenResponse
    remote path :
  Session.tokenRequest sess = Some tokenRequest ->
  exchange this req tokenRequest = Normal tokenResponse ->
  Session.remoteResources sess = Some remote ->
  remote !! resourceKey this tokenRequest = None ->
  Js.inherited (resourceKey this tokenRequest) = true ->
  Js.getProp state "path" = Normal (JString path) ->
  run (completeAcquireToken this req state) (Some sess)
  = (Normal tt,
     mkWorld (Some (withCode req tokenRequest sess))
       [CalledAcquireTokenByCode
          (AuthorizationCodeRequest.set_code (Request.query_code req)
             tokenRequest);
        ConsoleLogResponse tokenResponse;
        AssignedInherited (resourceKey this tokenRequest)
          (AuthenticationResult.accessToken tokenResponse);
        ResRedirect path]).
Proof.
  unfold exchange, resourceKey.
  intros Htr Hex Hremote Hstored Hinherited Hpath. enter_acquire Htr.
  rewrite Hex, Hremote. js_compute. rewrite Hstored, Hinherited.
  js_compute. rewrite Hpath. reflexivity.
Qed.

End RedirectBranches.

(** X5: on a route guarded by a groups rule, for a user whose claims have
    no [groups] and a truthy overage indicator, [hasAccess] never calls
    [next()]: the request is redirected or left unanswered, also when the
    directory lists the user in a group of the rule. *)
Theorem hasAccess_overage_never_passes
    (this : AuthProvider.t) (rt : Runtime.t) (options : GuardOptions.t)
    (req : Request.t) (sess : Session.t) (claims : gmap string JsValue)
    (set : list string) :
  guarded this sess claims ->
  AccessRule.groups (GuardOptions.accessRule options) = Some set ->
  Js.strictEq (claim claims "groups") JUndefined = true ->
  Js.truthy (claim claims AccessConstants.CLAIM_NAMES) ||
  Js.truthy (claim claims AccessConstants.CLAIM_SOURCES) = true ->
  count isNext
    (trace (run (hasAccess this rt options req) (Some sess)).2) = 0%nat.
Proof.
  intros Hguarded Hgroups Habsent Hover.
  rewrite (hasAccess_groups_absent this rt options req sess claims set)
    by done.
  rewrite Hover.
  apply (keeps_run (countFrame isNext)), next_free_handleOverage.
Qed.

Lemma hasAccess_overage_never_passes_witness :
  let this := Sample.provider Sample.down (Normal Sample.tokens)
                (Normal true) (Normal true) in
  let rt := Sample.runtime (Normal Sample.lastPage) (Throw (OtherError "unused")) in
  let req := Sample.pageRequest "GET" "/staff" None in
  let result :=
    run (hasAccess this rt (GuardOptions.mk Sample.staffRule) req)
        (Some (Sample.signedIn Sample.overageClaims)) in
  Js.includes (JArray [JString "g-staff"; JString "g-2"]) "g-staff"
  = Normal true /\
  count isNext (trace result.2) = 0%nat.
Proof.
  cbv zeta. split; [reflexivity |].
  apply (hasAccess_overage_never_passes
           (Sample.provider Sample.down (Normal Sample.tokens)
              (Normal true) (Normal true))
           (Sample.runtime (Normal Sample.lastPage) (Throw (OtherError "unused")))
           (GuardOptions.mk Sample.staffRule)
           (Sample.pageRequest "GET" "/staff" None)
           (Sample.signedIn Sample.overageClaims)
           Sample.overageClaims ["g-staff"]).
  - split; [by eexists | eexists; split; reflexivity].
  - reflexivity.
  - reflexivity.
  - reflexivity.
Defined.

(** X6: [getToken], [hasAccess], [isAuthorized] and [isAuthenticated] leave
    the nonce and the authentication flag of the session as they found
    them, on every path. *)
Theorem guards_and_middleware_keep_credentials
    (this : AuthProvider.t) (rt : Runtime.t) (tokenOptions : TokenOptions.t)
    (guardOptions : GuardOptions.t) (req : Request.t) (s : option Session.t) :
  credentials <$> session (run (getToken this rt tokenOptions req) s).2
  = credentials <$> s /\
  credentials <$> session (run (hasAccess this rt guardOptions req) s).2
  = credentials <$> s /\
  credentials <$> session (run (isAuthorized this req) s).2
  = credentials <$> s /\
  credentials <$> session (run (isAuthenticated this req) s).2
  = credentials <$> s.
Proof.
  repeat split; apply (keeps_run (sessionFrame credentials)).
  - apply credentials_getToken.
  - apply credentials_hasAccess.
  - apply credentials_isAuthorized.
  - apply credentials_isAuthenticated.
Qed.

(** X7: [handleRedirect] never assigns the nonce of the session: after the
    handler, on every path, the nonce is the one it found. *)
Theorem handleRedirect_keeps_nonce
    (this : AuthProvider.t) (rt : Runtime.t) (req : Request.t)
    (s : option Session.t) :
  Session.nonce <$> session (run (handleRedirect this rt req) s).2
  = Session.nonce <$> s.
Proof.
  apply (keeps_run (sessionFrame Session.nonce)), nonce_handleRedirect.
Qed.

(** X8: [handleRedirect] changes the authentication flag of the session
    only when [validateIdToken] was called on a token and returned [true]. *)
Theorem handleRedirect_authenticates_only_validated
    (this : AuthProvider.t) (rt : Runtime.t) (req : Request.t)
    (s : option Session.t) :
  Session.isAuthenticated <$> session (run (handleRedirect this rt req) s).2
  = Session.isAuthenticated <$> s \/
  exists idToken,
    CalledValidateIdToken idToken
      ∈ trace (run (handleRedirect this rt req) s).2 /\
    TokenValidator.validateIdToken (AuthProvider.tokenValidator this) idToken
    = Normal true.
Proof.
  destruct (keeps_run (authFrame this) (handleRedirect this rt req) s
              (authenticates_handleRedirect this rt req)) as [_ H].
  exact H.
Qed.

(** X9: the nonce is not used up.  After a redirect request at stage
    [sign_in] was handled, whatever the outcome of the exchange and of the
    validation, the same request passes the nonce check again and finds a
    pending token request (the one with the code attached). *)
Theorem handleRedirect_sign_in_replay
    (this : AuthProvider.t) (rt : Runtime.t) (req : Request.t)
    (sess : Session.t) (tokenRequest : AuthorizationCodeRequest.t) :
  signInRedirect this rt req sess tokenRequest ->
  exists sess',
    session (run (handleRedirect this rt req) (Some sess)).2 = Some sess' /\
    signInRedirect this rt req sess'
      (AuthorizationCodeRequest.set_code (Request.query_code req) tokenRequest).
Proof.
  intros Hsign.
  assert (Hagain : forall sess',
             Session.nonce sess' = Session.nonce sess ->
             Session.tokenRequest sess'
             = Some (AuthorizationCodeRequest.set_code
                       (Request.query_code req) tokenRequest) ->
             signInRedirect this rt req sess'
               (AuthorizationCodeRequest.set_code
                  (Request.query_code req) tokenRequest)).
  { intros sess' Hnonce Htr'.
    destruct Hsign as (q & state & n & stage & Hq & Hp & Hn & Heq & Hst & Hsi & _).
    exists q, state, n, stage. unfold nonceValue in *. rewrite Hnonce.
    by repeat split. }
  assert (Htr : Session.tokenRequest sess = Some tokenRequest)
    by (destruct Hsign as (? & ? & ? & ? & ? & ? & ? & ? & ? & ? & ?); done).
  rewrite (handleRedirect_sign_in _ _ _ _ _ Hsign).
  destruct (exchange this req tokenRequest) as [tokenResponse | e] eqn:Hex.
  - rewrite (completeSignIn_exchange_succeeds _ _ _ _ _ Htr Hex).
    cbv zeta.
    destruct (TokenValidator.validateIdToken _ _) as [[|] | e];
      eexists; (split; [reflexivity | by apply Hagain]).
  - rewrite (completeSignIn_exchange_fails _ _ _ _ _ Htr Hex).
    eexists. split; [reflexivity | by apply Hagain].
Qed.

Lemma handleRedirect_sign_in_replay_witness :
  let this := Sample.provider (Normal Sample.tokens) Sample.down
                (Normal true) (Normal true) in
  let req := Sample.redirectRequest (Some Sample.signInState) in
  exists sess',
    session (run (handleRedirect this Sample.quietRuntime req)
               (Some Sample.pendingSession)).2 = Some sess' /\
    signInRedirect this Sample.quietRuntime req sess'
      (AuthorizationCodeRequest.mk "https://login.microsoftonline.com/tid"
         ["openid"; "profile"; "offline_access"]
         "https://app.example.org/redirect" (Some "code-1")).
Proof.
  cbv zeta.
  apply (handleRedirect_sign_in_replay
           (Sample.provider (Normal Sample.tokens) Sample.down
              (Normal true) (Normal true))
           Sample.quietRuntime
           (Sample.redirectRequest (Some Sample.signInState))
           Sample.pendingSession
           (AuthorizationCodeRequest.mk "https://login.microsoftonline.com/tid"
              ["openid"; "profile"; "offline_access"]
              "https://app.example.org/redirect" (Some EmptyString))).
  apply sample_signInRedirect. reflexivity.
Defined.

(** X10: a redirect request that passes the nonce check with a stage that
    is neither [sign_in] nor [acquire_token] is redirected to the error
    route; the session is left as it was and no collaborator is called. *)
Theorem handleRedirect_unknown_stage
    (this : AuthProvider.t) (rt : Runtime.t) (req : Request.t)
    (sess : Session.t) :
  strayRedirect this rt req sess ->
  run (handleRedirect this rt req) (Some sess)
  = (Normal tt,
     mkWorld (Some sess)
       [ConsoleLog ErrorMessages.CANNOT_DETERMINE_APP_STAGE;
        ResRedirect (AuthRoutes.error (routesOf this))]).
Proof. apply handleRedirect_stray. Qed.

Lemma handleRedirect_unknown_stage_witness :
  let req := Sample.redirectRequest (Some Scenario.strayState) in
  Scenario.JSON_parse (Scenario.base64Decode Scenario.strayState)
  = Normal (Sample.envelope "sign_out" "/signout" "n-1") /\
  run (handleRedirect Scenario.quietProvider Scenario.quietRuntime req)
      (Some Sample.pendingSession)
  = (Normal tt,
     mkWorld (Some Sample.pendingSession)
       [ConsoleLog "Cannot determine application stage";
        ResRedirect "/error"]).
Proof.
  cbv zeta. split; [reflexivity |].
  apply (handleRedirect_unknown_stage Scenario.quietProvider
           Scenario.quietRuntime
           (Sample.redirectRequest (Some Scenario.strayState))
           Sample.pendingSession).
  exists Scenario.strayState, (Sample.envelope "sign_out" "/signout" "n-1"),
    (JString "n-1"), (JString "sign_out").
  repeat split.
Defined.

(** X11: a redirect request at stage [acquire_token] with the nonce of the
    session, when the exchange succeeds and the session has an entry for the
    resource that the scopes of the pending token request resolve to: the
    code is attached, the access token is stored in that entry, nothing else
    of the session changes, and the response redirects to the path recorded
    in the envelope. *)
Theorem handleRedirect_acquire_token_stores
    (this : AuthProvider.t) (rt : Runtime.t) (req : Request.t)
    (sess : Session.t) (tokenRequest : AuthorizationCodeRequest.t)
    (state : JsValue) (tokenResponse : AuthenticationResult.t)
    (resource : Resource.t) (path : string) :
  acquireRedirect this rt req sess tokenRequest state ->
  exchange this req tokenRequest = Normal tokenResponse ->
  storedResource sess (resourceKey this tokenRequest) = Some resource ->
  Js.getProp state "path" = Normal (JString path) ->
  run (handleRedirect this rt req) (Some sess)
  = (Normal tt,
     mkWorld
       (Some (withCode req tokenRequest
                (withToken (resourceKey this tokenRequest)
                   (AuthenticationResult.accessToken tokenResponse) sess)))
       [CalledAcquireTokenByCode
          (AuthorizationCodeRequest.set_code (Request.query_code req)
             tokenRequest);
        ConsoleLogResponse tokenResponse;
        ResRedirect path]).
Proof.
  intros Hacq Hex Hstored Hpath.
  assert (Htr : Session.tokenRequest sess = Some tokenRequest)
    by (destruct Hacq as (? & ? & ? & ? & ? & ? & ? & ?); done).
  rewrite (handleRedirect_acquire _ _ _ _ _ _ Hacq).
  by eapply completeAcquireToken_stores.
Qed.

Lemma sample_acquireRedirect (this : AuthProvider.t) (sess : Session.t)
    (tokenRequest : AuthorizationCodeRequest.t) :
  AuthProvider.cryptoProvider this = Sample.crypto ->
  Session.nonce sess = Some "n-1" ->
  Session.tokenRequest sess = Some tokenRequest ->
  acquireRedirect this Sample.quietRuntime
    (Sample.redirectRequest (Some Sample.acquireState)) sess tokenRequest
    (Sample.envelope "acquire_token" "/mail" "n-1").
Proof.
  intros Hc Hn Htr. exists Sample.acquireState, (JString "n-1").
  unfold decodeState, nonceValue. rewrite Hc, Hn. repeat split. exact Htr.
Defined.

Lemma handleRedirect_acquire_token_stores_witness :
  let this := Sample.provider (Normal Sample.tokens) Sample.down
                (Normal true) (Normal true) in
  let req := Sample.redirectRequest (Some Sample.acquireState) in
  let result :=
    run (handleRedirect this Sample.quietRuntime req)
        (Some Scenario.mailSession) in
  resourceKey this
    (AuthorizationCodeRequest.mk "https://login.microsoftonline.com/tid"
       ["Mail.Read"] "https://app.example.org/redirect" (Some EmptyString))
  = "mailAPI" /\
  (Session.remoteResources <$> session result.2)
  = Some (Some {[ "mailAPI" :=
                    Resource.mk (Some ["Mail.Read"]) (Some "access-1") ]}) /\
  trace result.2
  = [CalledAcquireTokenByCode
       (AuthorizationCodeRequest.mk "https://login.microsoftonline.com/tid"
          ["Mail.Read"] "https://app.example.org/redirect" (Some "code-1"));
     ConsoleLogResponse Sample.tokens;
     ResRedirect "/mail"].
Proof.
  cbv zeta. split; [reflexivity |].
  rewrite (handleRedirect_acquire_token_stores
             (Sample.provider (Normal Sample.tokens) Sample.down
                (Normal true) (Normal true))
             Sample.quietRuntime
             (Sample.redirectRequest (Some Sample.acquireState))
             Scenario.mailSession
             (AuthorizationCodeRequest.mk
                "https://login.microsoftonline.com/tid" ["Mail.Read"]
                "https://app.example.org/redirect" (Some EmptyString))
             (Sample.envelope "acquire_token" "/mail" "n-1")
             Sample.tokens (Resource.mk (Some ["Mail.Read"]) None) "/mail").
  - split; vm_compute; reflexivity.
  - by apply sample_acquireRedirect.
  - reflexivity.
  - reflexivity.
  - reflexivity.
Defined.

(** X12: at stage [acquire_token], when the exchange fails the error goes
    to [next(error)].  When it succeeds and the session has no entry of its
    own for the resource, the outcome depends on what the read of the entry
    gives.  With no [remoteResources] at all, or under a name that objects
    do not inherit, the assignment of the token raises a TypeError that goes
    to [next(error)] the same way, and nothing is redirected.  Under a name
    that every object inherits from [Object.prototype] ([constructor],
    [toString], [__proto__], ...) nothing is raised: the token is assigned
    to the inherited object and the request is redirected to the path of
    the envelope.  In all three cases the token does not reach the session:
    only the code of the token request changes in it. *)
Theorem handleRedirect_acquire_token_failures
    (this : AuthProvider.t) (rt : Runtime.t) (req : Request.t)
    (sess : Session.t) (tokenRequest : AuthorizationCodeRequest.t)
    (state : JsValue) :
  acquireRedirect this rt req sess tokenRequest state ->
  (forall e,
      exchange this req tokenRequest = Throw e ->
      run (handleRedirect this rt req) (Some sess)
      = (Normal tt,
         mkWorld (Some (withCode req tokenRequest sess))
           [CalledAcquireTokenByCode
              (AuthorizationCodeRequest.set_code (Request.query_code req)
                 tokenRequest);
            ConsoleLog ErrorMessages.TOKEN_ACQUISITION_FAILED;
            ConsoleLogError e;
            NextError e])) /\
  (forall tokenResponse,
      exchange this req tokenRequest = Normal tokenResponse ->
      storedResource sess (resourceKey this tokenRequest) = None ->
      Session.remoteResources sess = None \/
      Js.inherited (resourceKey this tokenRequest) = false ->
      run (handleRedirect this rt req) (Some sess)
      = (Normal tt,
         mkWorld (Some (withCode req tokenRequest sess))
           [CalledAcquireTokenByCode
              (AuthorizationCodeRequest.set_code (Request.query_code req)
                 tokenRequest);
            ConsoleLogResponse tokenResponse;
            ConsoleLog ErrorMessages.TOKEN_ACQUISITION_FAILED;
            ConsoleLogError TypeError;
            NextError TypeError])) /\
  (forall tokenResponse remote path,
      exchange this req tokenRequest = Normal tokenResponse ->
      Session.remoteResources sess = Some remote ->
      remote !! resourceKey this tokenRequest = None ->
      Js.inherited (resourceKey this tokenRequest) = true ->
      Js.getProp state "path" = Normal (JString path) ->
      run (handleRedirect this rt req) (Some sess)
      = (Normal tt,
         mkWorld (Some (withCode req tokenRequest sess))
           [CalledAcquireTokenByCode
              (AuthorizationCodeRequest.set_code (Request.query_code req)
                 tokenRequest);
            ConsoleLogResponse tokenResponse;
            AssignedInherited (resourceKey this tokenRequest)
              (AuthenticationResult.accessToken tokenResponse);
            ResRedirect path])).
Proof.
  intros Hacq.
  assert (Htr : Session.tokenRequest sess = Some tokenRequest)
    by (destruct Hacq as (? & ? & ? & ? & ? & ? & ? & ?); done).
  rewrite (handleRedirect_acquire _ _ _ _ _ _ Hacq). split; [| split].
  - intros e Hex. by apply completeAcquireToken_exchange_fails.
  - intros tokenResponse Hex Hstored Hplain.
    by apply completeAcquireToken_no_entry.
  - intros tokenResponse remote path Hex Hremote Hstored Hinherited Hpath.
    by apply (completeAcquireToken_inherited this req sess tokenRequest state
                tokenResponse remote path).
Qed.

Lemma handleRedirect_acquire_token_failures_witness :
  let req := Sample.redirectRequest (Some Sample.acquireState) in
  let failing := Sample.provider (Throw (OtherError "invalid_grant"))
                   Sample.down (Normal true) (Normal true) in
  let working := Sample.provider (Normal Sample.tokens) Sample.down
                   (Normal true) (Normal true) in
  let odd :=
    AuthProvider.mk
      (AppSettings.mk Sample.routes [("constructor", Sample.mailAPI)] [] None)
      "https://login.microsoftonline.com/tid" Sample.crypto
      (Sample.validator (Normal true) (Normal true))
      (Sample.client (Normal Sample.tokens) Sample.down) in
  trace (run (handleRedirect failing Sample.quietRuntime req)
           (Some Scenario.mailSession)).2
  = [CalledAcquireTokenByCode
       (AuthorizationCodeRequest.mk "https://login.microsoftonline.com/tid"
          ["Mail.Read"] "https://app.example.org/redirect" (Some "code-1"));
     ConsoleLog "Token acquisition failed";
     ConsoleLogError (OtherError "invalid_grant");
     NextError (OtherError "invalid_grant")] /\
  trace (run (handleRedirect working Sample.quietRuntime req)
           (Some Sample.pendingSession)).2
  = [CalledAcquireTokenByCode
       (AuthorizationCodeRequest.mk "https://login.microsoftonline.com/tid"
          ["openid"; "profile"; "offline_access"]
          "https://app.example.org/redirect" (Some "code-1"));
     ConsoleLogResponse Sample.tokens;
     ConsoleLog "Token acquisition failed";
     ConsoleLogError TypeError;
     NextError TypeError] /\
  run (handleRedirect odd Sample.quietRuntime req) (Some Scenario.mailSession)
  = (Normal tt,
     mkWorld
       (Some (withCode req
                (AuthorizationCodeRequest.mk
                   "https://login.microsoftonline.com/tid" ["Mail.Read"]
                   "https://app.example.org/redirect" (Some EmptyString))
                Scenario.mailSession))
       [CalledAcquireTokenByCode
          (AuthorizationCodeRequest.mk "https://login.microsoftonline.com/tid"
             ["Mail.Read"] "https://app.example.org/redirect" (Some "code-1"));
        ConsoleLogResponse Sample.tokens;
        AssignedInherited "constructor" "access-1";
        ResRedirect "/mail"]).
Proof.
  cbv zeta. split; [| split].
  - rewrite (proj1 (handleRedirect_acquire_token_failures
                      (Sample.provider (Throw (OtherError "invalid_grant"))
                         Sample.down (Normal true) (Normal true))
                      Sample.quietRuntime
                      (Sample.redirectRequest (Some Sample.acquireState))
                      Scenario.mailSession _ _
                      (sample_acquireRedirect
                         (Sample.provider (Throw (OtherError "invalid_grant"))
                            Sample.down (Normal true) (Normal true))
                         Scenario.mailSession _ eq_refl eq_refl eq_refl))
               (OtherError "invalid_grant") eq_refl).
    reflexivity.
  - rewrite (proj1 (proj2 (handleRedirect_acquire_token_failures
                      (Sample.provider (Normal Sample.tokens) Sample.down
                         (Normal true) (Normal true))
                      Sample.quietRuntime
                      (Sample.redirectRequest (Some Sample.acquireState))
                      Sample.pendingSession _ _
                      (sample_acquireRedirect
                         (Sample.provider (Normal Sample.tokens) Sample.down
                            (Normal true) (Normal true))
                         Sample.pendingSession _ eq_refl eq_refl eq_refl)))
               Sample.tokens eq_refl eq_refl (or_introl eq_refl)).
    reflexivity.
  - apply (proj2 (proj2 (handleRedirect_acquire_token_failures
                      (AuthProvider.mk
                         (AppSettings.mk Sample.routes
                            [("constructor", Sample.mailAPI)] [] None)
                         "https://login.microsoftonline.com/tid" Sample.crypto
                         (Sample.validator (Normal true) (Normal true))
                         (Sample.client (Normal Sample.tokens) Sample.down))
                      Sample.quietRuntime
                      (Sample.redirectRequest (Some Sample.acquireState))
                      Scenario.mailSession _ _
                      (sample_acquireRedirect
                         (AuthProvider.mk
                            (AppSettings.mk Sample.routes
                               [("constructor", Sample.mailAPI)] [] None)
                            "https://login.microsoftonline.com/tid"
                            Sample.crypto
                            (Sample.validator (Normal true) (Normal true))
                            (Sample.client (Normal Sample.tokens) Sample.down))
                         Scenario.mailSession _ eq_refl eq_refl eq_refl)))
               Sample.tokens
               {[ "mailAPI" := Resource.mk (Some ["Mail.Read"]) None ]}
               "/mail" eq_refl eq_refl eq_refl eq_refl eq_refl).
Defined.

(** X13: the nonce check compares two values that may both be [undefined].
    For a session that has no nonce and no pending token request (nobody
    signed in), a state envelope without a nonce at stage [sign_in] or
    [acquire_token] is not refused as a mismatch: the handler goes on to
    the token request, raises a TypeError and answers nothing. *)
Theorem handleRedirect_undefined_nonce
    (this : AuthProvider.t) (rt : Runtime.t) (req : Request.t)
    (sess : Session.t) (queryState : string) (state : JsValue)
    (stage : string) :
  Request.query_state req = Some queryState ->
  queryState <> EmptyString ->
  decodeState this rt queryState = Normal state ->
  Js.getProp state "nonce" = Normal JUndefined ->
  Js.getProp state "stage" = Normal (JString stage) ->
  stage = AppStages.SIGN_IN \/ stage = AppStages.ACQUIRE_TOKEN ->
  Session.nonce sess = None ->
  Session.tokenRequest sess = None ->
  run (handleRedirect this rt req) (Some sess)
  = (Throw TypeError, mkWorld (Some sess) []).
Proof.
  unfold decodeState. intros Hq Hne Hparse Hnonce Hstage Hkind Hn Htr.
  unfold handleRedirect. rewrite (presentState_Some _ _ Hq Hne).
  unfold completeSignIn, completeAcquireToken, attachCode, readTokenRequest,
    nonceValue.
  destruct Hkind as [-> | ->];
    repeat progress
      (js_compute; rewrite ?Hparse, ?Hnonce, ?Hn, ?Hstage, ?Htr;
       change (Js.strictEq JUndefined JUndefined) with true;
       change (Js.strictEq (JString AppStages.SIGN_IN)
                 (JString AppStages.SIGN_IN)) with true;
       change (Js.strictEq (JString AppStages.ACQUIRE_TOKEN)
                 (JString AppStages.SIGN_IN)) with false;
       change (Js.strictEq (JString AppStages.ACQUIRE_TOKEN)
                 (JString AppStages.ACQUIRE_TOKEN)) with true;
       cbv iota);
    reflexivity.
Qed.

Lemma handleRedirect_undefined_nonce_witness :
  let req := Sample.redirectRequest (Some Scenario.bareState) in
  Scenario.JSON_parse (Scenario.base64Decode Scenario.bareState)
  = Normal (JObject [("stage", JString "sign_in"); ("path", JString "/signin")])
  /\
  run (handleRedirect Scenario.quietProvider Scenario.quietRuntime req)
      (Some Scenario.freshSession)
  = (Throw TypeError, mkWorld (Some Scenario.freshSession) []).
Proof.
  cbv zeta. split; [reflexivity |].
  apply (handleRedirect_undefined_nonce Scenario.quietProvider
           Scenario.quietRuntime
           (Sample.redirectRequest (Some Scenario.bareState))
           Scenario.freshSession Scenario.bareState
           (JObject [("stage", JString "sign_in");
                     ("path", JString "/signin")])
           "sign_in").
  - reflexivity.
  - discriminate.
  - reflexivity.
  - reflexivity.
  - reflexivity.
  - left. reflexivity.
  - reflexivity.
  - reflexivity.
Defined.

(** ** The token middleware *)

(** As [js_compute], with the traces left as concatenations. *)
Ltac js_unfold :=
  cbv [run start bind ret throw try_catch liftC emit reqSession readSession
       writeSession deref detached console_log console_log_error res_redirect
       next next_error session trace].

Section GetToken.

Variable this : AuthProvider.t.
Variable rt : Runtime.t.
Variable options : TokenOptions.t.
Variable req : Request.t.
Variable sess : Session.t.

Lemma getToken_run :
  run (getToken this rt options req) (Some sess)
  = acquireForResource this rt req (TokenOptions.resource_scopes options)
      (getResourceNameFromScopes this (TokenOptions.resource_scopes options))
      (mkWorld (Some (resetSession this options sess)) []).
Proof.
  unfold getToken, run, bind. cbv zeta.
  fold (run (resetRemoteResources this
               (getResourceNameFromScopes this
                  (TokenOptions.resource_scopes options))) (Some sess)).
  by rewrite resetRemoteResources_run.
Qed.

Ltac enter_getToken :=
  rewrite getToken_run;
  unfold acquireForResource, acquireTokenSilent, storeAccessToken,
    resetSession, tokenKey, silentRequestOf in *;
  js_unfold;
  cbn [Session.account Session.remoteResources Session.set_remoteResources
       Session.nonce app].

Lemma getToken_silent tokenResponse :
  MsalClient.acquireTokenSilent (AuthProvider.msalClient this)
    (silentRequestOf options sess) = Normal tokenResponse ->
  AuthenticationResult.accessToken tokenResponse <> EmptyString ->
  run (getToken this rt options req) (Some sess)
  = (Normal tt,
     mkWorld
       (Some (withToken (tokenKey this options)
                (AuthenticationResult.accessToken tokenResponse)
                (resetSession this options sess)))
       [CalledAcquireTokenSilent (silentRequestOf options sess);
        ConsoleLogResponse tokenResponse;
        NextCalled]).
Proof.
  intros Hsilent Htoken. unfold withToken. enter_getToken.
  rewrite Hsilent. unfold Js.isEmpty.
  apply String.eqb_neq in Htoken as ->.
  cbn [Session.remoteResources Session.set_remoteResources].
  rewrite lookup_singleton_eq. reflexivity.
Qed.

Lemma getToken_other_error e :
  MsalClient.acquireTokenSilent (AuthProvider.msalClient this)
    (silentRequestOf options sess) = Throw e ->
  otherError e ->
  run (getToken this rt options req) (Some sess)
  = (Normal tt,
     mkWorld (Some (resetSession this options sess))
       [CalledAcquireTokenSilent (silentRequestOf options sess);
        NextError e]).
Proof.
  intros Hsilent Hother. enter_getToken. rewrite Hsilent.
  by destruct e.
Qed.

Lemma getToken_interaction_required msg :
  MsalClient.acquireTokenSilent (AuthProvider.msalClient this)
    (silentRequestOf options sess)
  = Throw (InteractionRequiredAuthError msg) ->
  run (getToken this rt options req) (Some sess)
  = interactive this rt options req sess
      [CalledAcquireTokenSilent (silentRequestOf options sess)].
Proof.
  intros Hsilent. unfold interactive, interactiveParams, routesOf.
  enter_getToken. rewrite Hsilent. reflexivity.
Qed.

Lemma getToken_empty_token tokenResponse :
  MsalClient.acquireTokenSilent (AuthProvider.msalClient this)
    (silentRequestOf options sess) = Normal tokenResponse ->
  AuthenticationResult.accessToken tokenResponse = EmptyString ->
  run (getToken this rt options req) (Some sess)
  = interactive this rt options req sess
      [CalledAcquireTokenSilent (silentRequestOf options sess);
       ConsoleLogResponse tokenResponse;
       ConsoleLog ErrorMessages.TOKEN_NOT_FOUND].
Proof.
  intros Hsilent Htoken. unfold interactive, interactiveParams, routesOf.
  enter_getToken. rewrite Hsilent, Htoken. reflexivity.
Qed.

(** The interactive acquisition in a session that has the two requests:
    they are assigned, and the response redirects to the URL of the MSAL
    client; when that URL cannot be had, the error is logged and nothing is
    answered. *)
Lemma interactive_ready tr found tokenRequest :
  Session.authCodeRequest sess = Some found ->
  Session.tokenRequest sess = Some tokenRequest ->
  interactive this rt options req sess tr
  = let params := interactiveParams this rt options req sess in
    let after := withAuthCode params tokenRequest
                   (resetSession this options sess) in
    match MsalClient.getAuthCodeUrl (AuthProvider.msalClient this)
            (urlRequestOf params) with
    | Normal url =>
        (Normal tt,
         mkWorld (Some after)
           (tr ++ [CalledGetAuthCodeUrl (urlRequestOf params);
                   ResRedirect url]))
    | Throw e =>
        (Normal tt,
         mkWorld (Some after)
           (tr ++ [CalledGetAuthCodeUrl (urlRequestOf params);
                   ConsoleLog ErrorMessages.AUTH_CODE_NOT_OBTAINED;
                   ConsoleLogError e]))
    end.
Proof.
  intros Hurl Htr. unfold interactive, getAuthCode, getAuthCodeUrl,
    withAuthCode, resetSession, urlRequestOf, codeRequestOf.
  cbv zeta.
  repeat progress
    (js_unfold;
     cbn [Session.authCodeRequest Session.tokenRequest
          Session.set_remoteResources Session.set_authCodeRequest
          Session.set_tokenRequest];
     rewrite ?Hurl, ?Htr).
  destruct (MsalClient.getAuthCodeUrl _ _);
    rewrite <- ?app_assoc; reflexivity.
Qed.

(** The same in a session in which [signIn] never ran: the assignment to
    the missing request raises a TypeError inside the call that nobody
    awaits, and the request is left unanswered. *)
Lemma interactive_unready tr :
  Session.authCodeRequest sess = None ->
  interactive this rt options req sess tr
  = (Normal tt,
     mkWorld (Some (resetSession this options sess))
       (tr ++ [UnhandledRejection TypeError])).
Proof.
  intros Hurl. unfold interactive, getAuthCode, resetSession.
  js_unfold.
  cbn [Session.authCodeRequest Session.set_remoteResources].
  rewrite Hurl. reflexivity.
Qed.

End GetToken.

Lemma withToken_reset this options sess token :
  withToken (tokenKey this options) token (resetSession this options sess)
  = Session.set_remoteResources
      {[ tokenKey this options :=
           Resource.mk
             (Resource.scopes
                (freshResource this
                   (getResourceNameFromScopes this
                      (TokenOptions.resource_scopes options))))
             (Some token) ]}
      sess.
Proof.
  unfold withToken, resetSession.
  cbn [Session.remoteResources Session.set_remoteResources].
  rewrite lookup_singleton_eq, insert_singleton_eq.
  reflexivity.
Qed.

(** X14: when the silent acquisition returns an access token that is not
    empty, [getToken] leaves in the session a [remoteResources] with the one
    entry of the resource, holding that token, and calls [next()]; nothing
    else is called or sent. *)
Theorem getToken_silent_success
    (this : AuthProvider.t) (rt : Runtime.t) (options : TokenOptions.t)
    (req : Request.t) (sess : Session.t)
    (tokenResponse : AuthenticationResult.t) :
  MsalClient.acquireTokenSilent (AuthProvider.msalClient this)
    (silentRequestOf options sess) = Normal tokenResponse ->
  AuthenticationResult.accessToken tokenResponse <> EmptyString ->
  run (getToken this rt options req) (Some sess)
  = (Normal tt,
     mkWorld
       (Some (Session.set_remoteResources
                {[ tokenKey this options :=
                     Resource.mk
                       (Resource.scopes
                          (freshResource this
                             (getResourceNameFromScopes this
                                (TokenOptions.resource_scopes options))))
                       (Some (AuthenticationResult.accessToken tokenResponse)) ]}
                sess))
       [CalledAcquireTokenSilent (silentRequestOf options sess);
        ConsoleLogResponse tokenResponse;
        NextCalled]).
Proof.
  intros Hsilent Htoken.
  rewrite (getToken_silent this rt options req sess tokenResponse) by done.
  by rewrite withToken_reset.
Qed.

Lemma getToken_silent_success_witness :
  let this := Sample.provider Sample.down (Normal Sample.tokens)
                (Normal true) (Normal true) in
  let result :=
    run (getToken this Sample.quietRuntime (TokenOptions.mk ["Mail.Read"])
           (Sample.pageRequest "GET" "/mail" None))
        (Some Sample.withGraphToken) in
  (Session.remoteResources <$> session result.2)
  = Some (Some {[ "mailAPI" :=
                    Resource.mk (Some ["Mail.Read"]) (Some "access-1") ]}) /\
  trace result.2
  = [CalledAcquireTokenSilent
       (SilentFlowRequest.mk (Some (Sample.account ∅)) ["Mail.Read"]);
     ConsoleLogResponse Sample.tokens;
     NextCalled].
Proof.
  cbv zeta.
  rewrite (getToken_silent_success
             (Sample.provider Sample.down (Normal Sample.tokens)
                (Normal true) (Normal true))
             Sample.quietRuntime (TokenOptions.mk ["Mail.Read"])
             (Sample.pageRequest "GET" "/mail" None)
             Sample.withGraphToken Sample.tokens).
  - split; vm_compute; reflexivity.
  - reflexivity.
  - discriminate.
Defined.

(** X15: an empty access token is handled as an interaction-required
    error.  In a session that has its two requests, either way [getToken]
    assigns them from the parameters of the interactive acquisition (the
    scopes of the resource, the account, and as state the encoded envelope
    with stage [acquire_token], the route of the request and the nonce of
    the session), asks the MSAL client for the authorization URL and
    redirects to it. *)
Theorem getToken_starts_interactive
    (this : AuthProvider.t) (rt : Runtime.t) (options : TokenOptions.t)
    (req : Request.t) (sess : Session.t)
    (found : AuthorizationUrlRequest.t)
    (tokenRequest : AuthorizationCodeRequest.t) (url : string) :
  Session.authCodeRequest sess = Some found ->
  Session.tokenRequest sess = Some tokenRequest ->
  MsalClient.getAuthCodeUrl (AuthProvider.msalClient this)
    (urlRequestOf (interactiveParams this rt options req sess))
  = Normal url ->
  let after :=
    withAuthCode (interactiveParams this rt options req sess) tokenRequest
      (resetSession this options sess) in
  let redirected :=
    [CalledGetAuthCodeUrl
       (urlRequestOf (interactiveParams this rt options req sess));
     ResRedirect url] in
  (forall msg,
      MsalClient.acquireTokenSilent (AuthProvider.msalClient this)
        (silentRequestOf options sess)
      = Throw (InteractionRequiredAuthError msg) ->
      run (getToken this rt options req) (Some sess)
      = (Normal tt,
         mkWorld (Some after)
           (CalledAcquireTokenSilent (silentRequestOf options sess)
            :: redirected))) /\
  (forall tokenResponse,
      MsalClient.acquireTokenSilent (AuthProvider.msalClient this)
        (silentRequestOf options sess) = Normal tokenResponse ->
      AuthenticationResult.accessToken tokenResponse = EmptyString ->
      run (getToken this rt options req) (Some sess)
      = (Normal tt,
         mkWorld (Some after)
           (CalledAcquireTokenSilent (silentRequestOf options sess)
            :: ConsoleLogResponse tokenResponse
            :: ConsoleLog ErrorMessages.TOKEN_NOT_FOUND
            :: redirected))).
Proof.
  intros Hfound Htr Hurl. cbv zeta. split.
  - intros msg Hsilent.
    rewrite (getToken_interaction_required this rt options req sess msg)
      by done.
    rewrite (interactive_ready this rt options req sess _ found tokenRequest)
      by done.
    cbv zeta. by rewrite Hurl.
  - intros tokenResponse Hsilent Htoken.
    rewrite (getToken_empty_token this rt options req sess tokenResponse)
      by done.
    rewrite (interactive_ready this rt options req sess _ found tokenRequest)
      by done.
    cbv zeta. by rewrite Hurl.
Qed.

Lemma getToken_starts_interactive_witness :
  let options := TokenOptions.mk ["Mail.Read"] in
  let req := Sample.pageRequest "GET" "/mail" None in
  let required :=
    Sample.provider Sample.down
      (Throw (InteractionRequiredAuthError "interaction_required"))
      (Normal true) (Normal true) in
  let empty :=
    Sample.provider Sample.down
      (Normal (AuthenticationResult.mk EmptyString "id-1" None))
      (Normal true) (Normal true) in
  AuthCodeParams.state
    (interactiveParams required Sample.quietRuntime options req
       (Sample.signedIn ∅))
  = Sample.acquireState /\
  session (run (getToken required Sample.quietRuntime options req)
             (Some (Sample.signedIn ∅))).2
  = session (run (getToken empty Sample.quietRuntime options req)
               (Some (Sample.signedIn ∅))).2 /\
  trace (run (getToken required Sample.quietRuntime options req)
           (Some (Sample.signedIn ∅))).2
  = [CalledAcquireTokenSilent
       (SilentFlowRequest.mk (Some (Sample.account ∅)) ["Mail.Read"]);
     CalledGetAuthCodeUrl
       (AuthorizationUrlRequest.mk "https://login.microsoftonline.com/tid"
          ["Mail.Read"] Sample.acquireState
          "https://app.example.org/redirect" None (Some (Sample.account ∅)));
     ResRedirect "https://login.microsoftonline.com/tid/authorize"].
Proof.
  cbv zeta. split; [reflexivity |].
  rewrite (proj1 (getToken_starts_interactive
                    (Sample.provider Sample.down
                       (Throw (InteractionRequiredAuthError
                                 "interaction_required"))
                       (Normal true) (Normal true))
                    Sample.quietRuntime (TokenOptions.mk ["Mail.Read"])
                    (Sample.pageRequest "GET" "/mail" None)
                    (Sample.signedIn ∅) _ _ _ eq_refl eq_refl eq_refl)
             "interaction_required" eq_refl).
  rewrite (proj2 (getToken_starts_interactive
                    (Sample.provider Sample.down
                       (Normal (AuthenticationResult.mk EmptyString "id-1"
                                  None))
                       (Normal true) (Normal true))
                    Sample.quietRuntime (TokenOptions.mk ["Mail.Read"])
                    (Sample.pageRequest "GET" "/mail" None)
                    (Sample.signedIn ∅) _ _ _ eq_refl eq_refl eq_refl)
             (AuthenticationResult.mk EmptyString "id-1" None)
             eq_refl eq_refl).
  split; vm_compute; reflexivity.
Defined.

(** X16: when the silent acquisition fails with an error that is not an
    [InteractionRequiredAuthError], [getToken] passes it to [next(error)]:
    no authorization URL is asked for and nothing is redirected; the
    [remoteResources] of the session stay replaced, the token [null]. *)
Theorem getToken_other_failure
    (this : AuthProvider.t) (rt : Runtime.t) (options : TokenOptions.t)
    (req : Request.t) (sess : Session.t) (e : JsError) :
  MsalClient.acquireTokenSilent (AuthProvider.msalClient this)
    (silentRequestOf options sess) = Throw e ->
  otherError e ->
  run (getToken this rt options req) (Some sess)
  = (Normal tt,
     mkWorld (Some (resetSession this options sess))
       [CalledAcquireTokenSilent (silentRequestOf options sess);
        NextError e]).
Proof. apply getToken_other_error. Qed.

Lemma getToken_other_failure_witness :
  let this := Sample.quietProvider in
  let result :=
    run (getToken this Sample.quietRuntime (TokenOptions.mk ["Mail.Read"])
           (Sample.pageRequest "GET" "/mail" None))
        (Some Sample.withGraphToken) in
  (Session.remoteResources <$> session result.2)
  = Some (Some {[ "mailAPI" := Resource.mk (Some ["Mail.Read"]) None ]}) /\
  trace result.2
  = [CalledAcquireTokenSilent
       (SilentFlowRequest.mk (Some (Sample.account ∅)) ["Mail.Read"]);
     NextError (OtherError "network")].
Proof.
  cbv zeta.
  rewrite (getToken_other_failure Sample.quietProvider Sample.quietRuntime
             (TokenOptions.mk ["Mail.Read"])
             (Sample.pageRequest "GET" "/mail" None)
             Sample.withGraphToken (OtherError "network")).
  - split; vm_compute; reflexivity.
  - reflexivity.
  - exact I.
Defined.

(** X17: in a session in which [signIn] never ran (no authorization
    request), an interaction-required error leaves the request unanswered:
    [getAuthCode], which nobody awaits, raises a TypeError on its first
    assignment, and [getToken] sends neither a redirect nor [next]. *)
Theorem getToken_before_sign_in_unanswered
    (this : AuthProvider.t) (rt : Runtime.t) (options : TokenOptions.t)
    (req : Request.t) (sess : Session.t) (msg : string) :
  Session.authCodeRequest sess = None ->
  MsalClient.acquireTokenSilent (AuthProvider.msalClient this)
    (silentRequestOf options sess)
  = Throw (InteractionRequiredAuthError msg) ->
  run (getToken this rt options req) (Some sess)
  = (Normal tt,
     mkWorld (Some (resetSession this options sess))
       [CalledAcquireTokenSilent (silentRequestOf options sess);
        UnhandledRejection TypeError]).
Proof.
  intros Hnone Hsilent.
  rewrite (getToken_interaction_required this rt options req sess msg)
    by done.
  by rewrite interactive_unready.
Qed.

Lemma getToken_before_sign_in_unanswered_witness :
  let this :=
    Sample.provider Sample.down
      (Throw (InteractionRequiredAuthError "interaction_required"))
      (Normal true) (Normal true) in
  let result :=
    run (getToken this Sample.quietRuntime (TokenOptions.mk ["Mail.Read"])
           (Sample.pageRequest "GET" "/mail" None))
        (Some Scenario.freshSession) in
  trace result.2
  = [CalledAcquireTokenSilent (SilentFlowRequest.mk None ["Mail.Read"]);
     UnhandledRejection TypeError] /\
  responses (trace result.2) = 0%nat.
Proof.
  cbv zeta.
  rewrite (getToken_before_sign_in_unanswered
             (Sample.provider Sample.down
                (Throw (InteractionRequiredAuthError "interaction_required"))
                (Normal true) (Normal true))
             Sample.quietRuntime (TokenOptions.mk ["Mail.Read"])
             (Sample.pageRequest "GET" "/mail" None)
             Scenario.freshSession "interaction_required").
  - split; reflexivity.
  - reflexivity.
  - reflexivity.
Defined.

(** ** From the middleware to the redirect handler and back *)

Lemma strictEq_nonceValue (sess : Session.t) :
  Js.strictEq (nonceValue sess) (nonceValue sess) = true.
Proof.
  unfold nonceValue. destruct (Session.nonce sess); [| done].
  apply String.eqb_refl.
Qed.

Lemma envelope_nonce stage path (sess : Session.t) :
  Js.getProp (envelopeValue stage path (Session.nonce sess)) "nonce"
  = Normal (nonceValue sess).
Proof. unfold nonceValue. by destruct (Session.nonce sess). Qed.

(** X18: the interactive acquisition comes back to the resource and to the
    route it left.  After [getToken] met an interaction-required error, a
    redirect request that carries the state it sent passes the nonce check
    at stage [acquire_token]; when the exchange succeeds, the access token
    is stored under the key of the same resource and the response redirects
    to the route of the first request. *)
Theorem getToken_then_handleRedirect
    (this : AuthProvider.t) (rt : Runtime.t) (options : TokenOptions.t)
    (req back : Request.t) (sess : Session.t)
    (found : AuthorizationUrlRequest.t)
    (tokenRequest : AuthorizationCodeRequest.t) (msg : string)
    (tokenResponse : AuthenticationResult.t) :
  Session.authCodeRequest sess = Some found ->
  Session.tokenRequest sess = Some tokenRequest ->
  MsalClient.acquireTokenSilent (AuthProvider.msalClient this)
    (silentRequestOf options sess)
  = Throw (InteractionRequiredAuthError msg) ->
  carries this rt AppStages.ACQUIRE_TOKEN (Request.route_path req)
    (Session.nonce sess) ->
  Request.query_state back
  = Some (AuthCodeParams.state (interactiveParams this rt options req sess)) ->
  exchange this back
    (codeRequestOf (interactiveParams this rt options req sess) tokenRequest)
  = Normal tokenResponse ->
  exists waiting final,
    session (run (getToken this rt options req) (Some sess)).2 = Some waiting /\
    run (handleRedirect this rt back) (Some waiting)
    = (Normal tt,
       mkWorld (Some final)
         [CalledAcquireTokenByCode
            (AuthorizationCodeRequest.set_code (Request.query_code back)
               (codeRequestOf (interactiveParams this rt options req sess)
                  tokenRequest));
          ConsoleLogResponse tokenResponse;
          ResRedirect (Request.route_path req)]) /\
    storedResource final (tokenKey this options)
    = Some (Resource.mk
              (Resource.scopes
                 (freshResource this
                    (getResourceNameFromScopes this
                       (TokenOptions.resource_scopes options))))
              (Some (AuthenticationResult.accessToken tokenResponse))).
Proof.
  intros Hfound Htr Hsilent (Hne & Hcodec & Hparse) Hback Hex.
  set (params := interactiveParams this rt options req sess) in *.
  set (waiting := withAuthCode params tokenRequest
                    (resetSession this options sess)).
  assert (Hwaiting :
    session (run (getToken this rt options req) (Some sess)).2 = Some waiting).
  { rewrite (getToken_interaction_required this rt options req sess msg)
      by done.
    rewrite (interactive_ready this rt options req sess _ found tokenRequest)
      by done.
    cbv zeta. by destruct (MsalClient.getAuthCodeUrl _ _). }
  assert (Hacq : acquireRedirect this rt back waiting
                   (codeRequestOf params tokenRequest)
                   (envelopeValue AppStages.ACQUIRE_TOKEN
                      (Request.route_path req) (Session.nonce sess))).
  { exists (AuthCodeParams.state params), (nonceValue sess).
    split; [by apply presentState_Some |].
    split; [unfold decodeState; cbn [AuthCodeParams.state params
                                      interactiveParams];
            by rewrite Hcodec |].
    split; [apply envelope_nonce |].
    split; [apply (strictEq_nonceValue sess) |].
    split; reflexivity. }
  assert (Hstored :
    storedResource waiting
      (resourceKey this (codeRequestOf params tokenRequest))
    = Some (freshResource this
              (getResourceNameFromScopes this
                 (TokenOptions.resource_scopes options)))).
  { unfold storedResource, waiting, withAuthCode, resetSession.
    cbn [Session.remoteResources Session.set_tokenRequest
         Session.set_authCodeRequest Session.set_remoteResources].
    apply lookup_singleton_eq. }
  exists waiting. eexists. split; [exact Hwaiting |]. split.
  - rewrite (handleRedirect_acquire _ _ _ _ _ _ Hacq).
    eapply completeAcquireToken_stores; [reflexivity | exact Hex
                                         | exact Hstored | reflexivity].
  - unfold storedResource, withCode, withToken, waiting, withAuthCode,
      resetSession, resourceKey, tokenKey.
    cbn [Session.remoteResources Session.set_tokenRequest
         Session.set_authCodeRequest Session.set_remoteResources
         codeRequestOf AuthorizationCodeRequest.scopes params
         interactiveParams AuthCodeParams.scopes].
    rewrite lookup_singleton_eq.
    cbn [Session.remoteResources Session.set_remoteResources].
    by rewrite lookup_insert_eq.
Qed.

Lemma getToken_then_handleRedirect_witness :
  let this :=
    Sample.provider (Normal Sample.tokens)
      (Throw (InteractionRequiredAuthError "interaction_required"))
      (Normal true) (Normal true) in
  let options := TokenOptions.mk ["Mail.Read"] in
  let req := Sample.pageRequest "GET" "/mail" None in
  let back := Sample.redirectRequest (Some Sample.acquireState) in
  carries this Sample.quietRuntime "acquire_token" "/mail" (Some "n-1") /\
  exists waiting final,
    session (run (getToken this Sample.quietRuntime options req)
               (Some (Sample.signedIn ∅))).2 = Some waiting /\
    run (handleRedirect this Sample.quietRuntime back) (Some waiting)
    = (Normal tt,
       mkWorld (Some final)
         [CalledAcquireTokenByCode
            (AuthorizationCodeRequest.mk
               "https://login.microsoftonline.com/tid" ["Mail.Read"]
               "https://app.example.org/redirect" (Some "code-1"));
          ConsoleLogResponse Sample.tokens;
          ResRedirect "/mail"]) /\
    storedResource final "mailAPI"
    = Some (Resource.mk (Some ["Mail.Read"]) (Some "access-1")).
Proof.
  cbv zeta.
  assert (Hcarries :
    carries
      (Sample.provider (Normal Sample.tokens)
         (Throw (InteractionRequiredAuthError "interaction_required"))
         (Normal true) (Normal true))
      Sample.quietRuntime "acquire_token" "/mail" (Some "n-1")).
  { split; [discriminate | split; reflexivity]. }
  split; [exact Hcarries |].
  apply (getToken_then_handleRedirect
           (Sample.provider (Normal Sample.tokens)
              (Throw (InteractionRequiredAuthError "interaction_required"))
              (Normal true) (Normal true))
           Sample.quietRuntime (TokenOptions.mk ["Mail.Read"])
           (Sample.pageRequest "GET" "/mail" None)
           (Sample.redirectRequest (Some Sample.acquireState))
           (Sample.signedIn ∅) _ _ "interaction_required" Sample.tokens
           eq_refl eq_refl eq_refl Hcarries eq_refl eq_refl).
Defined.

(** ** Sign-in and sign-out *)

Section SignIn.

Variable this : AuthProvider.t.
Variable rt : Runtime.t.

Lemma signIn_run guid req sess :
  run (signIn this rt guid req) (Some sess)
  = let request := urlRequestOf (signInParams this rt guid req) in
    let after := afterSignIn this rt guid req sess in
    match MsalClient.getAuthCodeUrl (AuthProvider.msalClient this) request with
    | Normal url =>
        (Normal tt,
         mkWorld (Some after) [CalledGetAuthCodeUrl request; ResRedirect url])
    | Throw e =>
        (Normal tt,
         mkWorld (Some after)
           [CalledGetAuthCodeUrl request;
            ConsoleLog ErrorMessages.AUTH_CODE_NOT_OBTAINED;
            ConsoleLogError e])
    end.
Proof.
  unfold signIn, getAuthCode, getAuthCodeUrl, afterSignIn, signInParams,
    urlRequestOf, codeRequestOf, signInEnvelope, routesOf.
  destruct sess as [flag account nonce urlRequest codeRequest remote].
  cbv zeta.
  destruct urlRequest, codeRequest, account;
    repeat progress
      (js_compute;
       cbn [Session.isAuthenticated Session.account Session.nonce
            Session.authCodeRequest Session.tokenRequest
            Session.remoteResources Session.set_authCodeRequest
            Session.set_tokenRequest Session.set_account setNonce default]);
    destruct (MsalClient.getAuthCodeUrl _ _); reflexivity.
Qed.

Lemma signOut_run req sess :
  run (signOut this rt req) (Some sess)
  = (Normal tt, mkWorld None [ResRedirect (logoutURI this rt req)]).
Proof. reflexivity. Qed.

Lemma isAuthenticated_run req s :
  run (isAuthenticated this req) s
  = (Normal tt,
     mkWorld s
       match s with
       | Some sess =>
           if Session.isAuthenticated sess then [NextCalled]
           else [ConsoleLog ErrorMessages.NOT_PERMITTED;
                 ResRedirect (AuthRoutes.unauthorized (routesOf this))]
       | None =>
           [ConsoleLog ErrorMessages.SESSION_NOT_FOUND;
            ResRedirect (AuthRoutes.unauthorized (routesOf this))]
       end).
Proof.
  unfold isAuthenticated. destruct s as [sess |]; [| reflexivity].
  js_compute. by destruct (Session.isAuthenticated sess).
Qed.

End SignIn.

(** X19: [signIn] creates the authorization request, the token request and
    the account that the session lacks, sets the nonce to the new GUID,
    assigns the two requests from its parameters (the default scopes, the
    prompt, and as state the encoded envelope with stage [sign_in], the
    route and that nonce) and redirects to the URL of the MSAL client; the
    flag, an account and the [remoteResources] that were there are kept.
    When the URL cannot be had, the error is logged and nothing is answered. *)
Theorem signIn_prepares_session
    (this : AuthProvider.t) (rt : Runtime.t) (guid : string)
    (req : Request.t) (sess : Session.t) :
  run (signIn this rt guid req) (Some sess)
  = let request := urlRequestOf (signInParams this rt guid req) in
    let after := afterSignIn this rt guid req sess in
    match MsalClient.getAuthCodeUrl (AuthProvider.msalClient this) request with
    | Normal url =>
        (Normal tt,
         mkWorld (Some after) [CalledGetAuthCodeUrl request; ResRedirect url])
    | Throw e =>
        (Normal tt,
         mkWorld (Some after)
           [CalledGetAuthCodeUrl request;
            ConsoleLog ErrorMessages.AUTH_CODE_NOT_OBTAINED;
            ConsoleLogError e])
    end.
Proof. apply signIn_run. Qed.

(** X20: the sign-in comes back.  After [signIn] with a new GUID, a redirect
    request that carries the state it sent passes the nonce check at stage
    [sign_in]; when the exchange succeeds and the ID token validates, the
    session is authenticated with the returned account and the response
    redirects to the post-login route. *)
Theorem signIn_then_handleRedirect
    (this : AuthProvider.t) (rt : Runtime.t) (guid : string)
    (req back : Request.t) (sess : Session.t)
    (tokenResponse : AuthenticationResult.t) :
  carries this rt AppStages.SIGN_IN (Request.route_path req) (Some guid) ->
  Request.query_state back = Some (signInEnvelope this req (Some guid)) ->
  exchange this back
    (codeRequestOf (signInParams this rt guid req)
       (default emptyTokenRequest (Session.tokenRequest sess)))
  = Normal tokenResponse ->
  TokenValidator.validateIdToken (AuthProvider.tokenValidator this)
    (AuthenticationResult.idToken tokenResponse) = Normal true ->
  exists waiting final,
    session (run (signIn this rt guid req) (Some sess)).2 = Some waiting /\
    run (handleRedirect this rt back) (Some waiting)
    = (Normal tt,
       mkWorld (Some final)
         [CalledAcquireTokenByCode
            (AuthorizationCodeRequest.set_code (Request.query_code back)
               (codeRequestOf (signInParams this rt guid req)
                  (default emptyTokenRequest (Session.tokenRequest sess))));
          ConsoleLogResponse tokenResponse;
          CalledValidateIdToken (AuthenticationResult.idToken tokenResponse);
          ResRedirect (AuthRoutes.postLogin (routesOf this))]) /\
    Session.isAuthenticated final = true /\
    Session.account final = AuthenticationResult.account tokenResponse /\
    Session.nonce final = Some guid.
Proof.
  intros (Hne & Hcodec & Hparse) Hback Hex Hvalid.
  set (waiting := afterSignIn this rt guid req sess).
  set (pending := codeRequestOf (signInParams this rt guid req)
                    (default emptyTokenRequest (Session.tokenRequest sess)))
    in *.
  assert (Hsign : signInRedirect this rt back waiting pending).
  { exists (signInEnvelope this req (Some guid)),
      (envelopeValue AppStages.SIGN_IN (Request.route_path req) (Some guid)),
      (JString guid), (JString AppStages.SIGN_IN).
    split; [by apply presentState_Some |].
    split; [unfold decodeState, signInEnvelope in *; by rewrite Hcodec |].
    split; [reflexivity |].
    split; [apply String.eqb_refl |].
    repeat split. }
  exists waiting. eexists. split.
  - rewrite signIn_run. cbv zeta.
    destruct (MsalClient.getAuthCodeUrl _ _); reflexivity.
  - split; [| split; [| split]].
    + rewrite (handleRedirect_sign_in _ _ _ _ _ Hsign).
      rewrite (completeSignIn_exchange_succeeds this back waiting pending
                 tokenResponse eq_refl Hex).
      cbv zeta. rewrite Hvalid. reflexivity.
    + reflexivity.
    + reflexivity.
    + reflexivity.
Qed.

Lemma signIn_then_handleRedirect_witness :
  let this := Sample.provider (Normal Sample.tokens) Sample.down
                (Normal true) (Normal true) in
  let req := Sample.pageRequest "GET" "/signin" None in
  let back := Sample.redirectRequest (Some Sample.signInState) in
  signInEnvelope this req (Some "n-1") = Sample.signInState /\
  exists waiting final,
    session (run (signIn this Sample.quietRuntime "n-1" req)
               (Some Scenario.freshSession)).2 = Some waiting /\
    run (handleRedirect this Sample.quietRuntime back) (Some waiting)
    = (Normal tt,
       mkWorld (Some final)
         [CalledAcquireTokenByCode
            (AuthorizationCodeRequest.mk
               "https://login.microsoftonline.com/tid"
               ["openid"; "profile"; "offline_access"]
               "https://app.example.org/redirect" (Some "code-1"));
          ConsoleLogResponse Sample.tokens;
          CalledValidateIdToken "id-1";
          ResRedirect "/home"]) /\
    Session.isAuthenticated final = true /\
    Session.account final = AuthenticationResult.account Sample.tokens /\
    Session.nonce final = Some "n-1".
Proof.
  cbv zeta. split; [reflexivity |].
  apply (signIn_then_handleRedirect
           (Sample.provider (Normal Sample.tokens) Sample.down
              (Normal true) (Normal true))
           Sample.quietRuntime "n-1"
           (Sample.pageRequest "GET" "/signin" None)
           (Sample.redirectRequest (Some Sample.signInState))
           Scenario.freshSession Sample.tokens).
  - split; [discriminate | split; reflexivity].
  - reflexivity.
  - reflexivity.
  - reflexivity.
Defined.

(** ** When the guards pass *)

Lemma count_zero_not_elem (p : Event -> bool) (tr : list Event) (e : Event) :
  count p tr = 0%nat -> p e = true -> e ∉ tr.
Proof.
  unfold count. intros Hc He Hin.
  assert (Hf : In e (List.filter p tr)).
  { apply filter_In. split; [by apply list_elem_of_In | done]. }
  destruct (List.filter p tr); [done | discriminate].
Qed.

(** What [applyAccessRule] does to the world: the session stays, and
    [next()] is not called. *)
Lemma applyAccessRule_world method rule creds isGroups w c w' :
  applyAccessRule method rule creds isGroups w = (c, w') ->
  session w' = session w /\
  count isNext (trace w') = count isNext (trace w).
Proof.
  intros Hrun. split.
  - pose proof (keeps_applyAccessRule (sessionFrame id) method rule creds
                  isGroups (fun msg => session_emit id (ConsoleLog msg))
                  w c w' Hrun) as Hs.
    cbn [related sessionFrame] in Hs. by rewrite !option_fmap_id in Hs.
  - by apply (count_applyAccessRule isNext (fun _ => eq_refl) method rule
                creds isGroups w c w').
Qed.

Section GuardsPass.

Variable this : AuthProvider.t.
Variable rt : Runtime.t.

Lemma isAuthorized_validator_fails req s authorization e :
  Request.headers_authorization req = Some authorization ->
  authorization <> EmptyString ->
  TokenValidator.validateAccessToken (AuthProvider.tokenValidator this)
    (bearerToken authorization) (Request.route_path req) = Throw e ->
  run (isAuthorized this req) s
  = (Throw e,
     mkWorld s [CalledValidateAccessToken (bearerToken authorization)
                  (Request.route_path req)]).
Proof.
  unfold bearerToken. intros Hh Hne Hvalid.
  unfold isAuthorized, validateAccessToken. rewrite Hh.
  js_compute. cbn [Js.truthy]. apply String.eqb_neq in Hne as ->.
  cbn [negb]. by rewrite Hvalid.
Qed.

(** Without a session or without an access matrix the request is sent to
    the unauthorized route. *)
Lemma hasAccess_unguarded options req s :
  s = None \/ AppSettings.accessMatrix (AuthProvider.appSettings this) = None ->
  run (hasAccess this rt options req) s
  = (Normal tt,
     mkWorld s [ResRedirect (AuthRoutes.unauthorized (routesOf this))]).
Proof.
  unfold hasAccess, run, start, reqSession. unfold bind at 1.
  cbv beta iota zeta delta [session].
  intros [-> | Hm].
  - reflexivity.
  - rewrite Hm. by rewrite andb_comm.
Qed.

(** A session without an account, or an account without ID token claims:
    reading the claims is a TypeError, whichever list the rule has. *)
Lemma hasAccess_no_claims options req sess :
  is_Some (AppSettings.accessMatrix (AuthProvider.appSettings this)) ->
  (Session.account sess ≫= Account.idTokenClaims) = None ->
  run (hasAccess this rt options req) (Some sess)
  = (Throw TypeError, mkWorld (Some sess) []).
Proof.
  intros [m Hm] Hnone.
  unfold hasAccess, run, start, reqSession. unfold bind at 1.
  cbv beta iota zeta delta [session].
  rewrite Hm, !bool_decide_is_Some. cbn [andb].
  unfold readClaims.
  destruct (AccessRule.groups (GuardOptions.accessRule options));
    [change (String.eqb AccessConstants.GROUPS AccessConstants.GROUPS)
       with true
    |change (String.eqb AccessConstants.ROLES AccessConstants.GROUPS)
       with false;
     change (String.eqb AccessConstants.ROLES AccessConstants.ROLES)
       with true];
    cbv iota; js_compute;
    (destruct (Session.account sess) as [account |]; [| reflexivity]);
    cbn [mbind option_bind] in Hnone; by rewrite Hnone.
Qed.

(** The groups branch with a [groups] claim: the rule is applied to the
    claim, and the request is passed on when it holds, redirected when it
    does not. *)
Lemma hasAccess_groups_present options req sess claims set c w :
  guarded this sess claims ->
  AccessRule.groups (GuardOptions.accessRule options) = Some set ->
  Js.strictEq (claim claims "groups") JUndefined = false ->
  applyAccessRule (Request.method req) (GuardOptions.accessRule options)
    (claim claims "groups") true (mkWorld (Some sess) []) = (c, w) ->
  run (hasAccess this rt options req) (Some sess)
  = match c with
    | Normal ok =>
        (Normal tt,
         mkWorld (session w)
           (trace w ++ [if ok then NextCalled
                        else ResRedirect
                               (AuthRoutes.unauthorized (routesOf this))]))
    | Throw e => (Throw e, w)
    end.
Proof.
  intros [[m Hm] (account & Hacc & Hcl)] Hgroups Hpresent Happly.
  unfold hasAccess. rewrite Hgroups.
  unfold run, start, reqSession. unfold bind at 1.
  cbv beta iota zeta delta [session].
  rewrite Hm, !bool_decide_is_Some. cbn [andb].
  change (String.eqb AccessConstants.GROUPS AccessConstants.GROUPS) with true.
  cbv iota. unfold readClaims. js_compute. rewrite Hacc, Hcl.
  change AccessConstants.GROUPS with "groups".
  rewrite Hpresent, Happly. destruct c as [[|] | e]; reflexivity.
Qed.

(** On a route guarded by a groups rule, [next()] is called exactly when
    the claims of the session have a [groups] claim to which the rule
    applies. *)
Lemma hasAccess_groups_next_iff options req s set :
  AccessRule.groups (GuardOptions.accessRule options) = Some set ->
  NextCalled ∈ trace (run (hasAccess this rt options req) s).2
  <-> exists sess claims,
        s = Some sess /\
        guarded this sess claims /\
        Js.strictEq (claim claims "groups") JUndefined = false /\
        (applyAccessRule (Request.method req)
           (GuardOptions.accessRule options) (claim claims "groups") true
           (start s)).1 = Normal true.
Proof.
  intros Hgroups.
  destruct s as [sess |];
    [| rewrite hasAccess_unguarded by (by left); cbn [snd trace];
       split; [by intros [= ] %list_elem_of_singleton
              | by intros (? & ? & [=] & _)]].
  destruct (AppSettings.accessMatrix (AuthProvider.appSettings this))
    as [m |] eqn:Hm;
    [| rewrite hasAccess_unguarded by (by right); cbn [snd trace];
       split; [by intros [= ] %list_elem_of_singleton
              | intros (? & ? & _ & [[? Hm'] _] & _); congruence]].
  destruct (Session.account sess ≫= Account.idTokenClaims)
    as [claims |] eqn:Hclaims.
  - assert (Hguarded : guarded this sess claims).
    { split; [by rewrite Hm; eexists |].
      destruct (Session.account sess) as [account |]; [| done].
      by exists account. }
    assert (Hsame : forall sess' claims',
               Some sess = Some sess' -> guarded this sess' claims' ->
               claims' = claims).
    { intros sess' claims' [= <-] [_ (account & Hacc & Hcl)].
      rewrite Hacc in Hclaims. cbn [mbind option_bind] in Hclaims.
      congruence. }
    destruct (Js.strictEq (claim claims "groups") JUndefined) eqn:Habsent.
    + split.
      * intros Hin. exfalso. revert Hin.
        apply (count_zero_not_elem isNext); [| reflexivity].
        rewrite (hasAccess_groups_absent this rt options req sess claims set)
          by done.
        destruct (Js.truthy (claim claims AccessConstants.CLAIM_NAMES) ||
                  Js.truthy (claim claims AccessConstants.CLAIM_SOURCES)).
        -- apply (keeps_run (countFrame isNext)), next_free_handleOverage.
        -- reflexivity.
      * intros (sess' & claims' & Hs & Hg & Hpresent & _).
        rewrite (Hsame _ _ Hs Hg) in Hpresent. congruence.
    + destruct (applyAccessRule (Request.method req)
                  (GuardOptions.accessRule options) (claim claims "groups")
                  true (mkWorld (Some sess) [])) as [c w] eqn:Happly.
      pose proof (applyAccessRule_world _ _ _ _ _ _ _ Happly) as [_ Hnext].
      assert (Hquiet : NextCalled ∉ trace w)
        by (by apply (count_zero_not_elem isNext)).
      rewrite (hasAccess_groups_present options req sess claims set c w)
        by done.
      split.
      * intros Hin. exists sess, claims. unfold start. rewrite Happly.
        split; [done |]. split; [done |]. split; [done |].
        destruct c as [[|] | e]; cbn [snd trace fst] in *;
          [done | | done].
        apply elem_of_app in Hin as [Hin | Hin]; [done |].
        by apply list_elem_of_singleton in Hin.
      * intros (sess' & claims' & Hs & Hg & _ & Hok).
        rewrite (Hsame _ _ Hs Hg) in Hok. unfold start in Hok.
        rewrite Happly in Hok. cbn [fst] in Hok. subst c.
        cbn [snd trace]. apply elem_of_app. right.
        by apply list_elem_of_singleton.
  - rewrite hasAccess_no_claims by (by rewrite ?Hm; eauto).
    cbn [snd trace]. split; [by intros ?%elem_of_nil |].
    intros (sess' & claims' & [= <-] & [_ (account & Hacc & Hcl)] & _).
    rewrite Hacc in Hclaims. cbn [mbind option_bind] in Hclaims.
    congruence.
Qed.

End GuardsPass.

(** X21: [isAuthenticated] calls [next()] exactly when the request has a
    session whose authentication flag is set; in every other case the
    response is the redirect to the unauthorized route. *)
Theorem isAuthenticated_passes_iff
    (this : AuthProvider.t) (req : Request.t) (s : option Session.t) :
  let tr := trace (run (isAuthenticated this req) s).2 in
  (NextCalled ∈ tr
   <-> exists sess, s = Some sess /\ Session.isAuthenticated sess = true) /\
  (NextCalled ∉ tr ->
   ResRedirect (AuthRoutes.unauthorized (routesOf this)) ∈ tr).
Proof.
  cbv zeta. rewrite isAuthenticated_run. cbn [snd trace].
  destruct s as [sess |]; [destruct (Session.isAuthenticated sess) eqn:Hflag |].
  - split; [| intros Hn; exfalso; apply Hn; by left].
    split; [by exists sess | intros _; by left].
  - split; [| intros _; right; by left].
    split.
    + intros Hin. apply elem_of_cons in Hin as [[=] | Hin].
      by apply list_elem_of_singleton in Hin.
    + intros (sess' & [= <-] & Hset). congruence.
  - split; [| intros _; right; by left].
    split.
    + intros Hin. apply elem_of_cons in Hin as [[=] | Hin].
      by apply list_elem_of_singleton in Hin.
    + by intros (sess' & [=] & _).
Qed.

(** X22: [isAuthorized] calls [next()] exactly when the request has a
    non-empty authorization header and the validator accepts, for the route
    of the request, the second of the parts that the spaces of the header
    separate ([undefined] when the header has no space); a missing or empty
    header, a refused token and an exception of the validator never pass
    the request on. *)
Theorem isAuthorized_passes_iff
    (this : AuthProvider.t) (req : Request.t) (s : option Session.t) :
  NextCalled ∈ trace (run (isAuthorized this req) s).2
  <-> exists authorization,
        Request.headers_authorization req = Some authorization /\
        authorization <> EmptyString /\
        TokenValidator.validateAccessToken (AuthProvider.tokenValidator this)
          (bearerToken authorization) (Request.route_path req)
        = Normal true.
Proof.
  destruct (Request.headers_authorization req) as [authorization |] eqn:Hh.
  - destruct (decide (authorization = EmptyString)) as [-> | Hne].
    + rewrite (isAuthorized_empty_header this req s Hh). cbn [snd trace].
      split.
      * intros Hin. apply elem_of_cons in Hin as [[=] | Hin].
        by apply list_elem_of_singleton in Hin.
      * by intros (a & [= <-] & Hne & _).
    + destruct (TokenValidator.validateAccessToken
                  (AuthProvider.tokenValidator this)
                  (bearerToken authorization) (Request.route_path req))
        as [valid | e] eqn:Hvalid.
      * rewrite (isAuthorized_header this req s authorization valid Hh Hne
                   Hvalid).
        cbn [snd trace]. split.
        -- intros Hin. exists authorization. split; [done |].
           split; [done |]. destruct valid; [done |].
           apply elem_of_cons in Hin as [[=] | Hin].
           apply elem_of_cons in Hin as [[=] | Hin].
           by apply list_elem_of_singleton in Hin.
        -- intros (a & [= <-] & _ & Hok). rewrite Hvalid in Hok.
           injection Hok as ->. right. by left.
      * rewrite (isAuthorized_validator_fails this req s authorization e Hh
                   Hne Hvalid).
        cbn [snd trace]. split.
        -- by intros [=]%list_elem_of_singleton.
        -- intros (a & [= <-] & _ & Hok). congruence.
  - rewrite (isAuthorized_no_header this req s Hh). cbn [snd trace].
    split; [by intros ?%elem_of_nil | by intros (a & [=] & _)].
Qed.

(** X23: on a route guarded by a rule with a [groups] list, [hasAccess]
    calls [next()] exactly when the request has a session, the application
    an access matrix, the ID token claims of the session a [groups] claim,
    and [applyAccessRule] returns [true] for that claim; whatever else
    happens (no claims, an overage, an exception of the evaluator), the
    request is not passed on. *)
Theorem hasAccess_groups_passes_iff
    (this : AuthProvider.t) (rt : Runtime.t) (options : GuardOptions.t)
    (req : Request.t) (s : option Session.t) (set : list string) :
  AccessRule.groups (GuardOptions.accessRule options) = Some set ->
  NextCalled ∈ trace (run (hasAccess this rt options req) s).2
  <-> exists sess claims,
        s = Some sess /\
        guarded this sess claims /\
        Js.strictEq (claim claims "groups") JUndefined = false /\
        (applyAccessRule (Request.method req)
           (GuardOptions.accessRule options) (claim claims "groups") true
           (start s)).1 = Normal true.
Proof. apply hasAccess_groups_next_iff. Qed.

Lemma hasAccess_groups_passes_iff_witness :
  let req := Sample.pageRequest "GET" "/staff" None in
  let options := GuardOptions.mk Sample.staffRule in
  let member := Sample.signedIn {[ "groups" := JArray [JString "g-staff"] ]} in
  NextCalled ∈
    trace (run (hasAccess Sample.quietProvider Sample.quietRuntime options req)
             (Some member)).2.
Proof.
  cbv zeta.
  apply (hasAccess_groups_passes_iff Sample.quietProvider Sample.quietRuntime
           (GuardOptions.mk Sample.staffRule)
           (Sample.pageRequest "GET" "/staff" None)
           (Some (Sample.signedIn {[ "groups" := JArray [JString "g-staff"] ]}))
           ["g-staff"] eq_refl).
  exists (Sample.signedIn {[ "groups" := JArray [JString "g-staff"] ]}),
    {[ "groups" := JArray [JString "g-staff"] ]}.
  split; [reflexivity |]. split.
  - split; [by eexists | eexists; split; reflexivity].
  - split; reflexivity.
Defined.

(** ** The on-behalf-of middleware *)

Lemma getTokenOnBehalf_run (this : AuthProvider.t)
    (obo : OnBehalfOfRequest.t -> Completion AuthenticationResult.t)
    (options : TokenOptions.t) (req : Request.t) (s : option Session.t) :
  run (getTokenOnBehalf this obo options req) s
  = let scopes := TokenOptions.resource_scopes options in
    match Request.headers_authorization req with
    | None => (Throw TypeError, mkWorld s [])
    | Some authorization =>
        match obo (OnBehalfOfRequest.mk (bearerToken authorization) scopes) with
        | Normal tokenResponse =>
            (Normal
               (Some {[ propKey (getResourceNameFromScopes this scopes) :=
                          AuthenticationResult.accessToken tokenResponse ]}),
             mkWorld s [NextCalled])
        | Throw e => (Normal None, mkWorld s [ConsoleLogError e; NextError e])
        end
    end.
Proof.
  unfold getTokenOnBehalf, bearerToken. cbv zeta.
  destruct (Request.headers_authorization req) as [authorization |];
    [| reflexivity].
  js_compute.
  by destruct (obo _).
Qed.

(** X24: [getTokenOnBehalf] takes the assertion from the authorization
    header before anything else: without the header it raises a TypeError
    and neither [next] nor the MSAL client is reached.  With the header,
    the request is passed on exactly once: by [next()] after the token is
    left in [req.locals] under the resolved resource name (the key
    [undefined] when the scopes resolve to no resource), or by
    [next(error)] after the error of the MSAL client is logged.  The
    session is not touched. *)
Theorem getTokenOnBehalf_outcomes (this : AuthProvider.t)
    (obo : OnBehalfOfRequest.t -> Completion AuthenticationResult.t)
    (options : TokenOptions.t) (req : Request.t) (s : option Session.t) :
  let scopes := TokenOptions.resource_scopes options in
  run (getTokenOnBehalf this obo options req) s
  = match Request.headers_authorization req with
    | None => (Throw TypeError, mkWorld s [])
    | Some authorization =>
        match obo (OnBehalfOfRequest.mk (bearerToken authorization) scopes) with
        | Normal tokenResponse =>
            (Normal
               (Some {[ match getResourceNameFromScopes this scopes with
                        | Some name => name
                        | None => "undefined"
                        end :=
                          AuthenticationResult.accessToken tokenResponse ]}),
             mkWorld s [NextCalled])
        | Throw e => (Normal None, mkWorld s [ConsoleLogError e; NextError e])
        end
    end.
Proof. apply getTokenOnBehalf_run. Qed.

(** ** The first resource with the scopes *)

Lemma find_first {A} (p : A -> bool) (l : list A) (x : A) :
  List.find p l = Some x ->
  exists i : nat,
    l !! i = Some x /\ p x = true /\
    forall (j : nat) y, (j < i)%nat -> l !! j = Some y -> p y = false.
Proof.
  induction l as [|a l IH]; [done |]. cbn [List.find].
  destruct (p a) eqn:Hpa.
  - intros [= ->]. exists 0%nat. split; [done |]. split; [done |]. lia.
  - intros Hf. destruct (IH Hf) as (i & Hi & Hpx & Hbefore).
    exists (S i). split; [done |]. split; [done |].
    intros [|j] y Hj Hy.
    + by injection Hy as <-.
    + apply (Hbefore j); [lia | done].
Qed.

(** *** The key order of the merged table *)

Section KeyOrder.

Context {A : Type}.
Implicit Types (t a b : JsObj A) (k : string) (v : A).

(** [k] is enumerated no later than [k']. *)
Let before (k k' : string) : Prop := Js.precedes k' k = false.

Lemma precedes_asym k k' : Js.precedes k k' = true -> Js.precedes k' k = false.
Proof.
  unfold Js.precedes.
  destruct (Js.arrayIndex k) as [i |], (Js.arrayIndex k') as [j |];
    try done.
  rewrite Z.ltb_lt, Z.ltb_ge. lia.
Qed.

Lemma precedes_later k k' x :
  Js.precedes k k' = true -> Js.precedes x k' = false ->
  Js.precedes x k = false.
Proof.
  unfold Js.precedes.
  destruct (Js.arrayIndex k) as [i |], (Js.arrayIndex k') as [j |],
    (Js.arrayIndex x) as [m |]; try done.
  rewrite Z.ltb_lt, !Z.ltb_ge. lia.
Qed.

Lemma Forall_define (P : string -> Prop) t k v :
  P k -> Forall P (t.*1) -> Forall P ((define t k v).*1).
Proof.
  intros Hk. induction t as [|[k0 v0] t IH]; cbn [define fmap list_fmap fst].
  - intros _. by apply Forall_cons.
  - intros [H0 Ht]%Forall_cons.
    destruct (Js.precedes k k0); cbn [fmap list_fmap fst].
    + apply Forall_cons. split; [done |]. by apply Forall_cons.
    + apply Forall_cons. split; [done | by apply IH].
Qed.

Lemma sorted_define t k v :
  StronglySorted before (t.*1) -> StronglySorted before ((define t k v).*1).
Proof.
  induction t as [|[k0 v0] t IH]; cbn [define fmap list_fmap fst].
  - intros _. apply SSorted_cons; [apply SSorted_nil | apply Forall_nil_2].
  - intros Hs. pose proof (StronglySorted_inv Hs) as [Ht H0].
    destruct (Js.precedes k k0) eqn:Hp; cbn [fmap list_fmap fst].
    + apply SSorted_cons; [done |]. apply Forall_cons. split.
      * by apply precedes_asym.
      * eapply Forall_impl; [exact H0 |]. intros x Hx.
        by apply (precedes_later k k0 x).
    + apply SSorted_cons; [by apply IH |]. by apply Forall_define.
Qed.

Lemma sorted_assign t k v :
  StronglySorted before (t.*1) -> StronglySorted before ((assign t k v).*1).
Proof.
  destruct (assign_cases t k v) as [[_ ->] | [_ ->]].
  - by rewrite keys_replace.
  - apply sorted_define.
Qed.

Lemma sorted_assignAll a b :
  StronglySorted before (a.*1) -> StronglySorted before ((assignAll a b).*1).
Proof.
  unfold assignAll. revert a.
  induction b as [|[k v] b IH]; intros a Ha; [done |].
  cbn [fold_left fst snd]. by apply IH, sorted_assign.
Qed.

Lemma sorted_lookup (l : list string) :
  StronglySorted before l ->
  forall (i j : nat) k k',
    (i < j)%nat -> l !! i = Some k -> l !! j = Some k' -> before k k'.
Proof.
  induction 1 as [| k0 l Hs IH H0]; intros i j k k' Hij Hi Hj; [done |].
  destruct j as [|j]; [lia |]. cbn in Hj.
  destruct i as [|i].
  - injection Hi as <-. rewrite Forall_forall in H0. apply H0.
    by apply list_elem_of_lookup_2 in Hj.
  - cbn in Hi. apply (IH i j); [lia | done | done].
Qed.

(** The object that a spread builds is in key order, whatever the order of
    the two lists it is built from. *)
Lemma spread_key_order a b (i j : nat) k k' :
  (i < j)%nat ->
  (spread a b).*1 !! i = Some k -> (spread a b).*1 !! j = Some k' ->
  Js.precedes k' k = false.
Proof.
  apply sorted_lookup. rewrite spread_assignAll.
  apply sorted_assignAll, sorted_assignAll. apply SSorted_nil.
Qed.

End KeyOrder.

(** X25: whether the scope sequences of the table are distinct or not,
    [getResourceNameFromScopes] returns the name of the first resource, in
    the key order of the merged object, whose scope sequence is the given
    one, and [undefined] exactly when the table has no such resource.  The
    key order is the one in which [Object.keys] and [Object.values]
    enumerate the merged object: the names that are array indices first,
    in ascending order, then the other names, those of the remote
    resources before the new ones of the owned resources. *)
Theorem getResourceNameFromScopes_first_match
    (this : AuthProvider.t) (S : list string) :
  (forall (i j : nat) k k',
      (i < j)%nat ->
      (allResources this).*1 !! i = Some k ->
      (allResources this).*1 !! j = Some k' ->
      Js.precedes k' k = false) /\
  match getResourceNameFromScopes this S with
  | Some n =>
      exists (i : nat) r,
        allResources this !! i = Some (n, r) /\
        Resource.scopes r = Some S /\
        forall (j : nat) n' r',
          (j < i)%nat -> allResources this !! j = Some (n', r') ->
          Resource.scopes r' <> Some S
  | None =>
      forall n r, (n, r) ∈ allResources this -> Resource.scopes r <> Some S
  end.
Proof.
  split; [intros i j k k'; apply spread_key_order |].
  unfold getResourceNameFromScopes. cbv zeta. rewrite key_at_findIndex.
  destruct (List.find (fun kv => sameScopes S kv.2) (allResources this))
    as [[n r] |] eqn:Hf; cbn [fmap option_fmap option_map fst].
  - apply find_first in Hf as (i & Hi & Hsame & Hbefore).
    exists i, r. split; [done |]. split; [by apply sameScopes_true |].
    intros j n' r' Hj Hl Hs. specialize (Hbefore j (n', r') Hj Hl).
    cbn [snd] in Hbefore. apply sameScopes_true in Hs. congruence.
  - intros n r Hin Hs. apply list_elem_of_In in Hin.
    apply (find_none _ _ Hf) in Hin. cbn [snd] in Hin.
    apply sameScopes_true in Hs. congruence.
Qed.

(** A remote resource [api] and an owned resource [7] with the same
    scopes: the merged object enumerates [7] first, and that is the name
    the scopes resolve to.  With more names: the array indices in
    ascending order, then [b] of the remote table, then [a] and the names
    that only look like numbers. *)
Lemma getResourceNameFromScopes_first_match_witness :
  let provider remote owned :=
    AuthProvider.mk (AppSettings.mk Sample.routes remote owned None)
      "https://login.microsoftonline.com/tid" Sample.crypto
      (Sample.validator (Normal true) (Normal true))
      (Sample.client Sample.down Sample.down) in
  let this := provider [("api", Sample.mailAPI)] [("7", Sample.mailAPI)] in
  let more :=
    provider
      [("b", Sample.graphAPI); ("10", Sample.graphAPI); ("2", Sample.graphAPI)]
      [("a", Sample.ownAPI); ("01", Sample.ownAPI); ("1", Sample.ownAPI);
       ("4294967295", Sample.ownAPI); ("2", Sample.ownAPI)] in
  allResources this = [("7", Sample.mailAPI); ("api", Sample.mailAPI)] /\
  (allResources more).*1 = ["1"; "2"; "10"; "b"; "a"; "01"; "4294967295"] /\
  getResourceNameFromScopes this ["Mail.Read"] = Some "7" /\
  exists (i : nat) r,
    allResources this !! i = Some ("7", r) /\
    Resource.scopes r = Some ["Mail.Read"] /\
    forall (j : nat) n' r',
      (j < i)%nat -> allResources this !! j = Some (n', r') ->
      Resource.scopes r' <> Some ["Mail.Read"].
Proof.
  cbv zeta. split; [reflexivity |]. split; [reflexivity |].
  split; [reflexivity |].
  exact (proj2 (getResourceNameFromScopes_first_match
                  (AuthProvider.mk
                     (AppSettings.mk Sample.routes [("api", Sample.mailAPI)]
                        [("7", Sample.mailAPI)] None)
                     "https://login.microsoftonline.com/tid" Sample.crypto
                     (Sample.validator (Normal true) (Normal true))
                     (Sample.client Sample.down Sample.down))
                  ["Mail.Read"])).
Defined.

(** ** The merged table, in full *)

Section MergeInverse.

Context {A : Type}.
Implicit Types (t a b : JsObj A) (k : string) (v : A).

Lemma elem_of_assign_inv t k v k' v' :
  (k', v') ∈ assign t k v -> (k', v') = (k, v) \/ (k', v') ∈ t.
Proof.
  destruct (assign_cases t k v) as [[_ ->] | [_ ->]].
  - apply elem_of_replace_inv.
  - by intros ?%elem_of_define.
Qed.

Lemma keys_define t k v :
  forall k', k' ∈ (define t k v).*1 <-> k' = k \/ k' ∈ t.*1.
Proof.
  induction t as [|[k0 v0] t IH]; intros k'; cbn [define].
  - cbn [fmap list_fmap fst]. rewrite list_elem_of_singleton, elem_of_nil.
    tauto.
  - destruct (Js.precedes k k0); cbn [fmap list_fmap fst];
      rewrite !elem_of_cons.
    + tauto.
    + rewrite IH. tauto.
Qed.

Lemma NoDup_define t k v :
  k ∉ t.*1 -> NoDup (t.*1) -> NoDup ((define t k v).*1).
Proof.
  induction t as [|[k0 v0] t IH]; cbn [define].
  - intros _ _. cbn [fmap list_fmap fst]. apply NoDup_singleton.
  - cbn [fmap list_fmap fst].
    intros [Hne Hk]%not_elem_of_cons [Hk0 Hnd]%NoDup_cons.
    destruct (Js.precedes k k0); cbn [fmap list_fmap fst].
    + apply NoDup_cons. split; [by apply not_elem_of_cons |].
      by apply NoDup_cons.
    + apply NoDup_cons. split; [| by apply IH].
      rewrite keys_define. intros [-> | Hin]; done.
Qed.

Lemma keys_assign t k v :
  forall k', k' ∈ (assign t k v).*1 <-> k' = k \/ k' ∈ t.*1.
Proof.
  intros k'. destruct (assign_cases t k v) as [[Hin ->] | [_ ->]].
  - rewrite keys_replace. split; [by right | by intros [-> | ?]].
  - apply keys_define.
Qed.

Lemma NoDup_assign t k v : NoDup (t.*1) -> NoDup ((assign t k v).*1).
Proof.
  destruct (assign_cases t k v) as [[_ ->] | [Hnot ->]].
  - by rewrite keys_replace.
  - by apply NoDup_define.
Qed.

(** With distinct keys, the entry under [k] is the assigned one. *)
Lemma elem_of_assign_key t k v v' :
  NoDup (t.*1) -> (k, v') ∈ assign t k v -> v' = v.
Proof.
  destruct (assign_cases t k v) as [[_ ->] | [Hnot ->]].
  - induction t as [|[k0 v0] t IH]; cbn [replace].
    + by intros _ ?%elem_of_nil.
    + cbn [fmap list_fmap fst]. intros [Hk0 Hnd]%NoDup_cons.
      destruct (String.eqb_spec k0 k) as [-> | Hne].
      * intros [[= ->] | Hin]%elem_of_cons; [done |].
        exfalso. apply Hk0. apply list_elem_of_fmap. by exists (k, v').
      * intros [[= -> ->] | Hin]%elem_of_cons; [done | by apply IH].
  - intros _ [[= ->] | Hin]%elem_of_define; [done |].
    exfalso. apply Hnot. apply list_elem_of_fmap. by exists (k, v').
Qed.

Lemma elem_of_assignAll_inv a b k v :
  NoDup (a.*1) -> NoDup (b.*1) ->
  (k, v) ∈ assignAll a b ->
  (k, v) ∈ b \/ ((k, v) ∈ a /\ k ∉ b.*1).
Proof.
  unfold assignAll. revert a.
  induction b as [|[k' v'] b IH]; intros a Ha Hb Hin.
  - right. split; [done | by intros ?%elem_of_nil].
  - cbn [fmap list_fmap fst] in Hb. apply NoDup_cons in Hb as [Hk' Hb].
    cbn [fold_left fst snd] in Hin.
    destruct (IH (assign a k' v') (NoDup_assign a k' v' Ha) Hb Hin)
      as [Hin' | [Hin' Hk]].
    + left. by right.
    + destruct (decide (k = k')) as [-> | Hne].
      * rewrite (elem_of_assign_key a k' v' v Ha Hin'). left. by left.
      * right. split.
        -- destruct (elem_of_assign_inv _ _ _ _ _ Hin') as [[= -> ->] | ?];
             done.
        -- cbn [fmap list_fmap fst]. by apply not_elem_of_cons.
Qed.

End MergeInverse.

(** X26: in the table that [getResourceNameFromScopes] searches, an owned
    resource takes the place of a remote resource of the same name: when
    the names within each of the two objects are distinct (as the keys of
    an object are), the table has exactly the owned resources and the
    remote resources whose name is not the name of an owned one. *)
Theorem allResources_owned_take_precedence
    (this : AuthProvider.t) (n : string) (r : Resource.t) :
  let owned := AppSettings.ownedResources (AuthProvider.appSettings this) in
  let remote := AppSettings.remoteResources (AuthProvider.appSettings this) in
  NoDup (owned.*1) -> NoDup (remote.*1) ->
  (n, r) ∈ allResources this
  <-> (n, r) ∈ owned \/ ((n, r) ∈ remote /\ n ∉ owned.*1).
Proof.
  cbv zeta. intros Howned Hremote. split.
  - unfold allResources. rewrite spread_assignAll. intros Hin.
    apply elem_of_assignAll_inv in Hin as [Hin | [Hin Hn]];
      [by left | | | done].
    + right. split; [| done].
      apply elem_of_assignAll_inv in Hin as [Hin | [Hin _]];
        [done | by apply elem_of_nil in Hin | apply NoDup_nil_2 | done].
    + clear Hin.
      induction (AppSettings.remoteResources (AuthProvider.appSettings this))
        as [|[k v] l IH] using rev_ind; [apply NoDup_nil_2 |].
      unfold assignAll. rewrite fold_left_app. cbn [fold_left fst snd].
      apply NoDup_assign. apply IH.
      rewrite fmap_app in Hremote. by apply NoDup_app in Hremote as [? _].
  - intros [Hin | [Hin Hn]].
    + by apply allResources_owned.
    + by apply allResources_remote.
Qed.

Lemma allResources_owned_take_precedence_witness :
  let this :=
    AuthProvider.mk
      (AppSettings.mk Sample.routes
         [("api", Sample.graphAPI); ("mailAPI", Sample.mailAPI)]
         [("api", Sample.ownAPI)] None)
      "https://login.microsoftonline.com/tid" Sample.crypto
      (Sample.validator (Normal true) (Normal true))
      (Sample.client Sample.down Sample.down) in
  (("api", Sample.ownAPI) ∈ allResources this /\
   ("mailAPI", Sample.mailAPI) ∈ allResources this) /\
  ("api", Sample.graphAPI) ∉ allResources this.
Proof.
  cbv zeta. split; [split |].
  - apply allResources_owned_take_precedence.
    + apply NoDup_singleton.
    + cbn. apply NoDup_cons. split; [| apply NoDup_singleton].
      by intros [=]%list_elem_of_singleton.
    + left. by left.
  - apply allResources_owned_take_precedence.
    + apply NoDup_singleton.
    + cbn. apply NoDup_cons. split; [| apply NoDup_singleton].
      by intros [=]%list_elem_of_singleton.
    + right. split; [right; by left |].
      by intros [=]%list_elem_of_singleton.
  - intros Hin. apply allResources_owned_take_precedence in Hin.
    + destruct Hin as [[[=] | Hin]%elem_of_cons | [_ Hn]].
      * by apply elem_of_nil in Hin.
      * apply Hn. by left.
    + apply NoDup_singleton.
    + cbn. apply NoDup_cons. split; [| apply NoDup_singleton].
      by intros [=]%list_elem_of_singleton.
Defined.

(** X27: a session whose user never signed in has no account: on a route
    of the access matrix [hasAccess] then raises a TypeError where it reads
    the claims, for a groups rule as for a roles rule, and the request gets
    neither a redirect nor [next()]. *)
Theorem hasAccess_without_account_throws
    (this : AuthProvider.t) (rt : Runtime.t) (options : GuardOptions.t)
    (req : Request.t) (sess : Session.t) :
  is_Some (AppSettings.accessMatrix (AuthProvider.appSettings this)) ->
  Session.account sess = None ->
  run (hasAccess this rt options req) (Some sess)
  = (Throw TypeError, mkWorld (Some sess) []).
Proof.
  intros Hm Hacc. apply hasAccess_no_claims; [done |]. by rewrite Hacc.
Qed.

Lemma hasAccess_without_account_throws_witness :
  run (hasAccess Sample.quietProvider Sample.quietRuntime
         (GuardOptions.mk Sample.staffRule)
         (Sample.pageRequest "GET" "/staff" None))
      (Some Scenario.freshSession)
  = (Throw TypeError, mkWorld (Some Scenario.freshSession) []).
Proof.
  apply (hasAccess_without_account_throws Sample.quietProvider
           Sample.quietRuntime (GuardOptions.mk Sample.staffRule)
           (Sample.pageRequest "GET" "/staff" None) Scenario.freshSession).
  - by eexists.
  - reflexivity.
Defined.

(** ** The overage, resolved *)

Section OverageResolved.

Variable this : AuthProvider.t.
Variable rt : Runtime.t.
Variable req : Request.t.
Variable rule : AccessRule.t.
Variable sess : Session.t.
Variable account : Account.t.
Variable claims : gmap string JsValue.
Variable tokenResponse : AuthenticationResult.t.
Variable graphResponse : JsValue.
Variable groups : JsValue.

Hypothesis Haccount : Session.account sess = Some account.
Hypothesis Hclaims : Account.idTokenClaims account = Some claims.
Hypothesis Hsilent :
  MsalClient.acquireTokenSilent (AuthProvider.msalClient this)
    (graphTokenRequest sess) = Normal tokenResponse.
Hypothesis Hfetch :
  Runtime.callApiEndpoint rt memberOf
    (AuthenticationResult.accessToken tokenResponse) = Normal graphResponse.
Hypothesis Hgroups :
  fetched rt (AuthenticationResult.accessToken tokenResponse) graphResponse
    groups.

(** The claims are rewritten, then the rule is applied to the new [groups]
    claim: a refusal is answered with the redirect, an exception of the
    evaluator is logged, and nothing follows when the rule holds. *)
Lemma handleOverage_resolved :
  exists calls,
    run (handleOverage this rt req rule) (Some sess)
    = match applyAccessRule (Request.method req) rule groups true
              (mkWorld (Some (resolvedSession groups account claims sess))
                 calls) with
      | (Normal true, w) => (Normal tt, w)
      | (Normal false, w) =>
          (Normal tt,
           mkWorld (session w)
             (trace w ++ [ResRedirect (AuthRoutes.unauthorized (routesOf this))]))
      | (Throw e, w) =>
          (Normal tt, mkWorld (session w) (trace w ++ [ConsoleLogError e]))
      end.
Proof.
  destruct Hgroups as (link & Hlink & Hrest).
  pose proof Hsilent as Hsilent'. pose proof Hfetch as Hfetch'.
  unfold graphTokenRequest, memberOf in Hsilent', Hfetch'.
  rewrite Haccount in Hsilent'.
  unfold handleOverage, readClaims, acquireTokenSilent, callApiEndpoint,
    handlePagination, writeClaims, checkGroups, readClaims.
  repeat progress
    (js_compute; rewrite ?Haccount, ?Hclaims, ?Hsilent', ?Hfetch', ?Hlink).
  destruct (Js.truthy link); [| destruct Hrest as (value & Hvalue & Hids)];
    repeat progress
      (js_compute; rewrite ?Hrest, ?Hvalue, ?Hids, ?Haccount;
       cbn [Session.account Session.set_account Account.idTokenClaims
            Account.set_idTokenClaims]);
    unfold claim; rewrite lookup_insert_eq; cbn [default];
    unfold resolvedSession, resolvedClaims;
    match goal with
    | |- context [applyAccessRule _ _ _ _ (mkWorld _ ?tr)] => exists tr
    end;
    (destruct (applyAccessRule _ _ _ _ _) as [[[|] | e] [s tr]];
     reflexivity).
Qed.

(** What is left in the session, whatever the rule says. *)
Lemma handleOverage_resolved_session :
  session (run (handleOverage this rt req rule) (Some sess)).2
  = Some (resolvedSession groups account claims sess).
Proof.
  destruct handleOverage_resolved as [calls ->].
  destruct (applyAccessRule _ _ _ _ _) as [c w] eqn:Happly.
  apply applyAccessRule_world in Happly as [Hs _]. cbn [session] in Hs.
  by destruct c as [[|] | e].
Qed.

End OverageResolved.

(** X28: when the overage is resolved (the token for the directory is
    acquired and the directory answers with the groups), [handleOverage]
    rewrites the ID token claims of the session, whatever the rule then
    says: the [groups] claim is what the directory answered,
    [_claim_names] and [_claim_sources] are gone, and every other claim
    and the rest of the account are as before. *)
Theorem handleOverage_rewrites_claims
    (this : AuthProvider.t) (rt : Runtime.t) (req : Request.t)
    (rule : AccessRule.t) (sess : Session.t) (account : Account.t)
    (claims : gmap string JsValue) (tokenResponse : AuthenticationResult.t)
    (graphResponse groups : JsValue) :
  Session.account sess = Some account ->
  Account.idTokenClaims account = Some claims ->
  MsalClient.acquireTokenSilent (AuthProvider.msalClient this)
    (graphTokenRequest sess) = Normal tokenResponse ->
  Runtime.callApiEndpoint rt memberOf
    (AuthenticationResult.accessToken tokenResponse) = Normal graphResponse ->
  fetched rt (AuthenticationResult.accessToken tokenResponse) graphResponse
    groups ->
  exists claims',
    session (run (handleOverage this rt req rule) (Some sess)).2
    = Some (Session.set_account
              (Some (Account.set_idTokenClaims claims' account)) sess) /\
    claims' !! "groups" = Some groups /\
    claims' !! "_claim_names" = None /\
    claims' !! "_claim_sources" = None /\
    forall k,
      k <> "groups" -> k <> "_claim_names" -> k <> "_claim_sources" ->
      claims' !! k = claims !! k.
Proof.
  intros Haccount Hclaims Hsilent Hfetch Hgroups.
  exists (resolvedClaims groups claims). split.
  - by apply (handleOverage_resolved_session this rt req rule sess account
                claims tokenResponse graphResponse groups).
  - unfold resolvedClaims. split; [by rewrite lookup_insert_eq |].
    split; [rewrite lookup_insert_ne by done;
            rewrite lookup_delete_ne by done; by rewrite lookup_delete_eq |].
    split; [rewrite lookup_insert_ne by done; by rewrite lookup_delete_eq |].
    intros k H1 H2 H3.
    rewrite lookup_insert_ne by done.
    rewrite lookup_delete_ne by done. by rewrite lookup_delete_ne.
Qed.

Lemma handleOverage_rewrites_claims_witness :
  let this := Sample.provider Sample.down (Normal Sample.tokens)
                (Normal true) (Normal true) in
  let rt := Sample.runtime (Normal Sample.lastPage)
              (Throw (OtherError "unused")) in
  let req := Sample.pageRequest "GET" "/staff" None in
  let sess := Sample.signedIn Sample.overageClaims in
  exists claims',
    session (run (handleOverage this rt req Sample.staffRule) (Some sess)).2
    = Some (Session.set_account
              (Some (Account.set_idTokenClaims claims'
                       (Sample.account Sample.overageClaims))) sess) /\
    claims' !! "groups" = Some (JArray [JString "g-staff"; JString "g-2"]) /\
    claims' !! "_claim_names" = None /\
    claims' !! "_claim_sources" = None /\
    forall k,
      k <> "groups" -> k <> "_claim_names" -> k <> "_claim_sources" ->
      claims' !! k = Sample.overageClaims !! k.
Proof.
  cbv zeta.
  apply (handleOverage_rewrites_claims
           (Sample.provider Sample.down (Normal Sample.tokens)
              (Normal true) (Normal true))
           (Sample.runtime (Normal Sample.lastPage)
              (Throw (OtherError "unused")))
           (Sample.pageRequest "GET" "/staff" None)
           Sample.staffRule
           (Sample.signedIn Sample.overageClaims)
           (Sample.account Sample.overageClaims)
           Sample.overageClaims Sample.tokens Sample.lastPage
           (JArray [JString "g-staff"; JString "g-2"])).
  - reflexivity.
  - reflexivity.
  - reflexivity.
  - reflexivity.
  - exists JUndefined. split; [reflexivity |].
    exists (JArray [JObject [("id", JString "g-staff")];
                    JObject [("id", JString "g-2")]]).
    split; reflexivity.
Defined.

(** X29: the overage is resolved for the next request.  A request that
    [hasAccess] hands to the overage resolution is not passed on, but the
    session it leaves has the fetched [groups] claim: [hasAccess] on a
    later request of that session decides by the rule on the fetched
    groups, and calls [next()] exactly when [applyAccessRule] returns
    [true] for them. *)
Theorem hasAccess_after_overage
    (this : AuthProvider.t) (rt : Runtime.t) (options : GuardOptions.t)
    (req : Request.t) (sess : Session.t) (account : Account.t)
    (claims : gmap string JsValue) (set : list string)
    (tokenResponse : AuthenticationResult.t)
    (graphResponse groups : JsValue) :
  is_Some (AppSettings.accessMatrix (AuthProvider.appSettings this)) ->
  Session.account sess = Some account ->
  Account.idTokenClaims account = Some claims ->
  AccessRule.groups (GuardOptions.accessRule options) = Some set ->
  Js.strictEq (claim claims "groups") JUndefined = true ->
  Js.truthy (claim claims AccessConstants.CLAIM_NAMES) ||
  Js.truthy (claim claims AccessConstants.CLAIM_SOURCES) = true ->
  MsalClient.acquireTokenSilent (AuthProvider.msalClient this)
    (graphTokenRequest sess) = Normal tokenResponse ->
  Runtime.callApiEndpoint rt memberOf
    (AuthenticationResult.accessToken tokenResponse) = Normal graphResponse ->
  fetched rt (AuthenticationResult.accessToken tokenResponse) graphResponse
    groups ->
  Js.strictEq groups JUndefined = false ->
  let first := (run (hasAccess this rt options req) (Some sess)).2 in
  exists after,
    session first = Some after /\
    (NextCalled ∉ trace first) /\
    forall later : Request.t,
      NextCalled ∈ trace (run (hasAccess this rt options later) (Some after)).2
      <-> (applyAccessRule (Request.method later)
             (GuardOptions.accessRule options) groups true
             (start (Some after))).1 = Normal true.
Proof.
  intros Hm Haccount Hclaims Hrule Habsent Hover Hsilent Hfetch Hgroups
    Hpresent.
  assert (Hguarded : guarded this sess claims)
    by (split; [done | by exists account]).
  cbv zeta. exists (resolvedSession groups account claims sess).
  rewrite (hasAccess_groups_absent this rt options req sess claims set)
    by done.
  rewrite Hover. split; [| split].
  - by apply (handleOverage_resolved_session this rt req
                (GuardOptions.accessRule options) sess account claims
                tokenResponse graphResponse groups).
  - apply (count_zero_not_elem isNext); [| reflexivity].
    apply (keeps_run (countFrame isNext)), next_free_handleOverage.
  - intros later.
    assert (Hlookup : claim (resolvedClaims groups claims) "groups" = groups).
    { unfold claim, resolvedClaims. by rewrite lookup_insert_eq. }
    assert (Hafter : guarded this (resolvedSession groups account claims sess)
                       (resolvedClaims groups claims)).
    { split; [done |]. eexists. split; reflexivity. }
    rewrite (hasAccess_groups_next_iff this rt options later _ set Hrule).
    split.
    + intros (sess' & claims' & [= <-] & [_ (account' & Hacc & Hcl)] & _ & Hok).
      injection Hacc as <-. injection Hcl as <-. by rewrite Hlookup in Hok.
    + intros Hok. eexists _, _. split; [reflexivity |].
      split; [exact Hafter |]. rewrite Hlookup. by split.
Qed.

Lemma hasAccess_after_overage_witness :
  let this := Sample.provider Sample.down (Normal Sample.tokens)
                (Normal true) (Normal true) in
  let rt := Sample.runtime (Normal Sample.lastPage)
              (Throw (OtherError "unused")) in
  let options := GuardOptions.mk Sample.staffRule in
  let req := Sample.pageRequest "GET" "/staff" None in
  let first :=
    (run (hasAccess this rt options req)
       (Some (Sample.signedIn Sample.overageClaims))).2 in
  exists after,
    session first = Some after /\
    (NextCalled ∉ trace first) /\
    forall later : Request.t,
      NextCalled ∈ trace (run (hasAccess this rt options later) (Some after)).2
      <-> (applyAccessRule (Request.method later) Sample.staffRule
             (JArray [JString "g-staff"; JString "g-2"]) true
             (start (Some after))).1 = Normal true.
Proof.
  cbv zeta.
  apply (hasAccess_after_overage
           (Sample.provider Sample.down (Normal Sample.tokens)
              (Normal true) (Normal true))
           (Sample.runtime (Normal Sample.lastPage)
              (Throw (OtherError "unused")))
           (GuardOptions.mk Sample.staffRule)
           (Sample.pageRequest "GET" "/staff" None)
           (Sample.signedIn Sample.overageClaims)
           (Sample.account Sample.overageClaims)
           Sample.overageClaims ["g-staff"] Sample.tokens Sample.lastPage
           (JArray [JString "g-staff"; JString "g-2"])).
  - by eexists.
  - reflexivity.
  - reflexivity.
  - reflexivity.
  - reflexivity.
  - reflexivity.
  - reflexivity.
  - reflexivity.
  - exists JUndefined. split; [reflexivity |].
    exists (JArray [JObject [("id", JString "g-staff")];
                    JObject [("id", JString "g-2")]]).
    split; reflexivity.
  - reflexivity.
Defined.
